(** * CarbonChain front end: a shallow embedding of the claim life-cycle pages

    The development follows the TypeScript sources under [frontend/src]:
    the shared types ([types/index.ts]), the submission wizard
    ([pages/SubmitClaim.tsx]), the review dashboards
    ([pages/AuthorityDashboard.tsx], which also holds [CommunityReview]),
    the claim page ([pages/ClaimDetail.tsx]) and the components
    [ClaimTimeline], [AIVerdictCard] and [EvidenceUploader].

    Conventions.
    - A JavaScript [number] that a handler receives is finite (it comes
      from a numeric form input or from JSON) and is given by its value,
      a rational ([Q]); comparisons are those of the values.  The
      result of the arithmetic of [handleMint] is a [JS.Number]: the
      binary64 value nearest to the exact result, or an infinity.  The
      area computations, which feed no comparison of the pages, are
      carried out on the exact values.
    - A JavaScript string is a [string], read as its sequence of code
      units below 256.
    - An [async] handler is a computation in the monad [Async.M]: it
      threads the pending component state, logs the observable effects
      (requests, console output, navigation) and either resolves or
      rejects.  Whatever a request resolves to is supplied by the caller
      as an [Outcome].  A handler runs to completion within one event,
      except [handleFiles] of the uploader, whose wait for the previews
      spans events. *)

From Stdlib Require Import Ascii String QArith Qabs Qround Qpower Lqa.
From stdpp Require Import base strings list gmap.

Local Open Scope string_scope.
Local Open Scope list_scope.
Local Close Scope Q_scope.

(** ** JavaScript values *)

Module JS.

(** [WhiteSpace] and [LineTerminator] code units below 256, the ones
    [String.prototype.trim] strips: TAB, LF, VT, FF, CR, SP, NBSP. *)
Definition isWhiteSpace (c : ascii) : bool :=
  let n := nat_of_ascii c in
  (n =? 9)%nat || (n =? 10)%nat || (n =? 11)%nat || (n =? 12)%nat
  || (n =? 13)%nat || (n =? 32)%nat || (n =? 160)%nat.

Fixpoint trimStart (s : string) : string :=
  match s with
  | EmptyString => EmptyString
  | String c r => if isWhiteSpace c then trimStart r else s
  end.

(** [trimEnd] keeps a character when it is not white space or when
    something is left after it. *)
Fixpoint trimEnd (s : string) : string :=
  match s with
  | EmptyString => EmptyString
  | String c r =>
      match trimEnd r with
      | EmptyString => if isWhiteSpace c then EmptyString else String c EmptyString
      | r' => String c r'
      end
  end.

Definition trim (s : string) : string := trimEnd (trimStart s).

(** [String.prototype.startsWith]. *)
Fixpoint startsWith (p s : string) : bool :=
  match p, s with
  | EmptyString, _ => true
  | String a p', String b s' => if Ascii.eqb a b then startsWith p' s' else false
  | String _ _, EmptyString => false
  end.

(** Truthiness: [""] and [undefined] are falsy, as is the number 0. *)
Definition truthy_string (s : string) : bool :=
  match s with EmptyString => false | String _ _ => true end.

Definition truthy_opt_string (o : option string) : bool :=
  match o with Some s => truthy_string s | None => false end.

Definition truthy_number (x : Q) : bool := negb (Qeq_bool x 0).

Definition truthy_opt_number (o : option Q) : bool :=
  match o with Some x => truthy_number x | None => false end.

(** *** Numbers

    The Number type: the binary64 values.  The finite ones are given
    by their value; the sign of a zero is not kept. *)
Inductive Number :=
| NaN
| Infinity (negative : bool)
| Finite (q : Q).

(** The integer nearest to [x], the even one of two that are equally
    near. *)
Definition round_half_even (x : Q) : Z :=
  let f := Qfloor x in
  match Qcompare (x - inject_Z f) (1 # 2) with
  | Lt => f
  | Gt => (f + 1)%Z
  | Eq => if Z.even f then f else (f + 1)%Z
  end.

(** For a positive [x], the exponent [e] with [2 ^ e <= x < 2 ^ (e + 1)]. *)
Definition ilog2 (x : Q) : Z :=
  let k := (Z.log2 (Qnum x) - Z.log2 (Zpos (Qden x)))%Z in
  if Qle_bool (2 ^ k) x then k else (k - 1)%Z.

(** For a positive [x], the nearest of the values [m * 2 ^ (e - 52)],
    [m] an integer of at most 53 bits and [e >= -1022], the one with
    the even [m] of two that are equally near (roundTiesToEven); the
    exponent is not bounded above here. *)
Definition nearest (x : Q) : Q :=
  let e := Z.max (ilog2 x) (-1022) in
  (inject_Z (round_half_even (x / 2 ^ (e - 52))) * 2 ^ (e - 52))%Q.

(** The Number value for a real [x]: the nearest finite value, and an
    infinity when that nearest value would be [2 ^ 1024] or beyond. *)
Definition number_value (x : Q) : Number :=
  match Qcompare x 0 with
  | Eq => Finite 0
  | Gt => let v := nearest x in
          if Qle_bool (2 ^ 1024) v then Infinity false else Finite v
  | Lt => let v := nearest (- x) in
          if Qle_bool (2 ^ 1024) v then Infinity true else Finite (- v)
  end.

(** Whether the rational [x] is the value of a finite number. *)
Definition is_double (x : Q) : bool :=
  match number_value x with
  | Finite v => Qeq_bool v x
  | _ => false
  end.

(** [x + y] for finite [x] and [y]. *)
Definition number_add (x y : Q) : Number := number_value (x + y).

(** [x / y] for a finite [y] other than 0. *)
Definition number_div (x : Number) (y : Q) : Number :=
  match x with
  | Finite a => number_value (a / y)
  | Infinity negative => Infinity (if Qle_bool 0 y then negative else negb negative)
  | NaN => NaN
  end.

(** [x < n] and [n <= x] for a number [n] and a finite [x]; both are
    false of [NaN]. *)
Definition number_gt (n : Number) (x : Q) : Prop :=
  match n with
  | Finite a => (x < a)%Q
  | Infinity negative => negative = false
  | NaN => False
  end.

Definition number_le (n : Number) (x : Q) : Prop :=
  match n with
  | Finite a => (a <= x)%Q
  | Infinity negative => negative = true
  | NaN => False
  end.

(** [a || b] on possibly undefined strings. *)
Definition or_string (a : option string) (b : option string) : option string :=
  if truthy_opt_string a then a else b.

(** [x <= y] on numbers. *)
Definition le (x y : Q) : bool := Qle_bool x y.

(** What a thrown value exposes to the handlers:
    [error.response?.data?.detail] and [error.message]. *)
Record Error := mkError {
  response_data_detail : option string;
  message : option string
}.

(** [String.prototype.toLowerCase] on code units below 256: the letters
    A-Z and the capital letters of Latin-1 (192-222, but for the
    multiplication sign 215) move up by 32. *)
Definition toLowerCase_unit (c : ascii) : ascii :=
  let n := nat_of_ascii c in
  if ((65 <=? n)%nat && (n <=? 90)%nat)
     || ((192 <=? n)%nat && (n <=? 222)%nat && negb (n =? 215)%nat)
  then ascii_of_nat (n + 32) else c.

Fixpoint toLowerCase (s : string) : string :=
  match s with
  | EmptyString => EmptyString
  | String c r => String (toLowerCase_unit c) (toLowerCase r)
  end.

(** [s.includes(sub)]: [sub] occurs in [s]. *)
Fixpoint includes (s sub : string) : bool :=
  startsWith sub s
  || match s with
     | EmptyString => false
     | String _ r => includes r sub
     end.

(** [s.endsWith(suffix)]. *)
Fixpoint endsWith (suffix s : string) : bool :=
  String.eqb s suffix
  || match s with
     | EmptyString => false
     | String _ r => endsWith suffix r
     end.

(** How a regular expression with the [i] flag (and without [u]) sees a
    code unit below 256 when the pattern holds ASCII only: the ASCII
    letters lose their case, every other unit stands for itself. *)
Definition foldCase_unit (c : ascii) : ascii :=
  let n := nat_of_ascii c in
  if (65 <=? n)%nat && (n <=? 90)%nat then ascii_of_nat (n + 32) else c.

Fixpoint foldCase (s : string) : string :=
  match s with
  | EmptyString => EmptyString
  | String c r => String (foldCase_unit c) (foldCase r)
  end.

(** [/\.(e1|e2|...)$/i.test(s)] for lower-case extensions. *)
Definition testExtension (extensions : list string) (s : string) : bool :=
  existsb (fun e => endsWith ("." +:+ e) (foldCase s)) extensions.

(** The property names every object inherits from [Object.prototype]:
    looking one of them up in an object literal does not give
    [undefined]. *)
Definition objectPrototypeNames : list string :=
  ["constructor"; "__defineGetter__"; "__defineSetter__"; "hasOwnProperty";
   "__lookupGetter__"; "__lookupSetter__"; "isPrototypeOf"; "propertyIsEnumerable";
   "toString"; "valueOf"; "__proto__"; "toLocaleString"].

End JS.

(** ** Asynchronous handlers *)

Module Async.

Inductive Outcome (A : Type) : Type :=
| Resolved (a : A)
| Rejected (e : JS.Error).
Arguments Resolved {A} a.
Arguments Rejected {A} e.

Section Monad.
Context {S E : Type}.

(** A handler maps the pending state to the effects it performed, the
    new pending state and its completion. *)
Definition M (A : Type) : Type := S -> list E * S * Outcome A.

Definition ret {A} (a : A) : M A := fun s => ([], s, Resolved a).

Definition bind {A B} (m : M A) (k : A -> M B) : M B :=
  fun s =>
    match m s with
    | (l1, s1, Resolved a) =>
        match k a s1 with (l2, s2, r) => (l1 ++ l2, s2, r) end
    | (l1, s1, Rejected e) => (l1, s1, Rejected e)
    end.

(** [setX(f)]: a state update. *)
Definition set (f : S -> S) : M unit := fun s => ([], f s, Resolved tt).

(** Reading a variable of the enclosing closure. *)
Definition gets {A} (f : S -> A) : M A := fun s => ([], s, Resolved (f s)).

(** An effect that cannot fail ([console.error], [navigate], [alert]). *)
Definition emit (e : E) : M unit := fun s => ([e], s, Resolved tt).

(** [await request]: the request is logged and completes as the
    environment decides. *)
Definition await {A} (e : E) (o : Outcome A) : M A := fun s => ([e], s, o).

(** A synchronous call that may throw. *)
Definition lift {A} (o : Outcome A) : M A := fun s => ([], s, o).

(** [try { m } catch (error) { h error }]. *)
Definition try_catch {A} (m : M A) (h : JS.Error -> M A) : M A :=
  fun s =>
    match m s with
    | (l1, s1, Resolved a) => (l1, s1, Resolved a)
    | (l1, s1, Rejected e) =>
        match h e s1 with (l2, s2, r) => (l1 ++ l2, s2, r) end
    end.

(** [try { m } finally { f }]: [f] runs on both exits, and the
    completion of [m] is kept unless [f] itself throws. *)
Definition try_finally {A} (m : M A) (f : M unit) : M A :=
  fun s =>
    match m s with
    | (l1, s1, r) =>
        match f s1 with
        | (l2, s2, Resolved _) => (l1 ++ l2, s2, r)
        | (l2, s2, Rejected e) => (l1 ++ l2, s2, Rejected e)
        end
    end.

Definition effects {A} (r : list E * S * Outcome A) : list E := r.1.1.
Definition final {A} (r : list E * S * Outcome A) : S := r.1.2.
Definition completion {A} (r : list E * S * Outcome A) : Outcome A := r.2.
End Monad.

Arguments M : clear implicits.

(** The handlers are written with stdpp's monad notation
    [x ← m; k] and [m;; k]. *)
#[global] Instance M_ret {S E} : MRet (M S E) := fun A => @ret S E A.
#[global] Instance M_bind {S E} : MBind (M S E) := fun A B k m => @bind S E A B m k.

End Async.

Import Async.

(** ** [types/index.ts] *)

Module Types.

Inductive ClaimStatus :=
| submitted
| ai_analysis_pending
| ai_analysis_in_progress
| verified
| ai_verified
| ai_rejected
| ai_analyzed
| authority_reviewed
| community_reviewed
| approved
| rejected
| minted.

#[global] Instance ClaimStatus_eq_dec : EqDecision ClaimStatus.
Proof. solve_decision. Defined.

Inductive ClaimType :=
| mangrove_restoration
| solar_installation
| wind_installation
| reforestation
| wetland_restoration
| avoided_deforestation
| other.

Record GeoLocation := mkGeoLocation {
  latitude : Q;
  longitude : Q;
  location_name : option string
}.

Record CarbonImpactEstimate := mkCarbonImpactEstimate {
  min_tonnes_co2e : Q;
  max_tonnes_co2e : Q;
  estimation_methodology : option string;
  time_horizon_years : Q
}.

(** [geometry_geojson?: any] is a GeoJSON object when present; its
    contents are not inspected. *)
Record GeoJson := mkGeoJson { geojson_text : string }.

Inductive GeometryType := point | buffer | polygon.
Inductive GeometrySource := user_point | user_drawn | authority_defined.

Record Claim := mkClaim {
  id : string;
  claim_type : ClaimType;
  title : string;
  description : string;
  location : option GeoLocation;
  geometry_geojson : option GeoJson;
  geometry_type : option GeometryType;
  geometry_source : option GeometrySource;
  area_hectares : option Q;
  carbon_impact_estimate : CarbonImpactEstimate;
  action_start_date : string;
  action_end_date : option string;
  stated_assumptions : list string;
  known_limitations : list string;
  submitter_name : string;
  submitter_contact : option string;
  status : ClaimStatus;
  created_at : string;
  updated_at : string;
  verification_id : option string
}.

Record ClaimSubmission := mkClaimSubmission {
  sub_claim_type : ClaimType;
  sub_title : string;
  sub_description : string;
  sub_location : option GeoLocation;
  sub_geometry_geojson : option GeoJson;
  sub_area_hectares : option Q;
  sub_carbon_impact_estimate : CarbonImpactEstimate;
  sub_action_start_date : string;
  sub_action_end_date : option string;
  sub_stated_assumptions : option (list string);
  sub_known_limitations : option (list string);
  sub_submitter_name : string;
  sub_submitter_contact : option string
}.

(** The browser's [File]: the handlers read its name, MIME type and
    size only. *)
Record File := mkFile {
  file_name : string;
  file_type : string;
  file_size : N
}.

Inductive EvidenceType := system_ai | user_upload | document | community_report.

Record Evidence := mkEvidence {
  ev_id : string;
  ev_claim_id : string;
  ev_type : EvidenceType;
  ev_source : string;
  ev_title : string;
  ev_description : string;
  ev_data_ref : string;
  ev_confidence_weight : Q;
  ev_hash : string;
  ev_created_at : string
}.

Inductive ReviewDecision := approve | reject.
Inductive ReviewRole := authority | community.

Record ReviewRecord := mkReviewRecord {
  rr_id : string;
  rr_claim_id : string;
  rr_reviewer_id : string;
  rr_role : ReviewRole;
  rr_decision : ReviewDecision;
  rr_confidence_score : option Q;
  rr_positives : list string;
  rr_concerns : list string;
  rr_notes : option string;
  rr_created_at : string
}.

Record ReviewSubmission := mkReviewSubmission {
  claim_id : string;
  reviewer_id : string;
  decision : ReviewDecision;
  confidence_score : option Q;
  positives : option (list string);
  concerns : option (list string);
  notes : option string
}.

Inductive CreditStatus := active | at_risk | partially_burned | fully_burned.

Record MintedCredit := mkMintedCredit {
  token_id : string;
  mc_claim_id : string;
  amount_tonnes_co2e : Q;
  mc_status : CreditStatus;
  remaining_tonnes_co2e : Q;
  baseline_ndvi : option Q;
  minted_at : string;
  is_simulated : bool;
  label : string
}.

Inductive Confidence := high | medium | low | very_low.
Inductive VerificationStatus := vs_pending | vs_in_progress | vs_completed | vs_failed.
Inductive VerificationOutcome := vo_approved | vo_rejected | vo_needs_review | vo_inconclusive.

Record VerifiedImpact := mkVerifiedImpact {
  vi_min_tonnes_co2e : Q;
  vi_max_tonnes_co2e : Q;
  point_estimate_tonnes_co2e : option Q;
  vi_confidence : Confidence;
  methodology_used : string;
  deviation_from_claim_percent : option Q
}.

Record VerificationResult := mkVerificationResult {
  vr_id : string;
  vr_claim_id : string;
  vr_status : VerificationStatus;
  outcome : option VerificationOutcome;
  verified_impact : option VerifiedImpact;
  overall_confidence : Confidence;
  summary : option string;
  vr_created_at : string;
  completed_at : option string
}.

(** The declared values of [AIConsistencyResult.verdict]. *)
Inductive Verdict := strongly_supports | partially_supports | contradicts.

(** The string a verdict is at run time. *)
Definition verdict_string (v : Verdict) : string :=
  match v with
  | strongly_supports => "strongly_supports"
  | partially_supports => "partially_supports"
  | contradicts => "contradicts"
  end.

Record AIConsistencyResult := mkAIConsistencyResult {
  ai_claim_id : string;
  claimed_min_co2e : Q;
  claimed_max_co2e : Q;
  estimated_min_co2e : Q;
  estimated_max_co2e : Q;
  deviation_percent : Q;
  verdict : Verdict;
  ai_confidence_score : Q;
  explanation : string;
  ai_created_at : string
}.

Record EvidenceSummary := mkEvidenceSummary {
  es_id : string;
  es_type : EvidenceType;
  es_source : string;
  es_title : string;
  es_confidence_weight : Q;
  es_hash : string;
  es_created_at : string;
  es_data_ref : option string
}.

Record MonitoringRun := mkMonitoringRun {
  mr_id : string;
  mr_claim_id : string;
  credit_id : string;
  run_date : string;
  current_ndvi : Q;
  mr_baseline_ndvi : Q;
  ndvi_delta : Q;
  degradation_percent : Q;
  burn_amount_tonnes_co2e : Q;
  credit_status_before : CreditStatus;
  credit_status_after : CreditStatus;
  mr_notes : option string
}.

Record PublicClaimResponse := mkPublicClaimResponse {
  claim : Claim;
  verification : option VerificationResult;
  authority_review : option ReviewRecord;
  community_review : option ReviewRecord;
  minted_credit : option MintedCredit;
  evidence : list EvidenceSummary;
  pc_status : ClaimStatus;
  can_mint : bool;
  mint_eligibility_reason : string;
  ai_verdict : option AIConsistencyResult;
  credit_status : option CreditStatus;
  credit_remaining_co2e : option Q;
  monitoring_history : list MonitoringRun
}.

(** The string a status is at run time. *)
Definition status_string (s : ClaimStatus) : string :=
  match s with
  | submitted => "submitted"
  | ai_analysis_pending => "ai_analysis_pending"
  | ai_analysis_in_progress => "ai_analysis_in_progress"
  | verified => "verified"
  | ai_verified => "ai_verified"
  | ai_rejected => "ai_rejected"
  | ai_analyzed => "ai_analyzed"
  | authority_reviewed => "authority_reviewed"
  | community_reviewed => "community_reviewed"
  | approved => "approved"
  | rejected => "rejected"
  | minted => "minted"
  end.

(** The twelve statuses, in the order of the type declaration. *)
Definition all_statuses : list ClaimStatus :=
  [submitted; ai_analysis_pending; ai_analysis_in_progress; verified; ai_verified;
   ai_rejected; ai_analyzed; authority_reviewed; community_reviewed; approved;
   rejected; minted].

End Types.

(** ** [pages/SubmitClaim.tsx] *)

Module SubmitClaim.
Import Types.

Record FormLocation := mkFormLocation {
  lat : Q;
  lng : Q;
  loc_polygon : option (list (Q * Q))
}.

Record FormData := mkFormData {
  fd_claim_type : ClaimType;
  fd_title : string;
  fd_description : string;
  fd_location : option FormLocation;
  fd_geometry_geojson : option GeoJson;
  fd_area_hectares : option Q;
  fd_carbon_impact_estimate : CarbonImpactEstimate;
  fd_action_start_date : string;
  fd_action_end_date : option string;
  fd_stated_assumptions : list string;
  fd_known_limitations : list string;
  fd_submitter_name : string;
  fd_submitter_contact : option string;
  evidenceFiles : list File
}.

(** The [useState] cells of the component. *)
Record State := mkState {
  currentStep : nat;
  isSubmitting : bool;
  uploadingEvidence : bool;
  formData : FormData;
  errors : gmap string string
}.

Definition setCurrentStep (f : nat -> nat) (st : State) : State :=
  mkState (f (currentStep st)) (isSubmitting st) (uploadingEvidence st)
          (formData st) (errors st).
Definition setIsSubmitting (b : bool) (st : State) : State :=
  mkState (currentStep st) b (uploadingEvidence st) (formData st) (errors st).
Definition setUploadingEvidence (b : bool) (st : State) : State :=
  mkState (currentStep st) (isSubmitting st) b (formData st) (errors st).
Definition setErrors (e : gmap string string) (st : State) : State :=
  mkState (currentStep st) (isSubmitting st) (uploadingEvidence st)
          (formData st) e.

Definition steps_length : nat := 6.

Inductive Effect :=
| ApiSubmitClaim (submission : ClaimSubmission)
| ApiUploadEvidence (claimId : string) (files : list File)
| ConsoleError (label : string) (error : JS.Error)
| Navigate (path : string) (message : string) (aiAnalysisPending : bool).

(** What the outside answers while one handler runs: the two requests
    and [new Date(s).toISOString()], which throws on an invalid date. *)
Record Env := mkEnv {
  submitClaim : ClaimSubmission -> Outcome Claim;
  uploadEvidence : string -> list File -> Outcome (list Evidence);
  toISOString : string -> Outcome string
}.

(** [if (c) newErrors.k = msg;] *)
Definition check (c : bool) (k msg : string)
    (newErrors : gmap string string) : gmap string string :=
  if c then <[k := msg]> newErrors else newErrors.

(** The [newErrors] record that [validateStep] builds.  [claim_type]
    always holds one of the seven type names, so case 1 adds nothing. *)
Definition newErrors (fd : FormData) (step : nat) : gmap string string :=
  match step with
  | 1 => ∅
  | 2 =>
      check (negb (JS.truthy_string (JS.trim (fd_submitter_name fd))))
            "submitter_name" "Your name is required"
      (check (Nat.ltb (String.length (fd_description fd)) 20)
            "description" "Description must be at least 20 characters"
      (check (negb (JS.truthy_string (JS.trim (fd_description fd))))
            "description" "Description is required"
      (check (Nat.ltb (String.length (fd_title fd)) 5)
            "title" "Title must be at least 5 characters"
      (check (negb (JS.truthy_string (JS.trim (fd_title fd))))
            "title" "Title is required" ∅))))
  | 3 =>
      check (negb (bool_decide (is_Some (fd_location fd)))
             && negb (bool_decide (is_Some (fd_geometry_geojson fd))))
            "location" "Please select a location on the map" ∅
  | 4 =>
      let cie := fd_carbon_impact_estimate fd in
      check (negb (JS.truthy_string (fd_action_start_date fd)))
            "action_start_date" "Action start date is required"
      (check (JS.le (max_tonnes_co2e cie) (min_tonnes_co2e cie))
            "carbon_impact" "Maximum CO₂ impact must be greater than minimum"
      (check (JS.le (min_tonnes_co2e cie) 0)
            "carbon_impact" "Minimum CO₂ impact must be greater than 0" ∅))
  | _ => ∅
  end.

(** [validateStep]: stores the errors and tells whether there are none
    ([Object.keys(newErrors).length === 0]). *)
Definition validateStep (fd : FormData) (step : nat) : M State Effect bool :=
  set (setErrors (newErrors fd step));;
  mret (bool_decide (size (newErrors fd step) = 0%nat)).

Definition handleNext (st : State) : M State Effect unit :=
  ok ← validateStep (formData st) (currentStep st);
  if (ok : bool) then set (setCurrentStep (fun prev => Nat.min (prev + 1) steps_length))
  else mret tt.

Definition handlePrevious (st : State) : M State Effect unit :=
  set (setCurrentStep (fun prev => Nat.max (prev - 1) 1)).

Definition default_submit_error : string :=
  "Failed to submit claim. Please try again.".

(** [error.response?.data?.detail || error.message || '...'] *)
Definition errorMessage (error : JS.Error) : string :=
  default default_submit_error
    (JS.or_string
       (JS.or_string (JS.response_data_detail error) (JS.message error))
       (Some default_submit_error)).

Definition success_message : string :=
  "Claim submitted successfully! AI analysis is starting...".

(** The object literal of [handleSubmit]; its two dates are converted
    first, in field order, and either conversion may throw. *)
Definition buildSubmission (env : Env) (fd : FormData) : Outcome ClaimSubmission :=
  match toISOString env (fd_action_start_date fd) with
  | Rejected e => Rejected e
  | Resolved start =>
      let finish :=
        match fd_action_end_date fd with
        | Some d => if JS.truthy_string d
                    then match toISOString env d with
                         | Resolved iso => Resolved (Some iso)
                         | Rejected e => Rejected e
                         end
                    else Resolved None
        | None => Resolved None
        end in
      match finish with
      | Rejected e => Rejected e
      | Resolved end_date =>
          Resolved
            (mkClaimSubmission
               (fd_claim_type fd) (fd_title fd) (fd_description fd)
               (match fd_location fd with
                | Some l => Some (mkGeoLocation (lat l) (lng l) None)
                | None => None
                end)
               (fd_geometry_geojson fd) (fd_area_hectares fd)
               (mkCarbonImpactEstimate
                  (min_tonnes_co2e (fd_carbon_impact_estimate fd))
                  (max_tonnes_co2e (fd_carbon_impact_estimate fd))
                  (estimation_methodology (fd_carbon_impact_estimate fd))
                  (time_horizon_years (fd_carbon_impact_estimate fd)))
               start end_date
               (Some (filter (fun a => JS.truthy_string (JS.trim a) = true)
                             (fd_stated_assumptions fd)))
               (Some (filter (fun l => JS.truthy_string (JS.trim l) = true)
                             (fd_known_limitations fd)))
               (fd_submitter_name fd) (fd_submitter_contact fd))
      end
  end.

Definition isAnalysisStatus (s : ClaimStatus) : bool :=
  bool_decide (s = ai_analysis_pending) || bool_decide (s = ai_analysis_in_progress).

Definition handleSubmit (env : Env) (st : State) : M State Effect unit :=
  let fd := formData st in
  ok ← validateStep fd 4;
  if negb (ok : bool)
     || (negb (bool_decide (is_Some (fd_location fd)))
         && negb (bool_decide (is_Some (fd_geometry_geojson fd))))
  then mret tt
  else
    set (setIsSubmitting true);;
    try_finally
      (try_catch
         (submission ← lift (buildSubmission env fd);
          claim ← await (ApiSubmitClaim submission) (submitClaim env submission);
          (if Nat.ltb 0 (length (evidenceFiles fd))
           then
             set (setUploadingEvidence true);;
             try_finally
               (try_catch
                  (_ ← await (ApiUploadEvidence (id claim) (evidenceFiles fd))
                             (uploadEvidence env (id claim) (evidenceFiles fd));
                   mret tt)
                  (fun error => emit (ConsoleError "Error uploading evidence:" error)))
               (set (setUploadingEvidence false))
           else mret tt);;
          emit (Navigate ("/claim/" +:+ id claim) success_message
                         (isAnalysisStatus (status claim))))
         (fun error =>
            emit (ConsoleError "Error submitting claim:" error);;
            set (setErrors {[ "submit" := errorMessage error ]})))
      (set (setIsSubmitting false);; set (setUploadingEvidence false)).

(** [setFormData(prev => ...)] *)
Definition setFormData (f : FormData -> FormData) (st : State) : State :=
  mkState (currentStep st) (isSubmitting st) (uploadingEvidence st)
          (f (formData st)) (errors st).

(** The initial form; [today] is
    [new Date().toISOString().split('T')[0]]. *)
Definition initialFormData (today : string) : FormData :=
  mkFormData reforestation "" "" None None None
             (mkCarbonImpactEstimate 0 0 None 1) today None [""] [""] "" None [].

Definition initialState (today : string) : State :=
  mkState 1 false false (initialFormData today) ∅.

(** The spreads [{ ...prev, field: v }] of the inputs. *)
Definition with_claim_type (v : ClaimType) (fd : FormData) : FormData :=
  mkFormData v (fd_title fd) (fd_description fd) (fd_location fd)
    (fd_geometry_geojson fd) (fd_area_hectares fd) (fd_carbon_impact_estimate fd)
    (fd_action_start_date fd) (fd_action_end_date fd) (fd_stated_assumptions fd)
    (fd_known_limitations fd) (fd_submitter_name fd) (fd_submitter_contact fd)
    (evidenceFiles fd).
Definition with_title (v : string) (fd : FormData) : FormData :=
  mkFormData (fd_claim_type fd) v (fd_description fd) (fd_location fd)
    (fd_geometry_geojson fd) (fd_area_hectares fd) (fd_carbon_impact_estimate fd)
    (fd_action_start_date fd) (fd_action_end_date fd) (fd_stated_assumptions fd)
    (fd_known_limitations fd) (fd_submitter_name fd) (fd_submitter_contact fd)
    (evidenceFiles fd).
Definition with_description (v : string) (fd : FormData) : FormData :=
  mkFormData (fd_claim_type fd) (fd_title fd) v (fd_location fd)
    (fd_geometry_geojson fd) (fd_area_hectares fd) (fd_carbon_impact_estimate fd)
    (fd_action_start_date fd) (fd_action_end_date fd) (fd_stated_assumptions fd)
    (fd_known_limitations fd) (fd_submitter_name fd) (fd_submitter_contact fd)
    (evidenceFiles fd).
Definition with_submitter_name (v : string) (fd : FormData) : FormData :=
  mkFormData (fd_claim_type fd) (fd_title fd) (fd_description fd) (fd_location fd)
    (fd_geometry_geojson fd) (fd_area_hectares fd) (fd_carbon_impact_estimate fd)
    (fd_action_start_date fd) (fd_action_end_date fd) (fd_stated_assumptions fd)
    (fd_known_limitations fd) v (fd_submitter_contact fd)
    (evidenceFiles fd).
Definition with_submitter_contact (v : string) (fd : FormData) : FormData :=
  mkFormData (fd_claim_type fd) (fd_title fd) (fd_description fd) (fd_location fd)
    (fd_geometry_geojson fd) (fd_area_hectares fd) (fd_carbon_impact_estimate fd)
    (fd_action_start_date fd) (fd_action_end_date fd) (fd_stated_assumptions fd)
    (fd_known_limitations fd) (fd_submitter_name fd) (Some v)
    (evidenceFiles fd).
Definition with_location (l : FormLocation) (area : option Q) (fd : FormData) : FormData :=
  mkFormData (fd_claim_type fd) (fd_title fd) (fd_description fd) (Some l)
    (fd_geometry_geojson fd) area (fd_carbon_impact_estimate fd)
    (fd_action_start_date fd) (fd_action_end_date fd) (fd_stated_assumptions fd)
    (fd_known_limitations fd) (fd_submitter_name fd) (fd_submitter_contact fd)
    (evidenceFiles fd).
Definition with_carbon_impact_estimate (f : CarbonImpactEstimate -> CarbonImpactEstimate)
    (fd : FormData) : FormData :=
  mkFormData (fd_claim_type fd) (fd_title fd) (fd_description fd) (fd_location fd)
    (fd_geometry_geojson fd) (fd_area_hectares fd) (f (fd_carbon_impact_estimate fd))
    (fd_action_start_date fd) (fd_action_end_date fd) (fd_stated_assumptions fd)
    (fd_known_limitations fd) (fd_submitter_name fd) (fd_submitter_contact fd)
    (evidenceFiles fd).
Definition with_action_start_date (v : string) (fd : FormData) : FormData :=
  mkFormData (fd_claim_type fd) (fd_title fd) (fd_description fd) (fd_location fd)
    (fd_geometry_geojson fd) (fd_area_hectares fd) (fd_carbon_impact_estimate fd)
    v (fd_action_end_date fd) (fd_stated_assumptions fd)
    (fd_known_limitations fd) (fd_submitter_name fd) (fd_submitter_contact fd)
    (evidenceFiles fd).
Definition with_evidenceFiles (v : list File) (fd : FormData) : FormData :=
  mkFormData (fd_claim_type fd) (fd_title fd) (fd_description fd) (fd_location fd)
    (fd_geometry_geojson fd) (fd_area_hectares fd) (fd_carbon_impact_estimate fd)
    (fd_action_start_date fd) (fd_action_end_date fd) (fd_stated_assumptions fd)
    (fd_known_limitations fd) (fd_submitter_name fd) (fd_submitter_contact fd) v.

Definition with_min_tonnes_co2e (v : Q) (c : CarbonImpactEstimate) : CarbonImpactEstimate :=
  mkCarbonImpactEstimate v (max_tonnes_co2e c) (estimation_methodology c)
                         (time_horizon_years c).
Definition with_max_tonnes_co2e (v : Q) (c : CarbonImpactEstimate) : CarbonImpactEstimate :=
  mkCarbonImpactEstimate (min_tonnes_co2e c) v (estimation_methodology c)
                         (time_horizon_years c).
Definition with_time_horizon_years (v : Q) (c : CarbonImpactEstimate) : CarbonImpactEstimate :=
  mkCarbonImpactEstimate (min_tonnes_co2e c) (max_tonnes_co2e c)
                         (estimation_methodology c) v.
Definition with_estimation_methodology (v : string) (c : CarbonImpactEstimate)
    : CarbonImpactEstimate :=
  mkCarbonImpactEstimate (min_tonnes_co2e c) (max_tonnes_co2e c) (Some v)
                         (time_horizon_years c).

(** The [for] loop of [calculateArea]: for each index [i], with
    [j = (i + 1) % polygon.length], the running [area] gains
    [polygon[i][0] * polygon[j][1]] and loses
    [polygon[j][0] * polygon[i][1]].  Both indices are within the
    array. *)
Definition shoelace (polygon : list (Q * Q)) : Q :=
  foldl (fun area i =>
           let j := ((i + 1) mod length polygon)%nat in
           let pi := nth i polygon (0, 0)%Q in
           let pj := nth j polygon (0, 0)%Q in
           (area + pi.1 * pj.2 - pj.1 * pi.2)%Q)
        0%Q (seq 0 (length polygon)).

(** [calculateArea]:
    [Math.abs(area / 2) * 111320 * 111320 / 10000], in hectares. *)
Definition calculateArea (polygon : list (Q * Q)) : Q :=
  if Nat.ltb (length polygon) 3 then 0%Q
  else (Qabs (shoelace polygon / 2) * 111320 * 111320 / 10000)%Q.

(** The [onLocationSelect] passed to [MapSelector]; an array, even an
    empty one, is truthy. *)
Definition onLocationSelect (location : FormLocation) : M State Effect unit :=
  set (setFormData
         (with_location location
            (match loc_polygon location with
             | Some vertices => Some (calculateArea vertices)
             | None => None
             end))).

(** The content of a step sits in [<AnimatePresence mode="wait">]
    under [key={currentStep}]: when the step changes, the content shown
    so far stays mounted, its inputs live, until its exit animation of
    0.3 s is over, and only then the content of the step that is
    current by then is mounted.  The buttons "Previous", "Next" and
    "Submit Claim" are outside and follow [currentStep] at once.  A
    wizard is the cells of the component together with the step whose
    content is mounted. *)
Record Wizard := mkWizard {
  cells : State;
  shown : nat
}.
#[local] Coercion cells : Wizard >-> State.

(** What can happen to the mounted wizard.  An input belongs to the
    step that renders it, and all inputs update the form through
    [setFormData(prev => ...)]; "Next" is rendered before the last
    step and "Submit Claim" on it; "Previous" is disabled on the first
    step and while submitting, "Submit Claim" while submitting or
    uploading.  The numeric inputs deliver [Number(e.target.value)].
    The uploader reports its list once the previews of a batch are
    loaded, which may be after its step has been unmounted.
    [ExitComplete] is the end of an exit animation. *)
Inductive Event :=
| ClickClaimType (value : ClaimType)
| TypeTitle (value : string)
| TypeDescription (value : string)
| TypeSubmitterName (value : string)
| TypeSubmitterContact (value : string)
| SelectLocation (location : FormLocation)
| TypeMin (value : Q)
| TypeMax (value : Q)
| TypeTimeHorizon (value : Q)
| TypeStartDate (value : string)
| TypeMethodology (value : string)
| FilesChange (files : list File)
| ClickNext
| ClickPrevious
| ClickSubmit (env : Env)
| ExitComplete.

(** An input of step [n] is there while the content of step [n] is
    mounted. *)
Definition on_step (n : nat) (w : Wizard) (m : M State Effect unit)
    : M State Effect unit :=
  if Nat.eqb (shown w) n then m else mret tt.

Definition handler (w : Wizard) (ev : Event) : M State Effect unit :=
  match ev with
  | ClickClaimType value => on_step 1 w (set (setFormData (with_claim_type value)))
  | TypeTitle value => on_step 2 w (set (setFormData (with_title value)))
  | TypeDescription value => on_step 2 w (set (setFormData (with_description value)))
  | TypeSubmitterName value =>
      on_step 2 w (set (setFormData (with_submitter_name value)))
  | TypeSubmitterContact value =>
      on_step 2 w (set (setFormData (with_submitter_contact value)))
  | SelectLocation location => on_step 3 w (onLocationSelect location)
  | TypeMin value =>
      on_step 4 w
        (set (setFormData (with_carbon_impact_estimate (with_min_tonnes_co2e value))))
  | TypeMax value =>
      on_step 4 w
        (set (setFormData (with_carbon_impact_estimate (with_max_tonnes_co2e value))))
  | TypeTimeHorizon value =>
      on_step 4 w
        (set (setFormData (with_carbon_impact_estimate (with_time_horizon_years value))))
  | TypeStartDate value =>
      on_step 4 w (set (setFormData (with_action_start_date value)))
  | TypeMethodology value =>
      on_step 4 w
        (set (setFormData
                (with_carbon_impact_estimate (with_estimation_methodology value))))
  | FilesChange files => set (setFormData (with_evidenceFiles files))
  | ClickNext =>
      if Nat.ltb (currentStep w) steps_length then handleNext w else mret tt
  | ClickPrevious =>
      if Nat.eqb (currentStep w) 1 || isSubmitting w then mret tt
      else handlePrevious w
  | ClickSubmit env =>
      if Nat.ltb (currentStep w) steps_length
         || isSubmitting w || uploadingEvidence w
      then mret tt
      else handleSubmit env w
  | ExitComplete => mret tt
  end.

(** The wizard after an event: the handler has run on the cells, and
    at the end of an exit animation the content of the current step is
    mounted. *)
Definition step (w : Wizard) (ev : Event) : Wizard :=
  mkWizard (Async.final (handler w ev w))
           (match ev with
            | ExitComplete => currentStep w
            | _ => shown w
            end).

Definition initialWizard (today : string) : Wizard :=
  mkWizard (initialState today) 1.

Definition run (today : string) (evs : list Event) : Wizard :=
  foldl step (initialWizard today) evs.

End SubmitClaim.

(** A wizard is read as its cells where cells are expected. *)
Coercion SubmitClaim.cells : SubmitClaim.Wizard >-> SubmitClaim.State.

(** ** [pages/AuthorityDashboard.tsx]: [AuthorityDashboard] and [CommunityReview]

    The two components have the same cells and the same handlers up to
    the reviewer role: the status filter, the initial review form, the
    endpoint, and a few extra cells of the community page.  They are
    modelled once, with the role as a parameter. *)

Module ReviewPages.
Import Types.

Record State := mkState {
  claims : list Claim;
  selectedClaim : option Claim;
  (** [selectedClaimFull] in [AuthorityDashboard], [claimData] in
      [CommunityReview] *)
  claimData : option PublicClaimResponse;
  reviewData : ReviewSubmission;
  loading : bool;
  submitting : bool;
  (** [CommunityReview] only *)
  loadingClaimData : bool
}.

Definition setClaims (v : list Claim) (st : State) : State :=
  mkState v (selectedClaim st) (claimData st) (reviewData st)
          (loading st) (submitting st) (loadingClaimData st).
Definition setSelectedClaim (v : option Claim) (st : State) : State :=
  mkState (claims st) v (claimData st) (reviewData st)
          (loading st) (submitting st) (loadingClaimData st).
Definition setClaimData (v : option PublicClaimResponse) (st : State) : State :=
  mkState (claims st) (selectedClaim st) v (reviewData st)
          (loading st) (submitting st) (loadingClaimData st).
Definition setReviewData (f : ReviewSubmission -> ReviewSubmission) (st : State) : State :=
  mkState (claims st) (selectedClaim st) (claimData st) (f (reviewData st))
          (loading st) (submitting st) (loadingClaimData st).
Definition setLoading (v : bool) (st : State) : State :=
  mkState (claims st) (selectedClaim st) (claimData st) (reviewData st)
          v (submitting st) (loadingClaimData st).
Definition setSubmitting (v : bool) (st : State) : State :=
  mkState (claims st) (selectedClaim st) (claimData st) (reviewData st)
          (loading st) v (loadingClaimData st).
Definition setLoadingClaimData (v : bool) (st : State) : State :=
  mkState (claims st) (selectedClaim st) (claimData st) (reviewData st)
          (loading st) (submitting st) v.

(** Spreads [{ ...prev, field: v }] over a [ReviewSubmission]. *)
Definition with_claim_id (v : string) (r : ReviewSubmission) : ReviewSubmission :=
  mkReviewSubmission v (reviewer_id r) (decision r) (confidence_score r)
                     (positives r) (concerns r) (notes r).
Definition with_reviewer_id (v : string) (r : ReviewSubmission) : ReviewSubmission :=
  mkReviewSubmission (claim_id r) v (decision r) (confidence_score r)
                     (positives r) (concerns r) (notes r).
Definition with_confidence_score (v : Q) (r : ReviewSubmission) : ReviewSubmission :=
  mkReviewSubmission (claim_id r) (reviewer_id r) (decision r) (Some v)
                     (positives r) (concerns r) (notes r).
Definition with_decision (v : ReviewDecision) (r : ReviewSubmission) : ReviewSubmission :=
  mkReviewSubmission (claim_id r) (reviewer_id r) v (confidence_score r)
                     (positives r) (concerns r) (notes r).
Definition with_positives (v : list string) (r : ReviewSubmission) : ReviewSubmission :=
  mkReviewSubmission (claim_id r) (reviewer_id r) (decision r) (confidence_score r)
                     (Some v) (concerns r) (notes r).
Definition with_concerns (v : list string) (r : ReviewSubmission) : ReviewSubmission :=
  mkReviewSubmission (claim_id r) (reviewer_id r) (decision r) (confidence_score r)
                     (positives r) (Some v) (notes r).
Definition with_notes (v : string) (r : ReviewSubmission) : ReviewSubmission :=
  mkReviewSubmission (claim_id r) (reviewer_id r) (decision r) (confidence_score r)
                     (positives r) (concerns r) (Some v).

Inductive Effect :=
| ApiGetClaims
| ApiSubmitReview (role : ReviewRole) (submission : ReviewSubmission)
| ApiGetPublicClaim (claimId : string)
| ConsoleLogFound (found total : nat)
| ConsoleError (label : string) (error : JS.Error)
| Alert (message : string).

Record Env := mkEnv {
  getClaims : Outcome (list Claim);
  submitReview : ReviewSubmission -> Outcome ReviewRecord;
  getPublicClaim : string -> Outcome PublicClaimResponse
}.

Section Role.
Variable role : ReviewRole.

(** The initial value of the [reviewData] cell, which the handlers
    also restore after a submission. *)
Definition initialReviewData : ReviewSubmission :=
  match role with
  | authority =>
      mkReviewSubmission "" "Authority Reviewer #001" approve None
                         (Some [""]) (Some [""]) (Some "")
  | community =>
      mkReviewSubmission "" "Community Member" approve (Some (8 # 10)%Q)
                         (Some [""]) (Some [""]) (Some "")
  end.

Definition initialState : State :=
  mkState [] None None initialReviewData true false false.

(** The predicate of the [filter] in [fetchClaims]. *)
Definition reviewable (c : Claim) : bool :=
  match role with
  | authority =>
      bool_decide (status c = ai_verified)
      || bool_decide (status c = ai_analyzed)
      || bool_decide (status c = verified)
  | community => bool_decide (status c = authority_reviewed)
  end.

Definition fetchClaims (env : Env) : M State Effect unit :=
  try_finally
    (try_catch
       (set (setLoading true);;
        allClaims ← await ApiGetClaims (getClaims env);
        let pendingClaims := filter (fun c => reviewable c = true) allClaims in
        set (setClaims pendingClaims);;
        match role with
        | authority =>
            emit (ConsoleLogFound (length pendingClaims) (length allClaims))
        | community => mret tt
        end)
       (fun error => emit (ConsoleError "Error fetching claims:" error)))
    (set (setLoading false)).

(** The [onClick] of a row of the list ([handleClaimSelect] in
    [CommunityReview]). *)
Definition handleClaimSelect (env : Env) (c : Claim) : M State Effect unit :=
  set (setSelectedClaim (Some c));;
  set (setReviewData (with_claim_id (id c)));;
  match role with
  | authority =>
      try_catch
        (fullData ← await (ApiGetPublicClaim (id c)) (getPublicClaim env (id c));
         set (setClaimData (Some fullData)))
        (fun error =>
           emit (ConsoleError "Error fetching full claim data:" error);;
           set (setClaimData None))
  | community =>
      try_finally
        (try_catch
           (set (setLoadingClaimData true);;
            data ← await (ApiGetPublicClaim (id c)) (getPublicClaim env (id c));
            set (setClaimData (Some data)))
           (fun error => emit (ConsoleError "Error fetching claim data:" error)))
        (set (setLoadingClaimData false))
  end.

(** [!reviewData.notes?.trim()] *)
Definition notes_blank (r : ReviewSubmission) : bool :=
  negb (JS.truthy_opt_string (JS.trim <$> notes r)).

(** [handleReview] in [AuthorityDashboard], [handleSubmitReview] in
    [CommunityReview].  [st] is the state of the render whose buttons
    were clicked. *)
Definition handleReview (env : Env) (st : State) (d : ReviewDecision)
    : M State Effect unit :=
  match selectedClaim st with
  | None => mret tt
  | Some selected =>
      if notes_blank (reviewData st) then mret tt
      else
        try_finally
          (try_catch
             (set (setSubmitting true);;
              let submission :=
                with_decision d (with_claim_id (id selected) (reviewData st)) in
              _ ← await (ApiSubmitReview role submission)
                        (submitReview env submission);
              fetchClaims env;;
              set (setSelectedClaim None);;
              match role with
              | authority => mret tt
              | community => set (setClaimData None)
              end;;
              set (setReviewData (fun _ => initialReviewData)))
             (fun error =>
                emit (ConsoleError "Error submitting review:" error);;
                emit (Alert (default "Failed to submit review"
                               (JS.or_string (JS.response_data_detail error)
                                             (Some "Failed to submit review"))))))
          (set (setSubmitting false))
  end.

(** The [disabled] attribute of the approve and reject buttons. *)
Definition buttons_disabled (st : State) : bool :=
  notes_blank (reviewData st) || submitting st.

(** One rendered [<Input>] of the positives or concerns editor: the
    value it shows and its [onChange].  The handler copies the list of
    the render, assigns at [index] and stores the copy; [index] is the
    position of a rendered entry, so the assignment is within bounds,
    where it is [<[index:=v]>]. *)
Definition positiveInputs (st : State)
    : list (string * (string -> M State Effect unit)) :=
  imap (fun index positive =>
          (positive,
           fun value =>
             let newPositives :=
               <[index := value]> (default [] (positives (reviewData st))) in
             set (setReviewData (with_positives newPositives))))
       (default [] (positives (reviewData st))).

Definition concernInputs (st : State)
    : list (string * (string -> M State Effect unit)) :=
  imap (fun index concern =>
          (concern,
           fun value =>
             let newConcerns :=
               <[index := value]> (default [] (concerns (reviewData st))) in
             set (setReviewData (with_concerns newConcerns))))
       (default [] (concerns (reviewData st))).

(** "+ Add Positive Point" and "+ Add Concern". *)
Definition addPositive : M State Effect unit :=
  set (setReviewData
         (fun prev => with_positives (default [] (positives prev) ++ [""]) prev)).

Definition addConcern : M State Effect unit :=
  set (setReviewData
         (fun prev => with_concerns (default [] (concerns prev) ++ [""]) prev)).

Definition onNotesChange (value : string) : M State Effect unit :=
  set (setReviewData (with_notes value)).

Definition onReviewerIdChange (value : string) : M State Effect unit :=
  set (setReviewData (with_reviewer_id value)).

(** The confidence input of [CommunityReview]:
    [parseFloat(e.target.value) || 0.8]; [parsed] is [None] when
    [parseFloat] gives [NaN]. *)
Definition onConfidenceChange (parsed : option Q) : M State Effect unit :=
  set (setReviewData
         (with_confidence_score
            (if JS.truthy_opt_number parsed then default (8 # 10)%Q parsed
             else (8 # 10)%Q))).

(** What can happen to a mounted page.  A row, an input or a button is
    addressed by its position in the render; an event on something
    that is not rendered does not occur. *)
Inductive Event :=
| Mount (env : Env)
| ClickClaim (row : nat) (env : Env)
| ClickDecision (d : ReviewDecision) (env : Env)
| TypeNotes (value : string)
| TypeReviewerId (value : string)
| TypeConfidence (parsed : option Q)
| TypePositive (index : nat) (value : string)
| TypeConcern (index : nat) (value : string)
| ClickAddPositive
| ClickAddConcern.

Definition handler (st : State) (ev : Event) : M State Effect unit :=
  match ev with
  | Mount env => fetchClaims env
  | ClickClaim row env =>
      match claims st !! row with
      | Some c => handleClaimSelect env c
      | None => mret tt
      end
  | ClickDecision d env =>
      if bool_decide (is_Some (selectedClaim st)) && negb (buttons_disabled st)
      then handleReview env st d
      else mret tt
  | TypeNotes value =>
      if bool_decide (is_Some (selectedClaim st)) then onNotesChange value else mret tt
  | TypeReviewerId value =>
      if bool_decide (is_Some (selectedClaim st)) then onReviewerIdChange value
      else mret tt
  | TypeConfidence parsed =>
      match role, selectedClaim st with
      | community, Some _ => onConfidenceChange parsed
      | _, _ => mret tt
      end
  | TypePositive index value =>
      match selectedClaim st, positiveInputs st !! index with
      | Some _, Some (_, onChange) => onChange value
      | _, _ => mret tt
      end
  | TypeConcern index value =>
      match selectedClaim st, concernInputs st !! index with
      | Some _, Some (_, onChange) => onChange value
      | _, _ => mret tt
      end
  | ClickAddPositive =>
      if bool_decide (is_Some (selectedClaim st)) then addPositive else mret tt
  | ClickAddConcern =>
      if bool_decide (is_Some (selectedClaim st)) then addConcern else mret tt
  end.

Definition step (st : State) (ev : Event) : State :=
  Async.final (handler st ev st).

Definition run (evs : list Event) : State := foldl step initialState evs.

End Role.

End ReviewPages.

(** ** [pages/ClaimDetail.tsx] *)

Module ClaimDetail.
Import Types.

(** The [useState] cells, and the bookkeeping of the two effects: the
    [pollInterval] variable of each effect closure (is a timer armed?)
    and the dependency values the second effect last ran with. *)
Record State := mkState {
  claimData : option PublicClaimResponse;
  loading : bool;
  error : option string;
  aiAnalysisInProgress : bool;
  minting : bool;
  pollInterval1 : bool;
  pollInterval2 : bool;
  deps2 : option (option ClaimStatus * bool)
}.

Definition setClaimData (v : option PublicClaimResponse) (st : State) : State :=
  mkState v (loading st) (error st) (aiAnalysisInProgress st) (minting st)
          (pollInterval1 st) (pollInterval2 st) (deps2 st).
Definition setLoading (v : bool) (st : State) : State :=
  mkState (claimData st) v (error st) (aiAnalysisInProgress st) (minting st)
          (pollInterval1 st) (pollInterval2 st) (deps2 st).
Definition setError (v : option string) (st : State) : State :=
  mkState (claimData st) (loading st) v (aiAnalysisInProgress st) (minting st)
          (pollInterval1 st) (pollInterval2 st) (deps2 st).
Definition setAiAnalysisInProgress (v : bool) (st : State) : State :=
  mkState (claimData st) (loading st) (error st) v (minting st)
          (pollInterval1 st) (pollInterval2 st) (deps2 st).
Definition setMinting (v : bool) (st : State) : State :=
  mkState (claimData st) (loading st) (error st) (aiAnalysisInProgress st) v
          (pollInterval1 st) (pollInterval2 st) (deps2 st).
Definition setPollInterval1 (v : bool) (st : State) : State :=
  mkState (claimData st) (loading st) (error st) (aiAnalysisInProgress st)
          (minting st) v (pollInterval2 st) (deps2 st).
Definition setPollInterval2 (v : bool) (st : State) : State :=
  mkState (claimData st) (loading st) (error st) (aiAnalysisInProgress st)
          (minting st) (pollInterval1 st) v (deps2 st).
Definition setDeps2 (v : option (option ClaimStatus * bool)) (st : State) : State :=
  mkState (claimData st) (loading st) (error st) (aiAnalysisInProgress st)
          (minting st) (pollInterval1 st) (pollInterval2 st) v.

Definition initialState : State :=
  mkState None true None false false false false None.

Inductive Timer := Timer1 | Timer2.

Inductive Effect :=
| ApiGetPublicClaim (claimId : string)
| ApiMintCredits (claimId : string) (amountTonnesCo2e : JS.Number)
| SetInterval (t : Timer)
| ClearInterval (t : Timer)
| ConsoleError (label : string) (error : JS.Error)
| Alert (message : string).

Definition isRequest (e : Effect) : bool :=
  match e with ApiGetPublicClaim _ => true | _ => false end.

(** [data.status === 'ai_analysis_pending' || data.status ===
    'ai_analysis_in_progress']: the test of [fetchClaim] and the
    [shouldPoll] of the second effect. *)
Definition analysisRunning (s : ClaimStatus) : bool :=
  bool_decide (s = ai_analysis_pending) || bool_decide (s = ai_analysis_in_progress).

(** The stop test of both interval callbacks. *)
Definition stopsPolling (s : ClaimStatus) : bool :=
  bool_decide (s = ai_verified) || bool_decide (s = ai_rejected)
  || bool_decide (s = ai_analyzed) || bool_decide (s = authority_reviewed)
  || bool_decide (s = rejected) || bool_decide (s = approved)
  || bool_decide (s = minted).

Record MintEnv := mkMintEnv {
  mintCredits : string -> JS.Number -> Outcome MintedCredit;
  getPublicClaim : string -> Outcome PublicClaimResponse
}.

(** The [amount] that [handleMint] sends:
    [point_estimate || (verified_impact ? (min + max) / 2 : 0)].  The
    sum and the quotient are those of binary64 numbers. *)
Definition mintAmount (v : VerificationResult) : JS.Number :=
  match verified_impact v with
  | Some vi =>
      let midpoint :=
        JS.number_div (JS.number_add (vi_min_tonnes_co2e vi) (vi_max_tonnes_co2e vi)) 2 in
      match point_estimate_tonnes_co2e vi with
      | Some p => if JS.truthy_number p then JS.Finite p else midpoint
      | None => midpoint
      end
  | None => JS.Finite 0
  end.

Definition handleMint (env : MintEnv) (st : State) : M State Effect unit :=
  match claimData st with
  | None => mret tt
  | Some cd =>
      match verification cd with
      | None => mret tt
      | Some v =>
          if negb (can_mint cd) then mret tt
          else
            try_finally
              (try_catch
                 (set (setMinting true);;
                  let amount := mintAmount v in
                  _ ← await (ApiMintCredits (Types.id (claim cd)) amount)
                            (mintCredits env (Types.id (claim cd)) amount);
                  updatedData ← await (ApiGetPublicClaim (Types.id (claim cd)))
                                      (getPublicClaim env (Types.id (claim cd)));
                  set (setClaimData (Some updatedData)))
                 (fun error =>
                    emit (ConsoleError "Error minting credits:" error);;
                    emit (Alert (default "Failed to mint credits"
                                   (JS.or_string (JS.response_data_detail error)
                                                 (Some "Failed to mint credits"))))))
              (set (setMinting false))
      end
  end.

(** Whether the render shows an enabled "Mint Credits" button: the page
    is past its loading, analysis and error screens, and
    [can_mint && !minted_credit] holds; the button is disabled while
    [minting]. *)
Definition mintButtonShown (st : State) : bool :=
  match claimData st with
  | Some cd =>
      negb (aiAnalysisInProgress st || bool_decide (pc_status cd = ai_rejected))
      && negb (loading st)
      && negb (JS.truthy_opt_string (error st))
      && can_mint cd
      && negb (bool_decide (is_Some (minted_credit cd)))
      && negb (minting st)
  | None => false
  end.

Section Page.
(** [useParams().id] and the truth of [location.state?.aiAnalysisPending]. *)
Variable id : option string.
Variable aiAnalysisPending : bool.

(** [if (pollInterval) { clearInterval(pollInterval); pollInterval = null; }]
    The flag [pollInterval1] tells whether the interval is live; the
    branch of the first callback for a missing [id] clears the interval
    without resetting the variable, which leaves the timer just as dead. *)
Definition clear1 : M State Effect unit :=
  armed ← gets pollInterval1;
  if (armed : bool) then emit (ClearInterval Timer1);; set (setPollInterval1 false)
  else mret tt.

Definition clear2 : M State Effect unit :=
  armed ← gets pollInterval2;
  if (armed : bool) then emit (ClearInterval Timer2);; set (setPollInterval2 false)
  else mret tt.

Definition fetch_error_message (err : JS.Error) : string :=
  default "Failed to load claim"
    (JS.or_string (JS.or_string (JS.response_data_detail err) (JS.message err))
                  (Some "Failed to load claim")).

(** [fetchClaim], from the point where its request settles with [r]. *)
Definition fetchClaim_settled (r : Outcome PublicClaimResponse) : M State Effect unit :=
  try_finally
    (try_catch
       (data ← lift r;
        set (setClaimData (Some data));;
        if analysisRunning (pc_status data)
        then set (setAiAnalysisInProgress true)
        else set (setAiAnalysisInProgress false))
       (fun err => set (setError (Some (fetch_error_message err)))))
    (set (setLoading false)).

(** The body of the first effect up to the point where [fetchClaim]
    waits for its answer. *)
Definition effect1 : M State Effect unit :=
  match id with
  | None => mret tt
  | Some i => set (setLoading true);; emit (ApiGetPublicClaim i)
  end;;
  if aiAnalysisPending
  then
    set (setAiAnalysisInProgress true);;
    emit (SetInterval Timer1);;
    set (setPollInterval1 true)
  else mret tt.

(** The callback of the first interval; [r] is what its request
    settles with. *)
Definition poll1 (r : Outcome PublicClaimResponse) : M State Effect unit :=
  try_catch
    (match id with
     | None => clear1
     | Some i =>
         data ← await (ApiGetPublicClaim i) r;
         set (setClaimData (Some data));;
         if stopsPolling (pc_status data)
         then set (setAiAnalysisInProgress false);; clear1
         else mret tt
     end)
    (fun err =>
       emit (ConsoleError "Error polling claim status:" err);;
       set (setAiAnalysisInProgress false);;
       clear1).

(** The body of the second effect. *)
Definition effect2 : M State Effect unit :=
  cd ← gets claimData;
  match (cd : option PublicClaimResponse), id with
  | Some claimData, Some _ =>
      let shouldPoll := analysisRunning (pc_status claimData) in
      inProgress ← gets aiAnalysisInProgress;
      (if shouldPoll && negb inProgress
       then set (setAiAnalysisInProgress true) else mret tt);;
      if shouldPoll
      then emit (SetInterval Timer2);; set (setPollInterval2 true)
      else mret tt
  | _, _ => mret tt
  end.

(** The callback of the second interval; the effect arms it only
    when [id] is some [i]. *)
Definition poll2 (i : string) (r : Outcome PublicClaimResponse)
    : M State Effect unit :=
  try_catch
    (data ← await (ApiGetPublicClaim i) r;
     set (setClaimData (Some data));;
     if stopsPolling (pc_status data)
     then set (setAiAnalysisInProgress false);; clear2
     else mret tt)
    (fun err =>
       emit (ConsoleError "Error polling claim status:" err);;
       set (setAiAnalysisInProgress false);;
       clear2).

(** The dependency list of the second effect,
    [[claimData?.status, id, aiAnalysisInProgress]]; [id] does not
    change while the page is mounted. *)
Definition currentDeps2 (st : State) : option ClaimStatus * bool :=
  (pc_status <$> claimData st, aiAnalysisInProgress st).

Definition deps2_eqb (a b : option ClaimStatus * bool) : bool :=
  Bool.eqb a.2 b.2 && bool_decide (a.1 = b.1).

(** React after a handler: while the dependencies of the second effect
    differ from those of its last run, its cleanup and then its body
    run again.  [n] bounds the number of rounds. *)
Fixpoint commit (n : nat) : M State Effect unit :=
  match n with
  | O => mret tt
  | S n' =>
      last_run ← gets deps2;
      now ← gets currentDeps2;
      if match (last_run : option (option ClaimStatus * bool)) with
         | Some d => deps2_eqb d now
         | None => false
         end
      then mret tt
      else clear2;; set (setDeps2 (Some now));; effect2;; commit n'
  end.

(** Two rounds reach a fixed point (lemma [commit_reaches_fixed_point]);
    one more is allowed for. *)
Definition rounds : nat := 3.

Inductive Event :=
| FetchClaimSettled (r : Outcome PublicClaimResponse)
| Tick1 (r : Outcome PublicClaimResponse)
| Tick2 (r : Outcome PublicClaimResponse)
| ClickMint (env : MintEnv).

(** A cleared or never armed timer does not fire. *)
Definition handler (st : State) (ev : Event) : M State Effect unit :=
  match ev with
  | FetchClaimSettled r =>
      match id with Some _ => fetchClaim_settled r | None => mret tt end
  | Tick1 r => if pollInterval1 st then poll1 r else mret tt
  | Tick2 r =>
      match id with
      | Some i => if pollInterval2 st then poll2 i r else mret tt
      | None => mret tt
      end
  | ClickMint env => if mintButtonShown st then handleMint env st else mret tt
  end.

Definition react (st : State) (ev : Event) : list Effect * State * Outcome unit :=
  (handler st ev;; commit rounds) st.

Definition step (st : State) (ev : Event) : State := Async.final (react st ev).

(** The page after mounting: both effects have run once. *)
Definition mounted : State := Async.final ((effect1;; commit rounds) initialState).

Definition run (evs : list Event) : State := foldl step mounted evs.

(** The requests made while [evs] happen, oldest first. *)
Fixpoint requests (st : State) (evs : list Event) : list Effect :=
  match evs with
  | [] => []
  | ev :: evs' =>
      filter (fun e => isRequest e = true) (Async.effects (react st ev))
      ++ requests (step st ev) evs'
  end.

End Page.

(** The class of the AI badge in the header:
    [verdict === 'consistent' ? ... : verdict === 'inconsistent' ? ... : ...]. *)
Definition verdictBadgeColors (v : AIConsistencyResult) : string :=
  if String.eqb (verdict_string (verdict v)) "consistent"
  then "bg-emerald-100 text-emerald-800"
  else if String.eqb (verdict_string (verdict v)) "inconsistent"
  then "bg-red-100 text-red-800"
  else "bg-yellow-100 text-yellow-800".

(** What the component returns: the two early screens of the AI
    analysis, the loading screen, the "Claim Not Found" screen, or the
    page of the claim. *)
Inductive Screen :=
| AIRejectedScreen
| AnalysisScreen
| LoadingScreen
| NotFoundScreen
| DetailScreen.

Definition screen (st : State) : Screen :=
  match claimData st with
  | Some cd =>
      if aiAnalysisInProgress st || bool_decide (pc_status cd = ai_rejected)
      then if bool_decide (pc_status cd = ai_rejected)
           then AIRejectedScreen else AnalysisScreen
      else if loading st then LoadingScreen
      else if JS.truthy_opt_string (error st) then NotFoundScreen
      else DetailScreen
  | None => if loading st then LoadingScreen else NotFoundScreen
  end.

(** [/\.(jpg|jpeg|png|webp)$/i.test(dataRef)], or AI evidence kept
    under [/uploads]. *)
Definition isImage (dataRef : string) (evidenceType : EvidenceType) : bool :=
  if JS.testExtension ["jpg"; "jpeg"; "png"; "webp"] dataRef then true
  else match evidenceType with
       | system_ai => JS.startsWith "/uploads" dataRef
       | _ => false
       end.

(** [/\.(mp4|mov|webm)$/i.test(dataRef)] *)
Definition isVideo (dataRef : string) : bool :=
  JS.testExtension ["mp4"; "mov"; "webm"] dataRef.

Section Evidence.
(** [import.meta.env.VITE_API_URL || 'http://localhost:8000'] *)
Variable API_BASE_URL : string.

Definition getEvidenceUrl (dataRef : string) : option string :=
  if negb (JS.truthy_string dataRef) then None
  else if JS.startsWith "http" dataRef then Some dataRef
  else if JS.startsWith "/uploads" dataRef then Some (API_BASE_URL +:+ dataRef)
  else if JS.startsWith "gee://" dataRef || JS.startsWith "ai-consistency://" dataRef
  then None
  else Some (API_BASE_URL +:+ "/uploads" +:+ dataRef).

(** [ev.data_ref ? getEvidenceUrl(ev.data_ref) : null] *)
Definition cardUrl (ev : EvidenceSummary) : option string :=
  match es_data_ref ev with
  | Some dataRef => if JS.truthy_string dataRef then getEvidenceUrl dataRef else None
  | None => None
  end.

(** [url && isImage(ev.data_ref || '', ev.type)] and
    [url && isVideo(ev.data_ref || '')], as truth values. *)
Definition isImg (ev : EvidenceSummary) : bool :=
  JS.truthy_opt_string (cardUrl ev)
  && isImage (default "" (JS.or_string (es_data_ref ev) (Some ""))) (es_type ev).

Definition isVid (ev : EvidenceSummary) : bool :=
  JS.truthy_opt_string (cardUrl ev)
  && isVideo (default "" (JS.or_string (es_data_ref ev) (Some ""))).

(** The top of a card: [isImg && url ? <img src={url}> : isVid && url ?
    (a video placeholder) : ...], and the link laid over the card when
    there is a [url]. *)
Definition cardImage (ev : EvidenceSummary) : option string :=
  if isImg ev && JS.truthy_opt_string (cardUrl ev) then cardUrl ev else None.

Definition cardVideo (ev : EvidenceSummary) : bool :=
  negb (isImg ev && JS.truthy_opt_string (cardUrl ev))
  && (isVid ev && JS.truthy_opt_string (cardUrl ev)).

Definition cardLink (ev : EvidenceSummary) : option string :=
  if JS.truthy_opt_string (cardUrl ev) then cardUrl ev else None.

End Evidence.

End ClaimDetail.

(** ** [components/verification/AIVerdictCard.tsx] *)

Module AIVerdictCard.

Inductive VerdictIcon :=
| CheckCircle_green
| XCircle_red
| AlertTriangle_yellow.

(** The three [switch (verdict.verdict)] of the card compare the
    run-time string with ['consistent'] and ['inconsistent']. *)
Definition getVerdictIcon (verdict : Types.AIConsistencyResult) : VerdictIcon :=
  let v := Types.verdict_string (Types.verdict verdict) in
  if String.eqb v "consistent" then CheckCircle_green
  else if String.eqb v "inconsistent" then XCircle_red
  else AlertTriangle_yellow.

Definition getVerdictColor (verdict : Types.AIConsistencyResult) : string :=
  let v := Types.verdict_string (Types.verdict verdict) in
  if String.eqb v "consistent" then "success"
  else if String.eqb v "inconsistent" then "destructive"
  else "warning".

Definition getVerdictLabel (verdict : Types.AIConsistencyResult) : string :=
  let v := Types.verdict_string (Types.verdict verdict) in
  if String.eqb v "consistent" then "AI Consistent"
  else if String.eqb v "inconsistent" then "AI Inconsistent"
  else "Uncertain".

End AIVerdictCard.

(** ** [components/claim/ClaimTimeline.tsx] *)

Module ClaimTimeline.

Inductive Icon := FileText | Brain | Users | Eye | Coins.

(** The [status] of a timeline entry: ['completed'], ['active'] or
    ['pending']. *)
Inductive EventStatus := completed | active | pending.

#[global] Instance EventStatus_eq_dec : EqDecision EventStatus.
Proof. solve_decision. Defined.

Record TimelineEvent := mkTimelineEvent {
  id : string;
  title : string;
  description : string;
  timestamp : option string;
  icon : Icon;
  status : EventStatus;
  color : string
}.

(** [array.includes(claim.status)] *)
Definition includes (l : list Types.ClaimStatus) (s : Types.ClaimStatus) : bool :=
  bool_decide (s ∈ l).

Definition timelineEvents (claim : Types.Claim) : list TimelineEvent :=
  let s := Types.status claim in
  [ mkTimelineEvent "submitted" "Claim Submitted"
      ("Submitted by " +:+ Types.submitter_name claim)
      (Some (Types.created_at claim)) FileText completed "blue";
    mkTimelineEvent "ai_analyzed" "AI Analysis"
      (if bool_decide (s = Types.ai_analyzed) || bool_decide (s = Types.ai_verified)
          || bool_decide (s = Types.verified)
       then "AI analysis completed"
       else "Processing satellite data and NDVI analysis")
      (Some (Types.updated_at claim)) Brain
      (if includes [Types.ai_analyzed; Types.ai_verified; Types.verified;
                    Types.authority_reviewed; Types.community_reviewed;
                    Types.approved; Types.minted] s
       then completed
       else if bool_decide (s = Types.submitted) then active else pending)
      "purple";
    mkTimelineEvent "authority_review" "Authority Review"
      "Awaiting expert authority validation" None Users
      (if includes [Types.authority_reviewed; Types.community_reviewed;
                    Types.approved; Types.minted] s
       then completed
       else if includes [Types.ai_analyzed; Types.ai_verified; Types.verified] s
       then active else pending)
      "green";
    mkTimelineEvent "community_review" "Community Transparency"
      "Open for public review and feedback" None Eye
      (if includes [Types.community_reviewed; Types.approved; Types.minted] s
       then completed
       else if bool_decide (s = Types.authority_reviewed) then active else pending)
      "indigo" ]
  ++ (if bool_decide (s = Types.minted)
      then [ mkTimelineEvent "minted" "Credits Minted" "Carbon credits issued"
               (Some (Types.updated_at claim)) Coins completed "emerald" ]
      else []).

(** The stages in the order of the life cycle, by entry [id]. *)
Definition stage_order : list string :=
  ["submitted"; "ai_analyzed"; "authority_review"; "community_review"; "minted"].

Definition getConnectorColor (status : EventStatus) : string :=
  match status with
  | completed => "bg-green-500"
  | active => "bg-blue-500"
  | pending => "bg-gray-300"
  end.

(** The connector lines: one below every entry but the last
    ([index < timelineEvents.length - 1]). *)
Definition connectors (claim : Types.Claim) : list string :=
  map (fun event => getConnectorColor (status event))
      (take (length (timelineEvents claim) - 1) (timelineEvents claim)).

Definition getNextStep (claim : Types.Claim) : string :=
  let s := Types.status claim in
  if bool_decide (s = Types.submitted)
  then "Your claim is being processed by our AI verification system."
  else if includes [Types.ai_analyzed; Types.ai_verified; Types.verified] s
  then "AI analysis complete. Awaiting authority review."
  else if bool_decide (s = Types.authority_reviewed)
  then "Approved by authorities. Open for community review."
  else if bool_decide (s = Types.community_reviewed)
  then "Community review complete. Ready for credit minting."
  else if bool_decide (s = Types.approved)
  then "Claim fully approved. Carbon credits will be minted."
  else if bool_decide (s = Types.minted)
  then "Carbon credits have been successfully minted and are active."
  else if bool_decide (s = Types.rejected)
  then "Claim has been rejected. Please review feedback and resubmit if needed."
  else "Processing...".

End ClaimTimeline.

(** ** [components/claim/EvidenceUploader.tsx] *)

Module EvidenceUploader.
Import Types.

Inductive FileKind := image | video | document_kind.

Record EvidenceFile := mkEvidenceFile {
  id : string;
  file : File;
  preview : option string;
  type : FileKind;
  uploaded : bool
}.

Record State := mkState {
  files : list EvidenceFile;
  dragActive : bool
}.

Definition setFiles (f : list EvidenceFile -> list EvidenceFile) (st : State) : State :=
  mkState (f (files st)) (dragActive st).

Inductive Effect :=
| OnFilesChange (files : list File)
| SetTimeout (evidenceId : string) (delay_ms : nat).

Definition getFileType (f : File) : FileKind :=
  if JS.startsWith "image/" (file_type f) then image
  else if JS.startsWith "video/" (file_type f) then video
  else document_kind.

(** [array.slice(0, end)] for an integer [end]: a negative [end] counts
    from the end of the array. *)
Definition slice0 {A} (l : list A) (finish : Z) : list A :=
  let len := Z.of_nat (length l) in
  let k := if (finish <? 0)%Z then Z.max (len + finish) 0 else Z.min finish len in
  take (Z.to_nat k) l.

(** A promise: fulfilled with a value, or never settled. *)
Inductive Promise (A : Type) :=
| Fulfilled (a : A)
| NeverSettled.
Arguments Fulfilled {A} a.
Arguments NeverSettled {A}.

(** [Promise.all]: fulfilled with the values in order once every promise
    is, and never settled when one of them never is. *)
Fixpoint all {A : Type} (promises : list (Promise A)) : Promise (list A) :=
  match promises with
  | [] => Fulfilled []
  | Fulfilled a :: rest =>
      match all rest with
      | Fulfilled values => Fulfilled (a :: values)
      | NeverSettled => NeverSettled
      end
  | NeverSettled :: _ => NeverSettled
  end.

(** A call of [handleFiles] that waits for its previews: the state of
    the render that created the callback, and the entries that
    [Promise.all] will deliver. *)
Record Call := mkCall {
  render : State;
  awaited : list EvidenceFile
}.

(** The uploader: the cells of the component and the calls of
    [handleFiles] that are waiting. *)
Record Uploader := mkUploader {
  cells : State;
  inFlight : list Call
}.
#[local] Coercion cells : Uploader >-> State.

Section Uploader.
(** The [maxFiles] property, a count (10 by default; the submission
    wizard passes 20). *)
Variable maxFiles : nat.
(** What [FileReader.readAsDataURL] ends with for a file: the data URL
    that [onload] receives, or nothing when the read fails. *)
Variable readAsDataURL : File -> option string.

(** [createPreview]: for a file that is no image the promise is
    resolved at once with [undefined]; for an image it is resolved by
    [reader.onload] with the data URL.  No [onerror] is set and
    nothing rejects, so the promise is never settled when the read
    fails. *)
Definition createPreview (f : File) : Promise (option string) :=
  if JS.startsWith "image/" (file_type f)
  then match readAsDataURL f with
       | Some url => Fulfilled (Some url)
       | None => NeverSettled
       end
  else Fulfilled None.

(** [handleFiles] up to its [await]: the files of the batch that it
    keeps.  [st] is the state of the render that created the
    callback. *)
Definition filesToAdd (st : State) (newFiles : list File) : list File :=
  let fileArray := newFiles in
  let remainingSlots := (Z.of_nat maxFiles - Z.of_nat (length (files st)))%Z in
  slice0 fileArray remainingSlots.

(** The promise of the async function mapped over [filesToAdd], for
    the file at position [k]; [random k] is the identifier drawn for it
    ([Math.random().toString(36).substr(2, 9)]), at the call. *)
Definition evidenceFile (random : nat -> string) (k : nat) (f : File)
    : Promise EvidenceFile :=
  match createPreview f with
  | Fulfilled preview =>
      Fulfilled (mkEvidenceFile (random k) f preview (getFileType f) false)
  | NeverSettled => NeverSettled
  end.

(** [handleFiles] after its [await], with the [evidenceFiles] that
    [Promise.all] delivered; [st] is still the state of the render that
    created the callback. *)
Definition storeFiles (st : State) (evidenceFiles : list EvidenceFile)
    : M State Effect unit :=
  let updatedFiles := files st ++ evidenceFiles in
  set (setFiles (fun _ => updatedFiles));;
  emit (OnFilesChange (map file updatedFiles));;
  foldr (fun e k => emit e;; k) (mret tt)
        (imap (fun index evidenceFile =>
                 SetTimeout (id evidenceFile) ((index + 1) * 500))
              evidenceFiles).

(** Whether a batch keeps [handleFiles] waiting for a later task: a
    [FileReader] reports in a task of its own, while the promises of
    files that are no images are resolved before any other event is
    handled. *)
Definition reads (batch : list File) : bool :=
  existsb (fun f => JS.startsWith "image/" (file_type f)) batch.

Definition removeFile (st : State) (i : string) : M State Effect unit :=
  let updatedFiles := filter (fun f => id f ≠ i) (files st) in
  set (setFiles (fun _ => updatedFiles));;
  emit (OnFilesChange (map file updatedFiles)).

(** The callback of a [setTimeout] of [handleFiles]. *)
Definition markUploaded (i : string) : M State Effect unit :=
  set (setFiles (fun prev =>
         map (fun f => if decide (id f = i)
                       then mkEvidenceFile (id f) (file f) (preview f) (type f) true
                       else f) prev)).

(** What can happen to the mounted uploader: a call of [handleFiles]
    (from the file input or a drop), the end of the reads of the call
    at position [k] among those waiting, a click on the remove button
    of an entry, and the timer set for an entry.  A timer whose entry
    is not in the list changes nothing. *)
Inductive Event :=
| HandleFiles (random : nat -> string) (newFiles : list File)
| PreviewsLoaded (k : nat)
| RemoveFile (i : string)
| UploadTimer (i : string).

(** What the event runs on the cells.  The handlers are those of the
    latest render, [u]; a call that has waited continues with the
    state of its own render. *)
Definition handler (u : Uploader) (ev : Event) : M State Effect unit :=
  match ev with
  | HandleFiles random newFiles =>
      let batch := filesToAdd u newFiles in
      if reads batch then mret tt
      else match all (imap (evidenceFile random) batch) with
           | Fulfilled evidenceFiles => storeFiles u evidenceFiles
           | NeverSettled => mret tt
           end
  | PreviewsLoaded k =>
      match inFlight u !! k with
      | Some call => storeFiles (render call) (awaited call)
      | None => mret tt
      end
  | RemoveFile i => removeFile u i
  | UploadTimer i => markUploaded i
  end.

(** The calls waiting after the event: a call whose batch needs a
    [FileReader] waits, unless one of its promises is never settled,
    and a call whose reads have ended waits no more. *)
Definition waiting (u : Uploader) (ev : Event) : list Call :=
  match ev with
  | HandleFiles random newFiles =>
      let batch := filesToAdd u newFiles in
      if reads batch
      then match all (imap (evidenceFile random) batch) with
           | Fulfilled evidenceFiles => inFlight u ++ [mkCall u evidenceFiles]
           | NeverSettled => inFlight u
           end
      else inFlight u
  | PreviewsLoaded k => delete k (inFlight u)
  | RemoveFile _ | UploadTimer _ => inFlight u
  end.

Definition step (u : Uploader) (ev : Event) : Uploader :=
  mkUploader (Async.final (handler u ev u)) (waiting u ev).

Definition initialState : State := mkState [] false.

Definition run (evs : list Event) : Uploader :=
  foldl step (mkUploader initialState []) evs.

End Uploader.

End EvidenceUploader.

(** An uploader is read as its cells where cells are expected. *)
Coercion EvidenceUploader.cells : EvidenceUploader.Uploader >-> EvidenceUploader.State.

(** ** [lib/utils.ts] *)

Module Utils.
Import Types.

(** The two tables.  A key that is not in a table gives [undefined],
    but for the names of [JS.objectPrototypeNames], for which the two
    functions below are not meant; every caller passes a
    [ClaimStatus]. *)
Definition statusColors : gmap string string :=
  list_to_map
    [ ("submitted", "bg-blue-100 text-blue-800");
      ("ai_analysis_pending", "bg-yellow-100 text-yellow-800");
      ("ai_analysis_in_progress", "bg-yellow-100 text-yellow-800");
      ("verified", "bg-cyan-100 text-cyan-800");
      ("ai_verified", "bg-cyan-100 text-cyan-800");
      ("ai_rejected", "bg-red-100 text-red-800");
      ("ai_analyzed", "bg-purple-100 text-purple-800");
      ("authority_reviewed", "bg-indigo-100 text-indigo-800");
      ("community_reviewed", "bg-emerald-100 text-emerald-800");
      ("approved", "bg-green-100 text-green-800");
      ("rejected", "bg-red-100 text-red-800");
      ("minted", "bg-primary-100 text-primary-800") ].

Definition statusLabels : gmap string string :=
  list_to_map
    [ ("submitted", "Submitted");
      ("ai_analysis_pending", "AI Analysis Pending");
      ("ai_analysis_in_progress", "AI Analysis In Progress");
      ("verified", "Verified");
      ("ai_verified", "AI Verified");
      ("ai_rejected", "AI Rejected");
      ("ai_analyzed", "AI Analyzed");
      ("authority_reviewed", "Authority Reviewed");
      ("community_reviewed", "Community Reviewed");
      ("approved", "Approved");
      ("rejected", "Rejected");
      ("minted", "Credits Minted") ].

(** [statusColors[status] || 'bg-gray-100 text-gray-800'] *)
Definition getStatusColor (status : string) : string :=
  default "bg-gray-100 text-gray-800"
    (JS.or_string (statusColors !! status) (Some "bg-gray-100 text-gray-800")).

(** A word character of a regular expression: [A-Za-z0-9_]. *)
Definition isWordChar (c : ascii) : bool :=
  let n := nat_of_ascii c in
  ((48 <=? n)%nat && (n <=? 57)%nat) || ((65 <=? n)%nat && (n <=? 90)%nat)
  || (n =? 95)%nat || ((97 <=? n)%nat && (n <=? 122)%nat).

(** [toUpperCase] of one word character. *)
Definition upper_word_char (c : ascii) : ascii :=
  let n := nat_of_ascii c in
  if (97 <=? n)%nat && (n <=? 122)%nat then ascii_of_nat (n - 32) else c.

(** [s.replace(/_/g, ' ')] *)
Fixpoint replace_underscores (s : string) : string :=
  match s with
  | EmptyString => EmptyString
  | String c r =>
      String (if Ascii.eqb c "_" then " "%char else c) (replace_underscores r)
  end.

(** [s.replace(/\b\w/g, l => l.toUpperCase())]: a word character is
    replaced when the character before it, if any, is not one;
    [afterWord] tells whether it is. *)
Fixpoint capitalize_words (afterWord : bool) (s : string) : string :=
  match s with
  | EmptyString => EmptyString
  | String c r =>
      String (if isWordChar c && negb afterWord then upper_word_char c else c)
             (capitalize_words (isWordChar c) r)
  end.

(** [statusLabels[status] ||
     status.replace(/_/g, ' ').replace(/\b\w/g, l => l.toUpperCase())] *)
Definition getStatusLabel (status : string) : string :=
  default (capitalize_words false (replace_underscores status))
    (JS.or_string (statusLabels !! status)
                  (Some (capitalize_words false (replace_underscores status)))).

End Utils.

(** ** [app/routes.tsx] *)

Module AppRoutes.

Inductive Page :=
| Home | SubmitClaim | ClaimDetail | AuthorityDashboard | CommunityReview | Transparency.

(** The [<Route path=... element=... />] entries, in order. *)
Definition routes : list (string * Page) :=
  [ ("/", Home); ("/submit", SubmitClaim); ("/claim/:id", ClaimDetail);
    ("/authority", AuthorityDashboard); ("/community", CommunityReview);
    ("/transparency", Transparency) ].

End AppRoutes.

(** ** [components/layout/Navbar.tsx] *)

Module Navbar.
Import Types.

Inductive Icon := Leaf | Shield | Users | MessageSquare | Eye.

Record NavItem := mkNavItem {
  path : string;
  label : string;
  icon : Icon
}.

Record State := mkState {
  mobileMenuOpen : bool;
  hasAuthorityReviewedClaims : bool
}.

Definition setMobileMenuOpen (v : bool) (st : State) : State :=
  mkState v (hasAuthorityReviewedClaims st).
Definition setHasAuthorityReviewedClaims (v : bool) (st : State) : State :=
  mkState (mobileMenuOpen st) v.

Definition initialState : State := mkState false false.

Inductive Effect :=
| ApiGetClaims
| ConsoleError (label : string) (error : JS.Error).

(** [checkAuthorityReviewedClaims]; [answer] is what [getClaims]
    settles with.  It runs at mount and every 30 seconds. *)
Definition checkAuthorityReviewedClaims (answer : Outcome (list Claim))
    : M State Effect unit :=
  try_catch
    (allClaims ← await ApiGetClaims answer;
     let hasAuthorityReviewed :=
       existsb (fun claim => bool_decide (status claim = authority_reviewed))
               allClaims in
     set (setHasAuthorityReviewedClaims hasAuthorityReviewed))
    (fun error =>
       emit (ConsoleError "Error checking claims:" error);;
       set (setHasAuthorityReviewedClaims true)).

(** [navItems], for the current [location.pathname]. *)
Definition navItems (pathname : string) (st : State) : list NavItem :=
  [ mkNavItem "/" "Home" Leaf;
    mkNavItem "/submit" "Submit Claim" Shield;
    mkNavItem "/authority" "Authority" Users ]
  ++ (if hasAuthorityReviewedClaims st || String.eqb pathname "/community"
      then [ mkNavItem "/community" "Community" MessageSquare ]
      else [])
  ++ [ mkNavItem "/transparency" "Transparency" Eye ].

(** The mounted bar: the check at mount and at each tick of the
    interval, the menu button, and a tap on a link of the mobile
    menu. *)
Inductive Event :=
| CheckSettled (answer : Outcome (list Claim))
| ToggleMenu
| TapLink.

Definition handler (st : State) (ev : Event) : M State Effect unit :=
  match ev with
  | CheckSettled answer => checkAuthorityReviewedClaims answer
  | ToggleMenu => set (setMobileMenuOpen (negb (mobileMenuOpen st)))
  | TapLink => set (setMobileMenuOpen false)
  end.

Definition step (st : State) (ev : Event) : State :=
  Async.final (handler st ev st).

Definition run (evs : list Event) : State := foldl step initialState evs.

End Navbar.

(** ** [pages/Transparency.tsx] *)

Module Transparency.
Import Types.

Record State := mkState {
  claims : list Claim;
  filteredClaims : list Claim;
  searchTerm : string;
  statusFilter : string;
  loading : bool
}.

Definition setClaims (v : list Claim) (st : State) : State :=
  mkState v (filteredClaims st) (searchTerm st) (statusFilter st) (loading st).
Definition setFilteredClaims (v : list Claim) (st : State) : State :=
  mkState (claims st) v (searchTerm st) (statusFilter st) (loading st).
Definition setSearchTerm (v : string) (st : State) : State :=
  mkState (claims st) (filteredClaims st) v (statusFilter st) (loading st).
Definition setStatusFilter (v : string) (st : State) : State :=
  mkState (claims st) (filteredClaims st) (searchTerm st) v (loading st).
Definition setLoading (v : bool) (st : State) : State :=
  mkState (claims st) (filteredClaims st) (searchTerm st) (statusFilter st) v.

Definition initialState : State := mkState [] [] "" "all" true.

Inductive Effect :=
| ApiGetClaims
| ConsoleError (label : string) (error : JS.Error).

Definition fetchClaims (answer : Outcome (list Claim)) : M State Effect unit :=
  try_finally
    (try_catch
       (set (setLoading true);;
        allClaims ← await ApiGetClaims answer;
        set (setClaims allClaims))
       (fun error => emit (ConsoleError "Error fetching claims:" error)))
    (set (setLoading false)).

(** The predicate of the search filter. *)
Definition matchesSearch (searchTerm : string) (claim : Claim) : bool :=
  JS.includes (JS.toLowerCase (title claim)) (JS.toLowerCase searchTerm)
  || JS.includes (JS.toLowerCase (description claim)) (JS.toLowerCase searchTerm)
  || JS.includes (JS.toLowerCase (submitter_name claim)) (JS.toLowerCase searchTerm).

(** The list that [filterClaims] stores. *)
Definition filtered (claims : list Claim) (searchTerm statusFilter : string)
    : list Claim :=
  let afterSearch :=
    if JS.truthy_string searchTerm
    then filter (fun claim => matchesSearch searchTerm claim = true) claims
    else claims in
  if negb (String.eqb statusFilter "all")
  then filter (fun claim => status_string (status claim) = statusFilter) afterSearch
  else afterSearch.

(** [filterClaims], the body of the effect with dependencies
    [[claims, searchTerm, statusFilter]]. *)
Definition filterClaims : M State Effect unit :=
  st ← gets (fun st => st);
  set (setFilteredClaims (filtered (claims st) (searchTerm st) (statusFilter st))).

(** [getStatusCounts]: [counts[claim.status] = (counts[claim.status] || 0) + 1]
    for each claim in turn. *)
Definition getStatusCounts (claims : list Claim) : gmap string nat :=
  foldl (fun counts claim =>
           let key := status_string (status claim) in
           <[key := default 0 (counts !! key) + 1]> counts)
        ∅ claims.

(** The values of [statusOptions], in order. *)
Definition statusOptions : list string :=
  ["all"; "submitted"; "ai_analyzed"; "authority_reviewed"; "community_reviewed";
   "approved"; "minted"; "rejected"].

(** The bars of the status distribution: for each option but ['all'],
    [statusCounts[option.value] || 0]. *)
Definition distribution (claims : list Claim) : list (string * nat) :=
  map (fun value => (value, default 0 (getStatusCounts claims !! value)))
      (filter (fun value => value ≠ "all") statusOptions).

(** What can happen to the mounted page: the request of the mount
    settles, the visitor types in the search box or picks an option of
    the status select.  After each, the filter effect runs when one of
    its dependencies has changed; running it again when none has
    stores the same list. *)
Inductive Event :=
| FetchSettled (answer : Outcome (list Claim))
| TypeSearch (value : string)
| SelectStatus (value : string).

Definition handler (ev : Event) : M State Effect unit :=
  match ev with
  | FetchSettled answer => fetchClaims answer
  | TypeSearch value => set (setSearchTerm value)
  | SelectStatus value => set (setStatusFilter value)
  end.

Definition step (st : State) (ev : Event) : State :=
  Async.final ((handler ev;; filterClaims) st).

(** The page after mounting: the filter effect has run on the empty
    list, and the request is pending. *)
Definition mounted : State := Async.final (filterClaims initialState).

Definition run (evs : list Event) : State := foldl step mounted evs.

End Transparency.

(** ** [components/claim/MapSelector.tsx] *)

Module MapSelector.

(** Leaflet's [LatLng]. *)
Record LatLng := mkLatLng { lat : Q; lng : Q }.

Inductive DrawMode := point | buffer | polygon_mode.

Record State := mkState {
  selectedPoint : option LatLng;
  polygon : list (Q * Q);
  bufferRadius : Q;
  drawMode : DrawMode
}.

Definition setSelectedPoint (v : option LatLng) (st : State) : State :=
  mkState v (polygon st) (bufferRadius st) (drawMode st).
Definition setPolygon (v : list (Q * Q)) (st : State) : State :=
  mkState (selectedPoint st) v (bufferRadius st) (drawMode st).
Definition setBufferRadius (v : Q) (st : State) : State :=
  mkState (selectedPoint st) (polygon st) v (drawMode st).
Definition setDrawMode (v : DrawMode) (st : State) : State :=
  mkState (selectedPoint st) (polygon st) (bufferRadius st) v.

(** The cells at mount: [initialLocation?.polygon || []] is the polygon
    of the initial location when it has one. *)
Definition initialState (initialLocation : option SubmitClaim.FormLocation) : State :=
  mkState
    ((fun l => mkLatLng (SubmitClaim.lat l) (SubmitClaim.lng l)) <$> initialLocation)
    (default [] (initialLocation ≫= SubmitClaim.loc_polygon))
    100 point.

Inductive Effect :=
| OnLocationSelect (location : SubmitClaim.FormLocation).

Section Trigonometry.
(** [Math.PI], [Math.cos] and [Math.sin]. *)
Variable PI : Q.
Variable cos sin : Q -> Q.

Definition earthRadius : Q := 6371000.

(** The point that the loop of [generateBufferPolygon] pushes for
    index [i]. *)
Definition bufferPoint (center : LatLng) (radius : Q) (i : nat) : Q * Q :=
  let angle := (inject_Z (Z.of_nat i) * 360 / 32)%Q in
  let angleRad := (angle * PI / 180)%Q in
  ((lat center + (radius / earthRadius) * (180 / PI) * cos angleRad)%Q,
   (lng center + (radius / earthRadius) * (180 / PI) * sin angleRad
                 / cos (lat center * PI / 180))%Q).

(** [generateBufferPolygon]: [for (let i = 0; i < 32; i++)]. *)
Definition generateBufferPolygon (center : LatLng) (radius : Q) : list (Q * Q) :=
  map (bufferPoint center radius) (seq 0 32).

(** The [click] handler of the map; [st] is the state of the render
    that installed it. *)
Definition click (st : State) (latlng : LatLng) : M State Effect unit :=
  match drawMode st with
  | point =>
      set (setSelectedPoint (Some latlng));;
      set (setPolygon []);;
      let bufferPolygon := generateBufferPolygon latlng (bufferRadius st) in
      set (setPolygon bufferPolygon);;
      emit (OnLocationSelect
              (SubmitClaim.mkFormLocation (lat latlng) (lng latlng) (Some bufferPolygon)))
  | _ => mret tt
  end.

Definition handleBufferRadiusChange (st : State) (newRadius : Q) : M State Effect unit :=
  set (setBufferRadius newRadius);;
  match selectedPoint st with
  | Some selected =>
      let bufferPolygon := generateBufferPolygon selected newRadius in
      set (setPolygon bufferPolygon);;
      emit (OnLocationSelect
              (SubmitClaim.mkFormLocation (lat selected) (lng selected)
                                          (Some bufferPolygon)))
  | None => mret tt
  end.

(** What can happen to the mounted selector: a click on the map, one of
    the three mode buttons, and the radius slider, which is rendered in
    ['point'] mode only. *)
Inductive Event :=
| MapClick (latlng : LatLng)
| ClickDrawMode (mode : DrawMode)
| SlideBufferRadius (newRadius : Q).

Definition handler (st : State) (ev : Event) : M State Effect unit :=
  match ev with
  | MapClick latlng => click st latlng
  | ClickDrawMode mode => set (setDrawMode mode)
  | SlideBufferRadius newRadius =>
      match drawMode st with
      | point => handleBufferRadiusChange st newRadius
      | _ => mret tt
      end
  end.

Definition step (st : State) (ev : Event) : State :=
  Async.final (handler st ev st).

End Trigonometry.

(** The loop of [calculateArea], as in [SubmitClaim]. *)
Definition shoelace (vertices : list (Q * Q)) : Q :=
  foldl (fun area i =>
           let j := ((i + 1) mod length vertices)%nat in
           let pi := nth i vertices (0, 0)%Q in
           let pj := nth j vertices (0, 0)%Q in
           (area + pi.1 * pj.2 - pj.1 * pi.2)%Q)
        0%Q (seq 0 (length vertices)).

(** [calculateArea]: [Math.abs(area / 2) * 111320 * 111320], in square
    metres. *)
Definition calculateArea (vertices : list (Q * Q)) : Q :=
  if Nat.ltb (length vertices) 3 then 0%Q
  else (Qabs (shoelace vertices / 2) * 111320 * 111320)%Q.

(** The area shown under the map, before [toFixed(2)]:
    [calculateArea(polygon) / 10000], when a point is selected and the
    polygon is not empty. *)
Definition shownHectares (st : State) : option Q :=
  match selectedPoint st with
  | Some _ =>
      if Nat.ltb 0 (length (polygon st))
      then Some (calculateArea (polygon st) / 10000)%Q
      else None
  | None => None
  end.

End MapSelector.

(** ** Sample data, for the concrete instances below *)

Module Samples.
Import Types.

Definition estimate (mn mx : Q) : CarbonImpactEstimate :=
  mkCarbonImpactEstimate mn mx None 1.

Definition claim_with (i : string) (s : ClaimStatus) : Claim :=
  mkClaim i reforestation "Mangrove belt" "Replanting of the northern shore"
          None None None None None (estimate 10 20) "2024-01-01T00:00:00.000Z"
          None [] [] "Ana" None s "2024-01-02" "2024-01-03" None.

Definition form (mn mx : Q) (start : string) (fs : list File) : SubmitClaim.FormData :=
  SubmitClaim.mkFormData reforestation "Mangrove belt"
    "Replanting of the northern shore" (Some (SubmitClaim.mkFormLocation 1 2 None))
    None None (estimate mn mx) start None [""] [""] "Ana" None fs.

Definition wizard (mn mx : Q) (start : string) (fs : list File) : SubmitClaim.State :=
  SubmitClaim.mkState 6 false false (form mn mx start fs) ∅.

Definition photo : File := mkFile "before.png" "image/png" 2048.
Definition later_photo : File := mkFile "after.png" "image/png" 4096.

(** A [FileReader] that loads every file. *)
Definition loads (f : File) : option string := Some ("data:" +:+ file_type f).

Definition network_error : JS.Error := JS.mkError None (Some "Network Error").

(** A back end that creates the claim and then loses the upload. *)
Definition upload_fails : SubmitClaim.Env :=
  SubmitClaim.mkEnv (fun _ => Resolved (claim_with "c1" ai_analysis_pending))
                    (fun _ _ => Rejected network_error)
                    (fun d => Resolved d).

(** What [form mn mx start fs] is submitted as. *)
Definition submission (mn mx : Q) (start : string) : ClaimSubmission :=
  mkClaimSubmission reforestation "Mangrove belt" "Replanting of the northern shore"
    (Some (mkGeoLocation 1 2 None)) None None (estimate mn mx) start None
    (Some []) (Some []) "Ana" None.

(** The doubles 0.1 and 0.2, the largest double and the least
    positive one. *)
Definition tenth : Q := 3602879701896397 # 36028797018963968.
Definition fifth : Q := 3602879701896397 # 18014398509481984.
Definition largest : Q := ((2 ^ 53 - 1) * 2 ^ 971)%Q.
Definition least : Q := (2 ^ (-1074))%Q.

Definition impact (mn mx : Q) (p : option Q) : VerifiedImpact :=
  mkVerifiedImpact mn mx p medium "ndvi-v1" None.

Definition verification_with (vi : option VerifiedImpact) : VerificationResult :=
  mkVerificationResult "v1" "c1" vs_completed (Some vo_approved) vi medium None
                       "2024-01-02" None.

Definition response (s : ClaimStatus) (v : option VerificationResult) (mintable : bool)
    : PublicClaimResponse :=
  mkPublicClaimResponse (claim_with "c1" s) v None None None [] s mintable
                        "Verified impact confirmed" None None None [].

(** The claim page showing an approved, mintable claim with verified
    impact [vi]. *)
Definition mintable (vi : VerifiedImpact) : ClaimDetail.State :=
  ClaimDetail.mkState (Some (response approved (Some (verification_with (Some vi))) true))
                      false None false false false false None.

Definition mint_offline : ClaimDetail.MintEnv :=
  ClaimDetail.mkMintEnv (fun _ _ => Rejected network_error)
                        (fun _ => Rejected network_error).

(** A review form whose positives hold the same text twice. *)
Definition duplicate_form : ReviewSubmission :=
  mkReviewSubmission "b" "Authority Reviewer #001" approve None
    (Some ["clear imagery"; "clear imagery"]) (Some [""])
    (Some "Boundary checked against the cadastre").

Definition review_state : ReviewPages.State :=
  ReviewPages.mkState [claim_with "b" ai_verified] (Some (claim_with "b" ai_verified))
                      None duplicate_form false false false.

Definition offline : ReviewPages.Env :=
  ReviewPages.mkEnv (Rejected network_error) (fun _ => Rejected network_error)
                    (fun _ => Rejected network_error).

(** A visitor fills the wizard step by step, waiting for each step to
    appear, and reaches the review step. *)
Definition filled_wizard : list SubmitClaim.Event :=
  [ SubmitClaim.ClickClaimType mangrove_restoration;
    SubmitClaim.ClickNext; SubmitClaim.ExitComplete;
    SubmitClaim.TypeTitle "Mangrove belt";
    SubmitClaim.TypeDescription "Replanting of the northern shore";
    SubmitClaim.TypeSubmitterName "Ana";
    SubmitClaim.ClickNext; SubmitClaim.ExitComplete;
    SubmitClaim.SelectLocation (SubmitClaim.mkFormLocation 1 2 None);
    SubmitClaim.ClickNext; SubmitClaim.ExitComplete;
    SubmitClaim.TypeMin 10; SubmitClaim.TypeMax 20;
    SubmitClaim.TypeStartDate "2024-01-01";
    SubmitClaim.ClickNext; SubmitClaim.ExitComplete;
    SubmitClaim.FilesChange [photo];
    SubmitClaim.ClickNext; SubmitClaim.ExitComplete ].

(** A visitor who passes step 2 and, while its content is still
    leaving, types [title] over the title. *)
Definition late_title (title : string) : list SubmitClaim.Event :=
  [ SubmitClaim.ClickNext; SubmitClaim.ExitComplete;
    SubmitClaim.TypeTitle "Mangrove belt";
    SubmitClaim.TypeDescription "Replanting of the northern shore";
    SubmitClaim.TypeSubmitterName "Ana";
    SubmitClaim.ClickNext; SubmitClaim.TypeTitle title; SubmitClaim.ExitComplete;
    SubmitClaim.SelectLocation (SubmitClaim.mkFormLocation 1 2 None);
    SubmitClaim.ClickNext; SubmitClaim.ExitComplete;
    SubmitClaim.TypeMin 10; SubmitClaim.TypeMax 20;
    SubmitClaim.TypeStartDate "2024-01-01";
    SubmitClaim.ClickNext; SubmitClaim.ExitComplete;
    SubmitClaim.ClickNext; SubmitClaim.ExitComplete ].

(** A browser in which no date can be converted. *)
Definition invalid_time_value : JS.Error := JS.mkError None (Some "Invalid time value").

Definition no_dates : SubmitClaim.Env :=
  SubmitClaim.mkEnv (fun _ => Resolved (claim_with "c1" ai_analysis_pending))
                    (fun _ _ => Resolved [])
                    (fun _ => Rejected invalid_time_value).

(** Rational stand-ins for [Math.PI], [Math.cos] and [Math.sin]: 355/113
    and the first terms of the two series. *)
Definition pi : Q := 355 # 113.
Definition cosine (x : Q) : Q := (1 - x * x / 2)%Q.
Definition sine (x : Q) : Q := x.

(** A freshly mounted map selector, and one switched to "Custom
    Polygon". *)
Definition fresh_map : MapSelector.State := MapSelector.initialState None.
Definition polygon_map : MapSelector.State :=
  MapSelector.setDrawMode MapSelector.polygon_mode fresh_map.

Definition shore : MapSelector.LatLng := MapSelector.mkLatLng 1 2.

Definition credit : MintedCredit :=
  mkMintedCredit "t1" "c1" 15 active 15 None "2024-02-01" true "Simulated credit".

(** A back end that mints and then fails to answer the refresh. *)
Definition refresh_lost : ClaimDetail.MintEnv :=
  ClaimDetail.mkMintEnv (fun _ _ => Resolved credit) (fun _ => Rejected network_error).

(** A community back end with one claim open for review, and a
    community member who selects it, types notes and sets the
    confidence to 0. *)
Definition community_backend : ReviewPages.Env :=
  ReviewPages.mkEnv (Resolved [claim_with "b" authority_reviewed])
                    (fun _ => Rejected network_error)
                    (fun _ => Rejected network_error).

Definition zero_confidence : list ReviewPages.Event :=
  [ ReviewPages.Mount community_backend;
    ReviewPages.ClickClaim 0 community_backend;
    ReviewPages.TypeNotes "Seen on site";
    ReviewPages.TypeConfidence (Some 0%Q) ].

End Samples.

(** ** Notions used in the statements *)

(** The statuses at which the governance stage of a role may act, in the
    words of the specification (§4.3): for the authority,
    [ai_verified], [ai_analyzed] or [verified]; for the community,
    [authority_reviewed]. *)
Definition stage_precondition (role : Types.ReviewRole) : list Types.ClaimStatus :=
  match role with
  | Types.authority => [Types.ai_verified; Types.ai_analyzed; Types.verified]
  | Types.community => [Types.authority_reviewed]
  end.

(** What a state offers for review: the rows of the list and the claim
    in the review panel. *)
Definition offered (st : ReviewPages.State) (c : Types.Claim) : Prop :=
  c ∈ ReviewPages.claims st \/ ReviewPages.selectedClaim st = Some c.

Definition offers_only_stage (role : Types.ReviewRole) (st : ReviewPages.State) : Prop :=
  forall c, offered st c -> Types.status c ∈ stage_precondition role.

(** The entries that an event stores for the first time. *)
Definition storedBy (maxFiles : nat) (readAsDataURL : Types.File -> option string)
    (u : EvidenceUploader.Uploader) (ev : EvidenceUploader.Event)
    : list EvidenceUploader.EvidenceFile :=
  match ev with
  | EvidenceUploader.HandleFiles random newFiles =>
      let batch := EvidenceUploader.filesToAdd maxFiles u newFiles in
      if EvidenceUploader.reads batch then []
      else match EvidenceUploader.all
                   (imap (EvidenceUploader.evidenceFile readAsDataURL random) batch) with
           | EvidenceUploader.Fulfilled evidenceFiles => evidenceFiles
           | EvidenceUploader.NeverSettled => []
           end
  | EvidenceUploader.PreviewsLoaded k =>
      match EvidenceUploader.inFlight u !! k with
      | Some call => EvidenceUploader.awaited call
      | None => []
      end
  | EvidenceUploader.RemoveFile _ | EvidenceUploader.UploadTimer _ => []
  end.

(** The identifiers of the entries in the order in which the uploader
    first stored them, over a sequence of events from the mount. *)
Definition stored_order (maxFiles : nat) (readAsDataURL : Types.File -> option string)
    (evs : list EvidenceUploader.Event) : list string :=
  snd (foldl (fun '(u, ids) ev =>
                (EvidenceUploader.step maxFiles readAsDataURL u ev,
                 ids ++ map EvidenceUploader.id (storedBy maxFiles readAsDataURL u ev)))
             (EvidenceUploader.mkUploader EvidenceUploader.initialState [], [])
             evs).

(** An entry as [handleFiles] makes it. *)
Definition classified (f : EvidenceUploader.EvidenceFile) : Prop :=
  EvidenceUploader.type f = EvidenceUploader.getFileType (EvidenceUploader.file f)
  /\ (is_Some (EvidenceUploader.preview f) <->
      EvidenceUploader.type f = EvidenceUploader.image).

(** What holds of the uploader between two events, [ids] being the
    identifiers stored so far. *)
Definition uploader_invariant_at (maxFiles : nat)
    (u : EvidenceUploader.Uploader) (ids : list string) : Prop :=
  (length (EvidenceUploader.files u) <= maxFiles
   /\ Forall classified (EvidenceUploader.files u)
   /\ map EvidenceUploader.id (EvidenceUploader.files u) `sublist_of` ids)
  /\ Forall (fun call =>
               length (EvidenceUploader.files (EvidenceUploader.render call))
               + length (EvidenceUploader.awaited call) <= maxFiles
               /\ Forall classified (EvidenceUploader.files (EvidenceUploader.render call))
               /\ Forall classified (EvidenceUploader.awaited call)
               /\ map EvidenceUploader.id
                      (EvidenceUploader.files (EvidenceUploader.render call))
                    `sublist_of` ids)
            (EvidenceUploader.inFlight u).


(** The state in which [ClaimDetail.commit] leaves a page that has an
    [id] (lemma [commit_final]): unchanged when the dependencies of the second
    effect are those of its last run; otherwise the second timer is armed
    and [aiAnalysisInProgress] set exactly when the claim shown is still
    under analysis. *)
Definition after_commit (st : ClaimDetail.State) : ClaimDetail.State :=
  if match ClaimDetail.deps2 st with
     | Some d => ClaimDetail.deps2_eqb d (ClaimDetail.currentDeps2 st)
     | None => false
     end
  then st
  else
    match ClaimDetail.claimData st with
    | Some cd =>
        if ClaimDetail.analysisRunning (Types.pc_status cd)
        then ClaimDetail.mkState (ClaimDetail.claimData st) (ClaimDetail.loading st)
               (ClaimDetail.error st) true (ClaimDetail.minting st)
               (ClaimDetail.pollInterval1 st) true
               (Some (Some (Types.pc_status cd), true))
        else ClaimDetail.mkState (ClaimDetail.claimData st) (ClaimDetail.loading st)
               (ClaimDetail.error st) (ClaimDetail.aiAnalysisInProgress st)
               (ClaimDetail.minting st) (ClaimDetail.pollInterval1 st) false
               (Some (ClaimDetail.currentDeps2 st))
    | None =>
        ClaimDetail.mkState (ClaimDetail.claimData st) (ClaimDetail.loading st)
          (ClaimDetail.error st) (ClaimDetail.aiAnalysisInProgress st)
          (ClaimDetail.minting st) (ClaimDetail.pollInterval1 st) false
          (Some (ClaimDetail.currentDeps2 st))
    end.

(** What holds of the page between two events: the second effect has run
    with the current dependencies, and its timer is armed only while the
    claim shown is under analysis and [aiAnalysisInProgress] is set. *)
Definition flushed (st : ClaimDetail.State) : Prop :=
  ClaimDetail.deps2 st = Some (ClaimDetail.currentDeps2 st)
  /\ (ClaimDetail.pollInterval2 st = true ->
      ClaimDetail.aiAnalysisInProgress st = true
      /\ exists cd, ClaimDetail.claimData st = Some cd
                    /\ ClaimDetail.analysisRunning (Types.pc_status cd) = true).

Definition is_tick (ev : ClaimDetail.Event) : bool :=
  match ev with
  | ClaimDetail.Tick1 _ | ClaimDetail.Tick2 _ => true
  | ClaimDetail.FetchClaimSettled _ | ClaimDetail.ClickMint _ => false
  end.

(** ** Notions used in the further properties *)

(** What holds of the wizard between two events: the step is one of the
    six, no submission is pending, and the fields that no input of the
    wizard sets have their initial values. *)
Definition wizard_invariant (st : SubmitClaim.State) : Prop :=
  let fd := SubmitClaim.formData st in
  (1 <= SubmitClaim.currentStep st <= 6)
  /\ SubmitClaim.isSubmitting st = false
  /\ SubmitClaim.uploadingEvidence st = false
  /\ SubmitClaim.fd_geometry_geojson fd = None
  /\ SubmitClaim.fd_action_end_date fd = None
  /\ SubmitClaim.fd_stated_assumptions fd = [""]
  /\ SubmitClaim.fd_known_limitations fd = [""].

(** The number of claims of a list that have status [s]. *)
Definition claims_with_status (s : Types.ClaimStatus) (claims : list Types.Claim) : nat :=
  length (filter (fun c => Types.status c = s) claims).

(** The seven statuses among the values of [Transparency.statusOptions],
    and the five that have no option. *)
Definition listed_statuses : list Types.ClaimStatus :=
  [Types.submitted; Types.ai_analyzed; Types.authority_reviewed;
   Types.community_reviewed; Types.approved; Types.minted; Types.rejected].

Definition unlisted_statuses : list Types.ClaimStatus :=
  [Types.ai_analysis_pending; Types.ai_analysis_in_progress; Types.verified;
   Types.ai_verified; Types.ai_rejected].

(** No character of [s] is an underscore. *)
Fixpoint no_underscore (s : string) : bool :=
  match s with
  | EmptyString => true
  | String c r => negb (Ascii.eqb c "_") && no_underscore r
  end.

(** The last code unit of a string. *)
Fixpoint last_unit (s : string) : option ascii :=
  match s with
  | EmptyString => None
  | String c EmptyString => Some c
  | String _ r => last_unit r
  end.

(** What holds of the claim page between two events besides [flushed]:
    while the claim shown is under analysis, the second timer is armed
    and [aiAnalysisInProgress] is set. *)
Definition tracking (st : ClaimDetail.State) : Prop :=
  flushed st
  /\ forall cd,
       ClaimDetail.claimData st = Some cd ->
       ClaimDetail.analysisRunning (Types.pc_status cd) = true ->
       ClaimDetail.pollInterval2 st = true /\ ClaimDetail.aiAnalysisInProgress st = true.

(** The message of the [alert] of [handleMint]. *)
Definition mint_alert (e : JS.Error) : string :=
  default "Failed to mint credits"
    (JS.or_string (JS.response_data_detail e) (Some "Failed to mint credits")).

(** The message of the [alert] of [handleReview]. *)
Definition review_alert (e : JS.Error) : string :=
  default "Failed to submit review"
    (JS.or_string (JS.response_data_detail e) (Some "Failed to submit review")).

(** The confidence score a review form of a role may hold: none on
    the authority dashboard, a number other than 0 on the community
    page. *)
Definition confidence_ok (role : Types.ReviewRole) (r : Types.ReviewSubmission) : Prop :=
  match role with
  | Types.authority => Types.confidence_score r = None
  | Types.community =>
      exists c, Types.confidence_score r = Some c /\ ~ (c == 0)%Q
  end.

(** The status of the timeline entry with identifier [entry], if the
    timeline of the claim has one. *)
Definition entry_status (claim : Types.Claim) (entry : string)
    : option ClaimTimeline.EventStatus :=
  ClaimTimeline.status
    <$> head (filter (fun event => ClaimTimeline.id event = entry)
                     (ClaimTimeline.timelineEvents claim)).

(** The finite values of the Number type that are not negative: the
    multiples [m * 2 ^ (e - 52)] with [m] below [2 ^ 53] and [e] from
    [-1022]; the exponent has no upper bound here. *)
Definition on_grid (v : Q) : Prop :=
  exists (m e : Z),
    (v == inject_Z m * 2 ^ (e - 52))%Q /\ (-1022 <= e)%Z /\ (0 <= m < 2 ^ 53)%Z.

(** * Properties *)

(** ** Auxiliary facts *)

(** Unfolds the monad operations of a handler applied to a state. *)
Ltac async_unfold :=
  unfold mbind, mret, M_bind, M_ret, Async.bind, Async.ret, Async.set, Async.emit,
    Async.await, Async.lift, Async.gets, Async.try_catch, Async.try_finally,
    Async.effects, Async.final, Async.completion in *.

Ltac async_simpl := async_unfold; cbn in *.

Lemma Qle_bool_false (x y : Q) : Qle_bool x y = false <-> (y < x)%Q.
Proof.
  split; intros H.
  - apply Qnot_le_lt. intros Hle. apply Qle_bool_iff in Hle. congruence.
  - destruct (Qle_bool x y) eqn:E; [|reflexivity].
    apply Qle_bool_iff in E. exfalso. eapply Qlt_not_le; eauto.
Qed.

Lemma check_empty_iff (c : bool) (k msg : string) (e : gmap string string) :
  SubmitClaim.check c k msg e = ∅ <-> c = false /\ e = ∅.
Proof.
  unfold SubmitClaim.check. destruct c.
  - split; [intros H | intros [H _]; discriminate].
    exfalso. by apply insert_non_empty in H.
  - tauto.
Qed.

Lemma truthy_string_false (s : string) : JS.truthy_string s = false <-> s = "".
Proof. destruct s; simpl; split; congruence. Qed.

(** Step 4 leaves no error exactly when the three tests all fail. *)
Lemma newErrors4_empty (fd : SubmitClaim.FormData) :
  let cie := SubmitClaim.fd_carbon_impact_estimate fd in
  SubmitClaim.newErrors fd 4 = ∅ <->
  (0 < Types.min_tonnes_co2e cie)%Q
  /\ (Types.min_tonnes_co2e cie < Types.max_tonnes_co2e cie)%Q
  /\ SubmitClaim.fd_action_start_date fd ≠ "".
Proof.
  cbn zeta. unfold SubmitClaim.newErrors.
  rewrite !check_empty_iff. unfold JS.le.
  rewrite !Qle_bool_false, negb_false_iff.
  split.
  - intros (Hd & Hmax & Hmin & _). repeat split; try assumption.
    intros E. rewrite E in Hd. discriminate.
  - intros (Hmin & Hmax & Hd). repeat split; try assumption.
    destruct (SubmitClaim.fd_action_start_date fd); [congruence | reflexivity].
Qed.

Lemma validateStep_result (fd : SubmitClaim.FormData) (n : nat) (st : SubmitClaim.State) :
  SubmitClaim.validateStep fd n st =
  ([], SubmitClaim.setErrors (SubmitClaim.newErrors fd n) st,
   Resolved (bool_decide (SubmitClaim.newErrors fd n = ∅))).
Proof.
  unfold SubmitClaim.validateStep. async_simpl.
  do 2 f_equal. apply bool_decide_ext. apply map_size_empty_iff.
Qed.

(** When step 4 finds an error, [handleSubmit] stores it and returns. *)
Lemma handleSubmit_invalid (env : SubmitClaim.Env) (st : SubmitClaim.State) :
  SubmitClaim.newErrors (SubmitClaim.formData st) 4 ≠ ∅ ->
  SubmitClaim.handleSubmit env st st =
  ([], SubmitClaim.setErrors (SubmitClaim.newErrors (SubmitClaim.formData st) 4) st,
   Resolved tt).
Proof.
  intros Hne. unfold SubmitClaim.handleSubmit.
  unfold mbind at 1. unfold M_bind at 1. unfold Async.bind at 1.
  rewrite validateStep_result.
  rewrite bool_decide_eq_false_2 by assumption.
  reflexivity.
Qed.

Lemma newErrors4_carbon_impact (fd : SubmitClaim.FormData) :
  let cie := SubmitClaim.fd_carbon_impact_estimate fd in
  ~ ((0 < Types.min_tonnes_co2e cie)%Q
     /\ (Types.min_tonnes_co2e cie < Types.max_tonnes_co2e cie)%Q) ->
  is_Some (SubmitClaim.newErrors fd 4 !! "carbon_impact").
Proof.
  cbn zeta. intros Hbad.
  unfold SubmitClaim.newErrors, SubmitClaim.check, JS.le.
  destruct (Qle_bool (Types.max_tonnes_co2e _) (Types.min_tonnes_co2e _)) eqn:Emax.
  - destruct (negb _); [rewrite lookup_insert_ne by discriminate|];
      rewrite lookup_insert_eq; eauto.
  - destruct (Qle_bool (Types.min_tonnes_co2e _) 0) eqn:Emin.
    + destruct (negb _); [rewrite lookup_insert_ne by discriminate|];
        rewrite lookup_insert_eq; eauto.
    + exfalso. apply Hbad. apply Qle_bool_false in Emax, Emin. tauto.
Qed.

(** ** C1: validation of the carbon-impact range *)

(** C1, as stated, fails: with minimum and maximum both 5 (so that
    max ≥ min > 0) and a start date set, step-4 validation does not
    pass. *)
Lemma validateStep_rejects_equal_bounds :
  ~ (forall (fd : SubmitClaim.FormData) (st : SubmitClaim.State),
        SubmitClaim.fd_action_start_date fd ≠ "" ->
        let cie := SubmitClaim.fd_carbon_impact_estimate fd in
        Async.completion (SubmitClaim.validateStep fd 4 st) = Resolved true <->
        (0 < Types.min_tonnes_co2e cie)%Q
        /\ (Types.min_tonnes_co2e cie <= Types.max_tonnes_co2e cie)%Q).
Proof.
  intros H.
  specialize (H (Samples.form 5 5 "2024-01-01" []) (Samples.wizard 5 5 "2024-01-01" [])).
  cbn zeta in H.
  assert (Hd : SubmitClaim.fd_action_start_date (Samples.form 5 5 "2024-01-01" []) ≠ "")
    by discriminate.
  destruct (H Hd) as [_ Hback].
  assert (Hok : Async.completion
                  (SubmitClaim.validateStep (Samples.form 5 5 "2024-01-01" []) 4
                     (Samples.wizard 5 5 "2024-01-01" [])) = Resolved true).
  { apply Hback. split; [reflexivity | discriminate]. }
  vm_compute in Hok. discriminate.
Qed.

(** C1, amended: step-4 validation passes exactly when
    max > min > 0 and the action start date is set; and whenever the
    range is not of that form, [handleSubmit] records the
    [carbon_impact] error and returns without performing any request
    or other effect. *)
Theorem validateStep_carbon_range (env : SubmitClaim.Env) (st : SubmitClaim.State) :
  let fd := SubmitClaim.formData st in
  let cie := SubmitClaim.fd_carbon_impact_estimate fd in
  (Async.completion (SubmitClaim.validateStep fd 4 st) = Resolved true <->
     (0 < Types.min_tonnes_co2e cie)%Q
     /\ (Types.min_tonnes_co2e cie < Types.max_tonnes_co2e cie)%Q
     /\ SubmitClaim.fd_action_start_date fd ≠ "")
  /\ (~ ((0 < Types.min_tonnes_co2e cie)%Q
         /\ (Types.min_tonnes_co2e cie < Types.max_tonnes_co2e cie)%Q) ->
      Async.effects (SubmitClaim.handleSubmit env st st) = []
      /\ is_Some (SubmitClaim.errors (Async.final (SubmitClaim.handleSubmit env st st))
                    !! "carbon_impact")).
Proof.
  cbn zeta. split.
  - rewrite validateStep_result. unfold Async.completion. cbn [snd].
    rewrite <- newErrors4_empty. split.
    + intros [= H]. by apply bool_decide_eq_true in H.
    + intros H. f_equal. by apply bool_decide_eq_true.
  - intros Hbad.
    assert (Hne : SubmitClaim.newErrors (SubmitClaim.formData st) 4 ≠ ∅).
    { intros He. apply newErrors4_empty in He. cbn zeta in He. tauto. }
    rewrite (handleSubmit_invalid env st Hne).
    split; [reflexivity|].
    apply (newErrors4_carbon_impact _ Hbad).
Qed.

(** ** C7: evidence upload failures and claim creation failures *)

(** The run of [handleSubmit] once validation has passed, a location is
    set and the submission has been built. *)
Lemma handleSubmit_valid (env : SubmitClaim.Env) (st : SubmitClaim.State)
    (sub : Types.ClaimSubmission) :
  let fd := SubmitClaim.formData st in
  SubmitClaim.newErrors fd 4 = ∅ ->
  is_Some (SubmitClaim.fd_location fd) \/ is_Some (SubmitClaim.fd_geometry_geojson fd) ->
  SubmitClaim.buildSubmission env fd = Resolved sub ->
  SubmitClaim.handleSubmit env st st =
  match SubmitClaim.submitClaim env sub with
  | Resolved claim =>
      let nav :=
        SubmitClaim.Navigate ("/claim/" +:+ Types.id claim) SubmitClaim.success_message
          (SubmitClaim.isAnalysisStatus (Types.status claim)) in
      (SubmitClaim.ApiSubmitClaim sub
         :: match SubmitClaim.evidenceFiles fd with
            | [] => []
            | _ :: _ =>
                SubmitClaim.ApiUploadEvidence (Types.id claim) (SubmitClaim.evidenceFiles fd)
                  :: match SubmitClaim.uploadEvidence env (Types.id claim)
                             (SubmitClaim.evidenceFiles fd) with
                     | Resolved _ => []
                     | Rejected e =>
                         [SubmitClaim.ConsoleError "Error uploading evidence:" e]
                     end
            end ++ [nav],
       SubmitClaim.mkState (SubmitClaim.currentStep st) false false fd ∅,
       Resolved tt)
  | Rejected e =>
      ([SubmitClaim.ApiSubmitClaim sub;
        SubmitClaim.ConsoleError "Error submitting claim:" e],
       SubmitClaim.mkState (SubmitClaim.currentStep st) false false fd
                           {[ "submit" := SubmitClaim.errorMessage e ]},
       Resolved tt)
  end.
Proof.
  cbn zeta. intros Hok Hloc Hsub.
  unfold SubmitClaim.handleSubmit.
  unfold mbind at 1. unfold M_bind at 1. unfold Async.bind at 1.
  rewrite validateStep_result, Hok.
  rewrite bool_decide_eq_true_2 by reflexivity.
  assert (Hg : negb (bool_decide (is_Some (SubmitClaim.fd_location (SubmitClaim.formData st))))
               && negb (bool_decide (is_Some (SubmitClaim.fd_geometry_geojson
                                                (SubmitClaim.formData st)))) = false).
  { destruct Hloc as [H|H]; rewrite (bool_decide_eq_true_2 _ H); cbn;
      [reflexivity | apply andb_false_r]. }
  rewrite Hg. cbn [negb orb].
  async_unfold. rewrite Hsub.
  destruct (SubmitClaim.submitClaim env sub) as [claim|e]; cbn.
  - destruct (SubmitClaim.evidenceFiles (SubmitClaim.formData st)) as [|f fs] eqn:Ef; cbn.
    + reflexivity.
    + destruct (SubmitClaim.uploadEvidence env (Types.id claim) (f :: fs)); reflexivity.
  - reflexivity.
Qed.



(** ** Binary64 arithmetic *)

Section Rounding.
Local Open Scope Q_scope.

Lemma pow2_pos (z : Z) : 0 < 2 ^ z.
Proof. by apply Qpower_0_lt. Qed.

Lemma pow2_plus (a b : Z) : 2 ^ (a + b) == 2 ^ a * 2 ^ b.
Proof. by apply Qpower_plus. Qed.

Lemma pow2_le (a b : Z) : (a <= b)%Z -> 2 ^ a <= 2 ^ b.
Proof. intros H. by apply Qpower_le_compat_l. Qed.

Lemma pow2_lt (a b : Z) : (a < b)%Z -> 2 ^ a < 2 ^ b.
Proof. intros H. by apply Qpower_lt_compat_l. Qed.

Lemma pow2_lt_inv (a b : Z) : 2 ^ a < 2 ^ b -> (a < b)%Z.
Proof. intros H. by apply (Qpower_lt_compat_l_inv 2). Qed.

Lemma pow2_inject (n : Z) : (0 <= n)%Z -> inject_Z (2 ^ n) == 2 ^ n.
Proof. intros H. by rewrite Zpower_Qpower. Qed.

(** [ilog2 x] is the exponent of the binade of a positive [x]. *)
Lemma ilog2_spec (x : Q) :
  0 < x -> 2 ^ JS.ilog2 x <= x /\ x < 2 ^ (JS.ilog2 x + 1).
Proof.
  intros Hx. destruct x as [n d]. unfold JS.ilog2. cbn [Qnum Qden].
  assert (Hn : (0 < n)%Z) by (unfold Qlt in Hx; cbn in Hx; lia).
  set (a := Z.log2 n). set (b := Z.log2 (Zpos d)).
  destruct (Z.log2_spec n Hn) as [Ha1 Ha2]. fold a in Ha1, Ha2.
  destruct (Z.log2_spec (Zpos d) ltac:(lia)) as [Hb1 Hb2]. fold b in Hb1, Hb2.
  assert (Ha0 : (0 <= a)%Z) by apply Z.log2_nonneg.
  assert (Hb0 : (0 <= b)%Z) by apply Z.log2_nonneg.
  assert (HN1 : 2 ^ a <= inject_Z n).
  { rewrite <- pow2_inject by assumption. by rewrite <- Zle_Qle. }
  assert (HN2 : inject_Z n < 2 ^ (a + 1)).
  { rewrite <- pow2_inject by lia. rewrite <- Zlt_Qlt. by rewrite <- Z.add_1_r in Ha2. }
  assert (HD1 : 2 ^ b <= inject_Z (Zpos d)).
  { rewrite <- pow2_inject by assumption. by rewrite <- Zle_Qle. }
  assert (HD2 : inject_Z (Zpos d) < 2 ^ (b + 1)).
  { rewrite <- pow2_inject by lia. rewrite <- Zlt_Qlt. by rewrite <- Z.add_1_r in Hb2. }
  assert (HD0 : 0 < inject_Z (Zpos d)) by reflexivity.
  assert (Hx' : n # d == inject_Z n / inject_Z (Zpos d)) by apply Qmake_Qdiv.
  assert (Hup : n # d < 2 ^ (a - b + 1)).
  { rewrite Hx'. apply Qlt_shift_div_r; [exact HD0|].
    eapply Qlt_le_trans; [exact HN2|].
    replace (a + 1)%Z with ((a - b + 1) + b)%Z by lia. rewrite pow2_plus.
    apply Qmult_le_l; [apply pow2_pos | exact HD1]. }
  assert (Hlow : 2 ^ (a - b - 1) < n # d).
  { rewrite Hx'. apply Qlt_shift_div_l; [exact HD0|].
    eapply Qlt_le_trans; [|exact HN1].
    replace a with ((a - b - 1) + (b + 1))%Z at 2 by lia. rewrite pow2_plus.
    apply Qmult_lt_l; [apply pow2_pos | exact HD2]. }
  destruct (Qle_bool (2 ^ (a - b)) (n # d)) eqn:Hk.
  - apply Qle_bool_iff in Hk. split; assumption.
  - replace (a - b - 1 + 1)%Z with (a - b)%Z by lia. split; [by apply Qlt_le_weak|].
    apply Qnot_le_lt. intros H. apply Qle_bool_iff in H. congruence.
Qed.

Lemma ilog2_unique (x : Q) (e : Z) :
  2 ^ e <= x -> x < 2 ^ (e + 1) -> JS.ilog2 x = e.
Proof.
  intros H1 H2.
  assert (Hx : 0 < x) by (eapply Qlt_le_trans; [apply (pow2_pos e) | exact H1]).
  destruct (ilog2_spec x Hx) as [H3 H4].
  assert (JS.ilog2 x < e + 1)%Z
    by (apply pow2_lt_inv; eapply Qle_lt_trans; [exact H3 | exact H2]).
  assert (e < JS.ilog2 x + 1)%Z
    by (apply pow2_lt_inv; eapply Qle_lt_trans; [exact H1 | exact H4]).
  lia.
Qed.

Lemma ilog2_le (x y : Q) : 0 < x -> x <= y -> (JS.ilog2 x <= JS.ilog2 y)%Z.
Proof.
  intros Hx Hxy.
  destruct (ilog2_spec x Hx) as [H1 _].
  destruct (ilog2_spec y (Qlt_le_trans _ _ _ Hx Hxy)) as [_ H2].
  assert (JS.ilog2 x < JS.ilog2 y + 1)%Z; [|lia].
  apply pow2_lt_inv. eapply Qle_lt_trans; [exact H1|].
  eapply Qle_lt_trans; [exact Hxy | exact H2].
Qed.

Lemma ilog2_upper (x : Q) (e : Z) : 0 < x -> x < 2 ^ (e + 1) -> (JS.ilog2 x <= e)%Z.
Proof.
  intros Hx H. destruct (ilog2_spec x Hx) as [H1 _].
  assert (JS.ilog2 x < e + 1)%Z; [|lia].
  apply pow2_lt_inv. eapply Qle_lt_trans; [exact H1 | exact H].
Qed.

Lemma ilog2_lower (x : Q) (e : Z) : 2 ^ e <= x -> (e <= JS.ilog2 x)%Z.
Proof.
  intros H.
  assert (Hx : 0 < x) by (eapply Qlt_le_trans; [apply (pow2_pos e) | exact H]).
  destruct (ilog2_spec x Hx) as [_ H2].
  assert (e < JS.ilog2 x + 1)%Z; [|lia].
  apply pow2_lt_inv. eapply Qle_lt_trans; [exact H | exact H2].
Qed.


Lemma round_half_even_bounds (x : Q) :
  (Qfloor x <= JS.round_half_even x <= Qfloor x + 1)%Z.
Proof.
  unfold JS.round_half_even.
  destruct (Qcompare _ _); [destruct (Z.even _)| |]; lia.
Qed.

Lemma round_half_even_comp (x y : Q) :
  x == y -> JS.round_half_even x = JS.round_half_even y.
Proof.
  intros H. unfold JS.round_half_even.
  rewrite (Qfloor_comp _ _ H).
  assert (Hc : (x - inject_Z (Qfloor y) ?= 1 # 2) = (y - inject_Z (Qfloor y) ?= 1 # 2))
    by (by rewrite H).
  by rewrite Hc.
Qed.

Lemma round_half_even_Z (z : Z) : JS.round_half_even (inject_Z z) = z.
Proof.
  unfold JS.round_half_even. rewrite Qfloor_Z.
  destruct (Qcompare_spec (inject_Z z - inject_Z z) (1 # 2)) as [H|H|H];
    [|reflexivity|]; exfalso; lra.
Qed.

Lemma round_half_even_le (x y : Q) :
  x <= y -> (JS.round_half_even x <= JS.round_half_even y)%Z.
Proof.
  intros Hxy.
  pose proof (Qfloor_resp_le _ _ Hxy) as Hfg.
  pose proof (round_half_even_bounds x) as Hx.
  pose proof (round_half_even_bounds y) as Hy.
  destruct (Z.eq_dec (Qfloor x) (Qfloor y)) as [E|E]; [|lia].
  unfold JS.round_half_even in *. rewrite <- E in *.
  assert (Hr : x - inject_Z (Qfloor x) <= y - inject_Z (Qfloor x)) by lra.
  destruct (Qcompare_spec (x - inject_Z (Qfloor x)) (1 # 2)) as [H1|H1|H1];
    destruct (Qcompare_spec (y - inject_Z (Qfloor x)) (1 # 2)) as [H2|H2|H2];
    try lia; try lra; destruct (Z.even _); lia.
Qed.

Lemma round_half_even_exact (x : Q) (z : Z) :
  x == inject_Z z -> JS.round_half_even x = z.
Proof. intros H. rewrite (round_half_even_comp _ _ H). apply round_half_even_Z. Qed.

Lemma round_half_even_upper (x : Q) (z : Z) :
  x <= inject_Z z -> (JS.round_half_even x <= z)%Z.
Proof.
  intros H. rewrite <- (round_half_even_Z z). by apply round_half_even_le.
Qed.

Lemma round_half_even_lower (x : Q) (z : Z) :
  inject_Z z <= x -> (z <= JS.round_half_even x)%Z.
Proof.
  intros H. rewrite <- (round_half_even_Z z). by apply round_half_even_le.
Qed.


(** The exponent that [nearest] rounds at. *)
Lemma nearest_exponent (x : Q) :
  0 < x ->
  let e := Z.max (JS.ilog2 x) (-1022) in
  x < 2 ^ (e + 1) /\ ((-1022 <= JS.ilog2 x)%Z -> e = JS.ilog2 x /\ 2 ^ e <= x).
Proof.
  intros Hx. cbn zeta. destruct (ilog2_spec x Hx) as [H1 H2]. split.
  - eapply Qlt_le_trans; [exact H2|]. apply pow2_le. lia.
  - intros Hn. rewrite Z.max_l by lia. by split.
Qed.

Lemma scaled_lt (x : Q) (e : Z) : x < 2 ^ (e + 1) -> x / 2 ^ (e - 52) < inject_Z (2 ^ 53).
Proof.
  intros H. apply Qlt_shift_div_r; [apply pow2_pos|].
  rewrite pow2_inject by lia. rewrite <- pow2_plus.
  by replace (53 + (e - 52))%Z with (e + 1)%Z by lia.
Qed.

Lemma scaled_ge (x : Q) (e : Z) : 2 ^ e <= x -> inject_Z (2 ^ 52) <= x / 2 ^ (e - 52).
Proof.
  intros H. apply Qle_shift_div_l; [apply pow2_pos|].
  rewrite pow2_inject by lia. rewrite <- pow2_plus.
  by replace (52 + (e - 52))%Z with e by lia.
Qed.

Lemma scaled_nonneg (x : Q) (e : Z) : 0 < x -> 0 <= x / 2 ^ (e - 52).
Proof.
  intros H. apply Qle_shift_div_l; [apply pow2_pos|]. rewrite Qmult_0_l.
  by apply Qlt_le_weak.
Qed.

(** The significand that [nearest] computes. *)
Lemma nearest_significand (x : Q) :
  0 < x ->
  let e := Z.max (JS.ilog2 x) (-1022) in
  let m := JS.round_half_even (x / 2 ^ (e - 52)) in
  (0 <= m <= 2 ^ 53)%Z /\ ((-1022 <= JS.ilog2 x)%Z -> (2 ^ 52 <= m)%Z).
Proof.
  intros Hx. cbn zeta. destruct (nearest_exponent x Hx) as [Hup Hlow].
  split; [split|].
  - apply round_half_even_lower. by apply scaled_nonneg.
  - apply round_half_even_upper. apply Qlt_le_weak. by apply scaled_lt.
  - intros Hn. destruct (Hlow Hn) as [_ Hge].
    apply round_half_even_lower. by apply scaled_ge.
Qed.

Lemma nearest_comp (x y : Q) : 0 < x -> x == y -> JS.nearest x = JS.nearest y.
Proof.
  intros Hx Hxy.
  assert (He : JS.ilog2 x = JS.ilog2 y).
  { destruct (ilog2_spec x Hx) as [H1 H2]. symmetry.
    apply ilog2_unique; by rewrite <- Hxy. }
  unfold JS.nearest. rewrite He.
  f_equal. f_equal. apply round_half_even_comp. by rewrite Hxy.
Qed.

Lemma nearest_nonneg (x : Q) : 0 < x -> 0 <= JS.nearest x.
Proof.
  intros Hx. unfold JS.nearest.
  destruct (nearest_significand x Hx) as [[H0 _] _].
  apply Qmult_le_0_compat; [|apply Qlt_le_weak, pow2_pos].
  by rewrite <- (Zle_Qle 0).
Qed.

(** Rounding to nearest is monotone. *)
Lemma nearest_le (x y : Q) : 0 < x -> x <= y -> JS.nearest x <= JS.nearest y.
Proof.
  intros Hx Hxy.
  assert (Hy : 0 < y) by (eapply Qlt_le_trans; eassumption).
  pose proof (ilog2_le x y Hx Hxy) as Hil.
  destruct (nearest_exponent x Hx) as [Hxup _].
  destruct (nearest_exponent y Hy) as [_ Hylow].
  destruct (nearest_significand x Hx) as [[_ Hmx] _].
  destruct (nearest_significand y Hy) as [_ Hmy].
  unfold JS.nearest.
  set (ex := Z.max (JS.ilog2 x) (-1022)) in *.
  set (ey := Z.max (JS.ilog2 y) (-1022)) in *.
  destruct (Z.eq_dec ex ey) as [E|E].
  - rewrite E. apply Qmult_le_compat_r; [|apply Qlt_le_weak, pow2_pos].
    rewrite <- Zle_Qle. apply round_half_even_le.
    apply Qmult_le_compat_r; [exact Hxy|].
    apply Qlt_le_weak, Qinv_lt_0_compat, pow2_pos.
  - assert (Hlt : (ex < ey)%Z) by lia.
    assert (Hn : (-1022 <= JS.ilog2 y)%Z) by lia.
    specialize (Hmy Hn).
    apply Qle_trans with (2 ^ ey).
    + apply Qle_trans with (inject_Z (2 ^ 53) * 2 ^ (ex - 52)).
      * apply Qmult_le_compat_r; [|apply Qlt_le_weak, pow2_pos].
        by rewrite <- Zle_Qle.
      * rewrite pow2_inject by lia. rewrite <- pow2_plus. apply pow2_le. lia.
    + apply Qle_trans with (inject_Z (2 ^ 52) * 2 ^ (ey - 52)).
      * rewrite pow2_inject by lia. rewrite <- pow2_plus.
        replace (52 + (ey - 52))%Z with ey by lia. apply Qle_refl.
      * apply Qmult_le_compat_r; [|apply Qlt_le_weak, pow2_pos].
        by rewrite <- Zle_Qle.
Qed.

Lemma nearest_on_grid (x : Q) : 0 < x -> on_grid (JS.nearest x).
Proof.
  intros Hx. destruct (nearest_significand x Hx) as [[H0 H1] _].
  unfold JS.nearest.
  set (e := Z.max (JS.ilog2 x) (-1022)) in *.
  set (m := JS.round_half_even (x / 2 ^ (e - 52))) in *.
  destruct (Z.eq_dec m (2 ^ 53)%Z) as [E|E].
  - exists (2 ^ 52)%Z, (e + 1)%Z. split; [|lia].
    rewrite E, !pow2_inject by lia. rewrite <- !pow2_plus.
    by replace (53 + (e - 52))%Z with (52 + (e + 1 - 52))%Z by lia.
  - exists m, e. split; [reflexivity|]. lia.
Qed.

(** A positive value of the grid is its own nearest value. *)
Lemma nearest_exact (v : Q) : on_grid v -> 0 < v -> JS.nearest v == v.
Proof.
  intros (m & e & Hv & He & Hm) Hpos.
  assert (Hup : v < 2 ^ (e + 1)).
  { rewrite Hv. apply Qlt_le_trans with (inject_Z (2 ^ 53) * 2 ^ (e - 52)).
    - apply Qmult_lt_r; [apply pow2_pos|]. rewrite <- Zlt_Qlt. lia.
    - rewrite pow2_inject by lia. rewrite <- pow2_plus.
      replace (53 + (e - 52))%Z with (e + 1)%Z by lia. apply Qle_refl. }
  pose proof (ilog2_upper v e Hpos Hup) as Hil.
  unfold JS.nearest.
  set (e' := Z.max (JS.ilog2 v) (-1022)).
  assert (He' : (e' <= e)%Z) by lia.
  assert (Hscaled : v / 2 ^ (e' - 52) == inject_Z (m * 2 ^ (e - e'))).
  { rewrite inject_Z_mult, pow2_inject by lia. rewrite Hv.
    replace (e - 52)%Z with ((e - e') + (e' - 52))%Z by lia.
    rewrite pow2_plus. field.
    intros H0. pose proof (pow2_pos (e' - 52)) as Hp. rewrite H0 in Hp.
    by apply Qlt_irrefl in Hp. }
  rewrite (round_half_even_exact _ _ Hscaled), <- Hscaled.
  field.
  intros H0. pose proof (pow2_pos (e' - 52)) as Hp. rewrite H0 in Hp.
  by apply Qlt_irrefl in Hp.
Qed.

Lemma on_grid_comp (v w : Q) : v == w -> on_grid v -> on_grid w.
Proof. intros H (m & e & Hv & He). exists m, e. by rewrite <- H. Qed.

Lemma on_grid_twice (v : Q) : on_grid v -> on_grid (2 * v).
Proof.
  intros (m & e & Hv & He & Hm). exists m, (e + 1)%Z. split; [|lia].
  rewrite Hv. replace (e + 1 - 52)%Z with (1 + (e - 52))%Z by lia.
  rewrite pow2_plus. change (2 ^ 1) with 2. ring.
Qed.

(** The values of the grid are multiples of the least of them. *)
Lemma on_grid_multiple (v : Q) :
  on_grid v -> exists k : Z, v == inject_Z k * 2 ^ (-1074) /\ (0 <= k)%Z.
Proof.
  intros (m & e & Hv & He & Hm). exists (m * 2 ^ (e + 1022))%Z. split.
  - rewrite Hv, inject_Z_mult, pow2_inject by lia.
    replace (e - 52)%Z with ((e + 1022) + -1074)%Z by lia.
    rewrite pow2_plus. ring.
  - apply Z.mul_nonneg_nonneg; [lia|]. apply Z.pow_nonneg. lia.
Qed.

Lemma on_grid_least : on_grid (2 ^ (-1074)).
Proof.
  exists 1%Z, (-1022)%Z. split; [|lia].
  change (-1022 - 52)%Z with (-1074)%Z. ring.
Qed.

Lemma on_grid_second : on_grid (2 ^ (-1073)).
Proof.
  exists 2%Z, (-1022)%Z. split; [|lia].
  change (-1022 - 52)%Z with (-1074)%Z. change (-1073)%Z with (1 + -1074)%Z.
  rewrite pow2_plus. reflexivity.
Qed.


Lemma number_value_pos (x : Q) :
  0 < x ->
  JS.number_value x
  = if Qle_bool (2 ^ 1024) (JS.nearest x) then JS.Infinity false
    else JS.Finite (JS.nearest x).
Proof.
  intros Hx. unfold JS.number_value.
  destruct (Qcompare_spec x 0) as [H|H|H]; [| |reflexivity]; exfalso; lra.
Qed.

Lemma on_grid_0 (v : Q) : v == 0 -> on_grid v.
Proof.
  intros H. exists 0%Z, 0%Z. split; [|lia]. rewrite H. ring.
Qed.

(** What [is_double] says of a number that is not negative. *)
Lemma is_double_nonneg (x : Q) :
  0 <= x -> JS.is_double x = true ->
  on_grid x /\ x < 2 ^ 1024 /\ (0 < x -> JS.nearest x == x).
Proof.
  intros Hx Hd.
  destruct (Qlt_le_dec 0 x) as [Hpos|Hle].
  - unfold JS.is_double in Hd. rewrite (number_value_pos x Hpos) in Hd.
    destruct (Qle_bool (2 ^ 1024) (JS.nearest x)) eqn:Hover; [discriminate|].
    apply Qeq_bool_iff in Hd.
    split; [|split; [|by intros _]].
    + apply (on_grid_comp _ _ Hd). by apply nearest_on_grid.
    + apply Qnot_le_lt. intros H. rewrite <- Hd in H.
      apply Qle_bool_iff in H. congruence.
  - assert (H0 : x == 0) by lra.
    split; [by apply on_grid_0|]. split; [|intros H; lra].
    rewrite H0. apply pow2_pos.
Qed.

(** The midpoint [(a + b) / 2] of two doubles [0 <= a <= b], as the
    code computes it: when the sum is finite and is not the least
    positive double, the result is positive and at most [b]. *)
Lemma midpoint_bounds (a b s : Q) :
  0 <= a -> a <= b -> 0 < b ->
  JS.is_double a = true -> JS.is_double b = true ->
  ~ a + b == 2 ^ (-1074) ->
  JS.number_add a b = JS.Finite s ->
  exists r, JS.number_div (JS.Finite s) 2 = JS.Finite r /\ 0 < r /\ r <= b.
Proof.
  intros Ha Hab Hb Hda Hdb Hleast Hsum.
  destruct (is_double_nonneg a Ha Hda) as (Hga & _ & _).
  destruct (is_double_nonneg b (Qlt_le_weak _ _ Hb) Hdb) as (Hgb & Hbfin & Hbex).
  specialize (Hbex Hb).
  assert (Hpos : 0 < a + b) by lra.
  unfold JS.number_add in Hsum. rewrite (number_value_pos _ Hpos) in Hsum.
  destruct (Qle_bool (2 ^ 1024) (JS.nearest (a + b))); [discriminate|].
  injection Hsum as <-.
  (* the sum is at most twice [b] *)
  assert (Hs2 : JS.nearest (a + b) <= 2 * b).
  { rewrite <- (nearest_exact (2 * b)) by (by apply on_grid_twice || lra).
    apply nearest_le; [exact Hpos | lra]. }
  (* the sum is at least the second positive double *)
  assert (Hsecond : 2 ^ (-1073) <= a + b).
  { destruct (on_grid_multiple a Hga) as (ka & Hka & Hka0).
    destruct (on_grid_multiple b Hgb) as (kb & Hkb & Hkb0).
    assert (Hk : a + b == inject_Z (ka + kb) * 2 ^ (-1074))
      by (rewrite inject_Z_plus, Hka, Hkb; ring).
    pose proof (pow2_pos (-1074)) as Hu.
    assert (Hge : (2 <= ka + kb)%Z).
    { destruct (Z.eq_dec (ka + kb)%Z 1%Z) as [E|E].
      - exfalso. apply Hleast. rewrite Hk, E. ring.
      - destruct (Z.eq_dec (ka + kb)%Z 0%Z) as [E0|E0]; [|lia].
        exfalso. rewrite Hk, E0, Qmult_0_l in Hpos. by apply Qlt_irrefl in Hpos. }
    rewrite Hk. change (-1073)%Z with (1 + -1074)%Z. rewrite pow2_plus.
    apply Qmult_le_compat_r; [|by apply Qlt_le_weak].
    change (2 ^ 1) with (inject_Z 2). by rewrite <- Zle_Qle. }
  assert (Hs1 : 2 ^ (-1073) <= JS.nearest (a + b)).
  { rewrite <- (nearest_exact (2 ^ (-1073))) by (apply on_grid_second || apply pow2_pos).
    apply nearest_le; [apply pow2_pos | exact Hsecond]. }
  assert (Hhalf : 2 ^ (-1074) <= JS.nearest (a + b) / 2).
  { apply Qle_shift_div_l; [reflexivity|].
    change (-1073)%Z with (-1074 + 1)%Z in Hs1. rewrite pow2_plus in Hs1. exact Hs1. }
  assert (Hhalfpos : 0 < JS.nearest (a + b) / 2).
  { eapply Qlt_le_trans; [apply (pow2_pos (-1074)) | exact Hhalf]. }
  exists (JS.nearest (JS.nearest (a + b) / 2)).
  assert (Hr1 : 2 ^ (-1074) <= JS.nearest (JS.nearest (a + b) / 2)).
  { rewrite <- (nearest_exact (2 ^ (-1074))) by (apply on_grid_least || apply pow2_pos).
    apply nearest_le; [apply pow2_pos | exact Hhalf]. }
  assert (Hr2 : JS.nearest (JS.nearest (a + b) / 2) <= b).
  { rewrite <- Hbex at 2. apply nearest_le; [exact Hhalfpos|].
    apply Qle_shift_div_r; [reflexivity|]. lra. }
  split; [|split].
  - cbn [JS.number_div]. rewrite (number_value_pos _ Hhalfpos).
    destruct (Qle_bool (2 ^ 1024) _) eqn:Hover; [|reflexivity].
    apply Qle_bool_iff in Hover. lra.
  - eapply Qlt_le_trans; [apply (pow2_pos (-1074)) | exact Hr1].
  - exact Hr2.
Qed.

End Rounding.

(** The Number values of a few reals: 1/10 becomes the double 0.1;
    [2 ^ 53 + 1] and [2 ^ 53 + 3], each halfway between two doubles, go
    to the one with the even significand; the least positive double is
    [2 ^ (-1074)], and half of it becomes 0; the largest double is its
    own value, and the real halfway from it to [2 ^ 1024] becomes
    [Infinity]. *)
Lemma number_value_samples :
  JS.number_value (1 # 10) = JS.number_value Samples.tenth
  /\ JS.is_double (1 # 10) = false
  /\ JS.is_double Samples.tenth = true
  /\ JS.number_value (2 ^ 53 + 1) = JS.number_value (2 ^ 53)
  /\ JS.number_value (2 ^ 53 + 3) = JS.number_value (2 ^ 53 + 4)
  /\ JS.is_double Samples.least = true
  /\ ~ JS.number_gt (JS.number_value (Samples.least / 2)) 0
  /\ JS.is_double Samples.largest = true
  /\ JS.number_value (Samples.largest + 2 ^ 970) = JS.Infinity false
  /\ JS.is_double (- (7 # 2)) = true.
Proof.
  do 6 (split; [vm_compute; reflexivity|]).
  split; [intros H; vm_compute in H; discriminate|].
  repeat split; vm_compute; reflexivity.
Qed.

(** ** C3: the amount of a mint request *)

(** What [handleMint] does when the mint button is shown for [cd]. *)
Lemma handleMint_effects (env : ClaimDetail.MintEnv) (st : ClaimDetail.State)
    (cid : string) (amount : JS.Number) :
  ClaimDetail.ApiMintCredits cid amount ∈ Async.effects (ClaimDetail.handleMint env st st) ->
  exists cd v,
    ClaimDetail.claimData st = Some cd
    /\ Types.verification cd = Some v
    /\ Types.can_mint cd = true
    /\ cid = Types.id (Types.claim cd)
    /\ amount = ClaimDetail.mintAmount v.
Proof.
  unfold ClaimDetail.handleMint.
  destruct (ClaimDetail.claimData st) as [cd|] eqn:Hcd;
    [|async_simpl; by rewrite elem_of_nil].
  destruct (Types.verification cd) as [v|] eqn:Hv;
    [|async_simpl; by rewrite elem_of_nil].
  destruct (Types.can_mint cd) eqn:Hcan; [|async_simpl; by rewrite elem_of_nil].
  intros Hin. exists cd, v.
  assert (Heq : ClaimDetail.ApiMintCredits cid amount =
                ClaimDetail.ApiMintCredits (Types.id (Types.claim cd))
                                           (ClaimDetail.mintAmount v)).
  { revert Hin. async_simpl.
    destruct (ClaimDetail.mintCredits env _ _); cbn;
      [destruct (ClaimDetail.getPublicClaim env _); cbn|];
      rewrite ?elem_of_cons, ?elem_of_nil; intros H;
      repeat (destruct H as [H|H]); try discriminate; try contradiction;
      exact H. }
  injection Heq as -> ->. auto.
Qed.

Lemma truthy_number_false (x : Q) : JS.truthy_number x = false -> (x == 0)%Q.
Proof.
  unfold JS.truthy_number. rewrite negb_false_iff. apply Qeq_bool_eq.
Qed.

Lemma truthy_number_true (x : Q) : JS.truthy_number x = true -> ~ (x == 0)%Q.
Proof.
  unfold JS.truthy_number. rewrite negb_true_iff.
  intros H E. apply Qeq_bool_iff in E. congruence.
Qed.

(** C3, as stated, fails: for a mintable claim whose verified range is
    [0, 0] and has no point estimate (so that min ≤ max), the page sends
    a mint request with amount 0. *)
Lemma mint_amount_zero_range :
  ~ (forall (env : ClaimDetail.MintEnv) (st : ClaimDetail.State) (cid : string)
            (amount : JS.Number),
        ClaimDetail.ApiMintCredits cid amount
          ∈ Async.effects (ClaimDetail.handleMint env st st) ->
        forall cd v vi,
          ClaimDetail.claimData st = Some cd ->
          Types.verification cd = Some v ->
          Types.verified_impact v = Some vi ->
          (Types.point_estimate_tonnes_co2e vi = None
           \/ exists p, Types.point_estimate_tonnes_co2e vi = Some p
                        /\ (Types.vi_min_tonnes_co2e vi <= p)%Q
                        /\ (p <= Types.vi_max_tonnes_co2e vi)%Q) ->
          (Types.vi_min_tonnes_co2e vi <= Types.vi_max_tonnes_co2e vi)%Q ->
          JS.number_gt amount 0 /\ JS.number_le amount (Types.vi_max_tonnes_co2e vi)).
Proof.
  intros H.
  assert (Hin : ClaimDetail.ApiMintCredits "c1"
                  (ClaimDetail.mintAmount
                     (Samples.verification_with (Some (Samples.impact 0 0 None))))
                  ∈ Async.effects
                      (ClaimDetail.handleMint Samples.mint_offline
                         (Samples.mintable (Samples.impact 0 0 None))
                         (Samples.mintable (Samples.impact 0 0 None)))).
  { vm_compute. apply list_elem_of_here. }
  destruct (H _ _ _ _ Hin _ _ (Samples.impact 0 0 None) eq_refl eq_refl eq_refl)
    as [Hpos _].
  - left. reflexivity.
  - apply Qle_refl.
  - vm_compute in Hpos. discriminate.
Qed.

(** The midpoint is that of binary64 numbers.  For the doubles 0.1 and
    0.2 it is 0.15000000000000002, not their exact midpoint, which is
    no double.  For the largest double taken twice the
    sum overflows and the amount is [Infinity]; for 0 and the least
    positive double the quotient underflows and the amount is 0; and a
    range that begins below 0 can have a negative midpoint. *)
Lemma midpoint_in_binary64 :
  let amount mn mx :=
    ClaimDetail.mintAmount (Samples.verification_with (Some (Samples.impact mn mx None))) in
  amount Samples.tenth Samples.fifth
    = JS.number_value (1351079888211149 # 9007199254740992)
  /\ (forall a, amount Samples.tenth Samples.fifth = JS.Finite a ->
                ~ (a == (Samples.tenth + Samples.fifth) / 2)%Q)
  /\ JS.is_double ((Samples.tenth + Samples.fifth) / 2) = false
  /\ amount Samples.largest Samples.largest = JS.Infinity false
  /\ ~ JS.number_gt (amount 0%Q Samples.least) 0
  /\ ~ JS.number_gt (amount (-10)%Q 2%Q) 0.
Proof.
  cbn zeta. split; [vm_compute; reflexivity|].
  split; [intros a Ha; vm_compute in Ha; injection Ha as <-;
          intros H; vm_compute in H; discriminate|].
  split; [vm_compute; reflexivity|].
  split; [vm_compute; reflexivity|].
  split; intros H; vm_compute in H; discriminate.
Qed.

(** C3, amended: every mint request of the page carries the point
    estimate of the verified impact when it is present (and not 0),
    otherwise the midpoint of the verified range as binary64 arithmetic
    gives it (0 without a verified impact).  When the verified impact
    has 0 ≤ min ≤ max with 0 < max and its point estimate is absent or
    within [min, max], the amount sent satisfies 0 < amount ≤ max;
    where the midpoint is sent, this is for doubles min and max whose
    sum is finite and is not the least positive double. *)
Theorem mint_amount_within_verified_range
    (env : ClaimDetail.MintEnv) (st : ClaimDetail.State) (cid : string)
    (amount : JS.Number) :
  ClaimDetail.ApiMintCredits cid amount ∈ Async.effects (ClaimDetail.handleMint env st st) ->
  exists cd v,
    ClaimDetail.claimData st = Some cd
    /\ Types.verification cd = Some v
    /\ Types.can_mint cd = true
    /\ amount = ClaimDetail.mintAmount v
    /\ forall vi,
         Types.verified_impact v = Some vi ->
         (Types.point_estimate_tonnes_co2e vi = None
          \/ exists p, Types.point_estimate_tonnes_co2e vi = Some p
                       /\ (Types.vi_min_tonnes_co2e vi <= p)%Q
                       /\ (p <= Types.vi_max_tonnes_co2e vi)%Q) ->
         (0 <= Types.vi_min_tonnes_co2e vi)%Q ->
         (Types.vi_min_tonnes_co2e vi <= Types.vi_max_tonnes_co2e vi)%Q ->
         (0 < Types.vi_max_tonnes_co2e vi)%Q ->
         (JS.truthy_opt_number (Types.point_estimate_tonnes_co2e vi) = false ->
          JS.is_double (Types.vi_min_tonnes_co2e vi) = true
          /\ JS.is_double (Types.vi_max_tonnes_co2e vi) = true
          /\ JS.number_add (Types.vi_min_tonnes_co2e vi) (Types.vi_max_tonnes_co2e vi)
             ≠ JS.Infinity false
          /\ ~ (Types.vi_min_tonnes_co2e vi + Types.vi_max_tonnes_co2e vi
                == 2 ^ (-1074))%Q) ->
         exists a, amount = JS.Finite a /\ (0 < a)%Q /\ (a <= Types.vi_max_tonnes_co2e vi)%Q.
Proof.
  intros Hin.
  destruct (handleMint_effects env st cid amount Hin) as (cd & v & Hcd & Hv & Hcan & _ & Ha).
  exists cd, v. repeat (split; [assumption|]).
  intros vi Hvi Hp Hmin Hle Hmax Hmid. subst amount.
  unfold ClaimDetail.mintAmount. rewrite Hvi.
  assert (Hsent : JS.truthy_opt_number (Types.point_estimate_tonnes_co2e vi) = false ->
                  exists a,
                    JS.number_div
                      (JS.number_add (Types.vi_min_tonnes_co2e vi)
                                     (Types.vi_max_tonnes_co2e vi)) 2
                    = JS.Finite a
                    /\ (0 < a)%Q /\ (a <= Types.vi_max_tonnes_co2e vi)%Q).
  { intros Hfalsy. destruct (Hmid Hfalsy) as (Hd1 & Hd2 & Hfin & Hleast).
    assert (Hsum : (0 < Types.vi_min_tonnes_co2e vi + Types.vi_max_tonnes_co2e vi)%Q) by lra.
    destruct (JS.number_add _ _) as [| negative | s] eqn:Hs.
    - unfold JS.number_add in Hs. rewrite (number_value_pos _ Hsum) in Hs.
      by destruct (Qle_bool _ _).
    - unfold JS.number_add in Hs. rewrite (number_value_pos _ Hsum) in Hs.
      destruct (Qle_bool _ _); [|discriminate]. injection Hs as <-. by destruct Hfin.
    - by apply (midpoint_bounds _ _ s Hmin Hle Hmax Hd1 Hd2 Hleast). }
  destruct Hp as [Hnone | (p & Hsome & Hlo & Hhi)].
  - rewrite Hnone in Hsent |- *. by apply Hsent.
  - rewrite Hsome in Hsent |- *. cbn [JS.truthy_opt_number] in Hsent.
    destruct (JS.truthy_number p) eqn:Htruthy; [|by apply Hsent].
    exists p. split; [reflexivity|]. split; [|assumption].
    apply truthy_number_true in Htruthy.
    destruct (Qlt_le_dec 0 p) as [Hpos|Hneg]; [exact Hpos|].
    exfalso. apply Htruthy. lra.
Qed.

(** An instance of C3: for the verified range from 0.1 to 0.2, given as
    doubles and without a point estimate, the page sends
    0.15000000000000002, which is positive and at most 0.2. *)
Lemma mint_amount_within_verified_range_witness :
  let st := Samples.mintable (Samples.impact Samples.tenth Samples.fifth None) in
  let amount := JS.number_value (1351079888211149 # 9007199254740992) in
  ClaimDetail.ApiMintCredits "c1" amount
    ∈ Async.effects (ClaimDetail.handleMint Samples.mint_offline st st)
  /\ exists a, amount = JS.Finite a /\ (0 < a)%Q /\ (a <= Samples.fifth)%Q.
Proof.
  cbn zeta.
  assert (Hin : ClaimDetail.ApiMintCredits "c1"
                  (JS.number_value (1351079888211149 # 9007199254740992))
                  ∈ Async.effects
                      (ClaimDetail.handleMint Samples.mint_offline
                         (Samples.mintable (Samples.impact Samples.tenth Samples.fifth None))
                         (Samples.mintable (Samples.impact Samples.tenth Samples.fifth None)))).
  { vm_compute. apply list_elem_of_here. }
  split; [exact Hin|].
  destruct (mint_amount_within_verified_range _ _ _ _ Hin)
    as (cd & v & Hcd & Hv & _ & _ & Hbound).
  injection Hcd as <-. injection Hv as <-.
  apply (Hbound (Samples.impact Samples.tenth Samples.fifth None) eq_refl).
  - left. reflexivity.
  - vm_compute. discriminate.
  - vm_compute. discriminate.
  - reflexivity.
  - intros _. split; [reflexivity|]. split; [reflexivity|].
    split; [vm_compute; discriminate|].
    intros H. vm_compute in H. discriminate.
Defined.

(** ** C4: the verdict card never tells the verdicts apart *)

(** C4: for each of the three declared verdicts the card shows the
    label "Uncertain", the colour "warning" and the yellow warning icon,
    and the header badge of the claim page takes its yellow default. *)
Theorem verdict_card_always_uncertain (verdict : Types.AIConsistencyResult) :
  AIVerdictCard.getVerdictLabel verdict = "Uncertain"
  /\ AIVerdictCard.getVerdictColor verdict = "warning"
  /\ AIVerdictCard.getVerdictIcon verdict = AIVerdictCard.AlertTriangle_yellow
  /\ ClaimDetail.verdictBadgeColors verdict = "bg-yellow-100 text-yellow-800".
Proof.
  unfold AIVerdictCard.getVerdictLabel, AIVerdictCard.getVerdictColor,
    AIVerdictCard.getVerdictIcon, ClaimDetail.verdictBadgeColors.
  destruct (Types.verdict verdict); repeat split; reflexivity.
Qed.

(** ** C5: the timeline is a completed prefix followed by at most one active stage *)

(** The statuses of the rendered entries, by claim status. *)
Lemma timeline_statuses (claim : Types.Claim) :
  map ClaimTimeline.status (ClaimTimeline.timelineEvents claim) =
  let c := ClaimTimeline.completed in
  let a := ClaimTimeline.active in
  let p := ClaimTimeline.pending in
  match Types.status claim with
  | Types.submitted => [c; a; p; p]
  | Types.ai_analysis_pending | Types.ai_analysis_in_progress
  | Types.ai_rejected | Types.rejected => [c; p; p; p]
  | Types.verified | Types.ai_verified | Types.ai_analyzed => [c; c; a; p]
  | Types.authority_reviewed => [c; c; c; a]
  | Types.community_reviewed | Types.approved => [c; c; c; c]
  | Types.minted => [c; c; c; c; c]
  end.
Proof.
  unfold ClaimTimeline.timelineEvents.
  destruct (Types.status claim); reflexivity.
Qed.

Lemma timeline_ids (claim : Types.Claim) :
  map ClaimTimeline.id (ClaimTimeline.timelineEvents claim)
    `prefix_of` ClaimTimeline.stage_order.
Proof.
  unfold ClaimTimeline.timelineEvents, ClaimTimeline.stage_order.
  destruct (Types.status claim); cbn;
    (by exists ["minted"]) || (by exists []).
Qed.

(** C5: for every claim the entries come in the stage order (submitted,
    AI analysis, authority review, community review, minted); whenever
    an entry is completed every earlier entry is completed too, so no
    later stage is completed while an earlier one is pending or active;
    and at most one entry is active. *)
Theorem timeline_completed_prefix (claim : Types.Claim) :
  let events := ClaimTimeline.timelineEvents claim in
  map ClaimTimeline.id events `prefix_of` ClaimTimeline.stage_order
  /\ (forall i j ei ej,
        i < j ->
        events !! i = Some ei ->
        events !! j = Some ej ->
        ClaimTimeline.status ej = ClaimTimeline.completed ->
        ClaimTimeline.status ei = ClaimTimeline.completed)
  /\ length (filter (fun e => ClaimTimeline.status e = ClaimTimeline.active) events) <= 1.
Proof.
  cbn zeta. split; [apply timeline_ids|]. split.
  - intros i j ei ej Hij Hi Hj Hc.
    assert (Hsi : map ClaimTimeline.status (ClaimTimeline.timelineEvents claim) !! i
                  = Some (ClaimTimeline.status ei))
      by (rewrite list_lookup_fmap, Hi; reflexivity).
    assert (Hsj : map ClaimTimeline.status (ClaimTimeline.timelineEvents claim) !! j
                  = Some ClaimTimeline.completed)
      by (rewrite list_lookup_fmap, Hj, <- Hc; reflexivity).
    rewrite timeline_statuses in Hsi, Hsj. cbn zeta in Hsi, Hsj.
    destruct (Types.status claim);
      destruct j as [|[|[|[|[|j]]]]]; cbn in Hsj; try discriminate;
      destruct i as [|[|[|[|[|i]]]]]; cbn in Hsi; try lia;
      congruence.
  - assert (Hlen : forall l : list ClaimTimeline.TimelineEvent,
               length (filter (fun e => ClaimTimeline.status e = ClaimTimeline.active) l)
               = length (filter (fun s => s = ClaimTimeline.active)
                                (map ClaimTimeline.status l))).
    { induction l as [|e l IH]; [reflexivity|].
      cbn [map]. rewrite !filter_cons.
      destruct (decide (ClaimTimeline.status e = ClaimTimeline.active));
        cbn [length]; rewrite IH; reflexivity. }
    rewrite Hlen, timeline_statuses. cbn zeta.
    destruct (Types.status claim); vm_compute; lia.
Qed.

(** An instance of C5: a claim under community review. *)
Lemma timeline_completed_prefix_witness :
  let events := ClaimTimeline.timelineEvents (Samples.claim_with "c1" Types.authority_reviewed) in
  map ClaimTimeline.status events
    = [ClaimTimeline.completed; ClaimTimeline.completed; ClaimTimeline.completed;
       ClaimTimeline.active]
  /\ length (filter (fun e => ClaimTimeline.status e = ClaimTimeline.active) events) <= 1.
Proof.
  cbn zeta. split; [reflexivity|].
  apply (timeline_completed_prefix (Samples.claim_with "c1" Types.authority_reviewed)).
Defined.

(** ** C2: what the review dashboards offer *)

Lemma reviewable_spec (role : Types.ReviewRole) (c : Types.Claim) :
  ReviewPages.reviewable role c = true <-> Types.status c ∈ stage_precondition role.
Proof.
  unfold ReviewPages.reviewable, stage_precondition.
  destruct role; rewrite ?orb_true_iff, !bool_decide_eq_true, !elem_of_cons, elem_of_nil;
    tauto.
Qed.

(** The state [fetchClaims] leaves. *)
Lemma fetchClaims_final (role : Types.ReviewRole) (env : ReviewPages.Env)
    (st : ReviewPages.State) :
  ReviewPages.fetchClaims role env st =
  match ReviewPages.getClaims env with
  | Resolved allClaims =>
      let pendingClaims := filter (fun c => ReviewPages.reviewable role c = true) allClaims in
      (ReviewPages.ApiGetClaims
         :: match role with
            | Types.authority =>
                [ReviewPages.ConsoleLogFound (length pendingClaims) (length allClaims)]
            | Types.community => []
            end,
       ReviewPages.setLoading false (ReviewPages.setClaims pendingClaims st),
       Resolved tt)
  | Rejected e =>
      ([ReviewPages.ApiGetClaims; ReviewPages.ConsoleError "Error fetching claims:" e],
       ReviewPages.setLoading false st, Resolved tt)
  end.
Proof.
  unfold ReviewPages.fetchClaims. async_unfold.
  destruct (ReviewPages.getClaims env); destruct role; reflexivity.
Qed.

Lemma offers_only_stage_claims_filter role st (allClaims : list Types.Claim) st' :
  ReviewPages.claims st' = filter (fun c => ReviewPages.reviewable role c = true) allClaims ->
  (ReviewPages.selectedClaim st' = None
   \/ ReviewPages.selectedClaim st' = ReviewPages.selectedClaim st) ->
  offers_only_stage role st -> offers_only_stage role st'.
Proof.
  intros Hc Hs Hinv c [Hin | Hsel].
  - rewrite Hc in Hin. apply list_elem_of_filter in Hin as [Hr _].
    by apply reviewable_spec.
  - destruct Hs as [Hs | Hs]; [congruence|].
    apply Hinv. right. congruence.
Qed.

Lemma offers_only_stage_same role st st' :
  ReviewPages.claims st' = ReviewPages.claims st ->
  (ReviewPages.selectedClaim st' = None
   \/ ReviewPages.selectedClaim st' = ReviewPages.selectedClaim st
   \/ exists c, c ∈ ReviewPages.claims st /\ ReviewPages.selectedClaim st' = Some c) ->
  offers_only_stage role st -> offers_only_stage role st'.
Proof.
  intros Hc Hs Hinv c [Hin | Hsel].
  - apply Hinv. left. congruence.
  - destruct Hs as [Hs | [Hs | (c' & Hc' & Hs)]]; [congruence| |].
    + apply Hinv. right. congruence.
    + apply Hinv. left. congruence.
Qed.

Lemma step_offers_only_stage role st ev :
  offers_only_stage role st -> offers_only_stage role (ReviewPages.step role st ev).
Proof.
  intros Hinv. unfold ReviewPages.step, ReviewPages.handler.
  destruct ev as [env | row env | d env | v | v | q | i v | i v | | ].
  - (* Mount *)
    rewrite fetchClaims_final.
    destruct (ReviewPages.getClaims env) as [allClaims|e]; cbn zeta.
    + eapply offers_only_stage_claims_filter; [| |exact Hinv]; [reflexivity|by right].
    + eapply offers_only_stage_same; [| |exact Hinv]; [reflexivity|by right; left].
  - (* ClickClaim *)
    destruct (ReviewPages.claims st !! row) as [c|] eqn:Hrow; [|exact Hinv].
    eapply offers_only_stage_same; [| |exact Hinv].
    + unfold ReviewPages.handleClaimSelect. async_unfold.
      destruct role; destruct (ReviewPages.getPublicClaim env (Types.id c)); reflexivity.
    + right; right. exists c. split; [by eapply list_elem_of_lookup_2|].
      unfold ReviewPages.handleClaimSelect. async_unfold.
      destruct role; destruct (ReviewPages.getPublicClaim env (Types.id c)); reflexivity.
  - (* ClickDecision *)
    destruct (bool_decide (is_Some (ReviewPages.selectedClaim st))
              && negb (ReviewPages.buttons_disabled st)); [|exact Hinv].
    unfold ReviewPages.handleReview.
    destruct (ReviewPages.selectedClaim st) as [sel|] eqn:Hsel; [|exact Hinv].
    destruct (ReviewPages.notes_blank (ReviewPages.reviewData st)); [exact Hinv|].
    unfold mbind, M_bind, Async.try_finally, Async.try_catch.
    unfold Async.bind at 1. unfold Async.bind at 1.
    unfold Async.set at 1. unfold Async.await at 1.
    destruct (ReviewPages.submitReview env _) as [rr|e].
    + unfold Async.bind at 1. rewrite fetchClaims_final.
      destruct (ReviewPages.getClaims env) as [allClaims|e]; cbn zeta.
      * eapply offers_only_stage_claims_filter; [| |exact Hinv];
          [destruct role; reflexivity | left; destruct role; reflexivity].
      * eapply offers_only_stage_same; [| |exact Hinv];
          [destruct role; reflexivity | left; destruct role; reflexivity].
    + eapply offers_only_stage_same; [| |exact Hinv]; [reflexivity|].
      right; left. reflexivity.
  - destruct (bool_decide _); exact Hinv.
  - destruct (bool_decide _); exact Hinv.
  - destruct role; [exact Hinv|].
    destruct (ReviewPages.selectedClaim st) eqn:Hsel; [|exact Hinv].
    eapply offers_only_stage_same; [| |exact Hinv]; [reflexivity|by right; left].
  - destruct (ReviewPages.selectedClaim st) eqn:Hsel; [|exact Hinv].
    destruct (ReviewPages.positiveInputs st !! i) as [[p onChange]|] eqn:Hi;
      [|exact Hinv].
    unfold ReviewPages.positiveInputs in Hi.
    apply list_lookup_imap_Some in Hi as (x & _ & [= _ ->]).
    eapply offers_only_stage_same; [| |exact Hinv]; [reflexivity|by right; left].
  - destruct (ReviewPages.selectedClaim st) eqn:Hsel; [|exact Hinv].
    destruct (ReviewPages.concernInputs st !! i) as [[p onChange]|] eqn:Hi;
      [|exact Hinv].
    unfold ReviewPages.concernInputs in Hi.
    apply list_lookup_imap_Some in Hi as (x & _ & [= _ ->]).
    eapply offers_only_stage_same; [| |exact Hinv]; [reflexivity|by right; left].
  - destruct (bool_decide _); exact Hinv.
  - destruct (bool_decide _); exact Hinv.
Qed.

Lemma run_offers_only_stage role evs st :
  offers_only_stage role st -> offers_only_stage role (foldl (ReviewPages.step role) st evs).
Proof.
  revert st. induction evs as [|ev evs IH]; intros st Hinv; [exact Hinv|].
  cbn. apply IH. by apply step_offers_only_stage.
Qed.

(** Splits a membership in an explicit list into its cases. *)
Ltac elem_cases :=
  repeat match goal with
         | H : _ ∈ [] |- _ => by apply elem_of_nil in H
         | H : _ ∈ _ :: _ |- _ => apply elem_of_cons in H as [H|H]
         | H : _ ∈ _ ++ _ |- _ => apply elem_of_app in H as [H|H]
         end.

(** [handleReview] sends its request only past both guards: a claim is
    selected and the notes are not blank. *)
Lemma handleReview_request role env st d r sub :
  ReviewPages.ApiSubmitReview r sub
    ∈ Async.effects (ReviewPages.handleReview role env st d st) ->
  exists selected,
    ReviewPages.selectedClaim st = Some selected
    /\ ReviewPages.notes_blank (ReviewPages.reviewData st) = false
    /\ r = role
    /\ sub = ReviewPages.with_decision d
               (ReviewPages.with_claim_id (Types.id selected) (ReviewPages.reviewData st)).
Proof.
  unfold ReviewPages.handleReview.
  destruct (ReviewPages.selectedClaim st) as [sel|] eqn:Hsel;
    [|async_simpl; intros H; elem_cases].
  destruct (ReviewPages.notes_blank (ReviewPages.reviewData st)) eqn:Hnotes;
    [async_simpl; intros H; elem_cases|].
  intros H. exists sel.
  assert (Heq : ReviewPages.ApiSubmitReview r sub =
                ReviewPages.ApiSubmitReview role
                  (ReviewPages.with_decision d
                     (ReviewPages.with_claim_id (Types.id sel) (ReviewPages.reviewData st)))).
  { revert H.
    unfold mbind, M_bind, Async.try_finally, Async.try_catch.
    unfold Async.bind at 1. unfold Async.bind at 1.
    unfold Async.set at 1. unfold Async.await at 1.
    destruct (ReviewPages.submitReview env _) as [rr|e].
    - unfold Async.bind at 1. rewrite fetchClaims_final.
      destruct (ReviewPages.getClaims env); destruct role; cbn;
        intros H; elem_cases; try discriminate; exact H.
    - async_simpl. intros H; elem_cases; try discriminate; exact H. }
  injection Heq as -> ->.
  repeat split; reflexivity.
Qed.

(** Past both guards the request is sent, first of all effects. *)
Lemma handleReview_sends role env st d selected :
  ReviewPages.selectedClaim st = Some selected ->
  ReviewPages.notes_blank (ReviewPages.reviewData st) = false ->
  exists rest,
    Async.effects (ReviewPages.handleReview role env st d st) =
    ReviewPages.ApiSubmitReview role
      (ReviewPages.with_decision d
         (ReviewPages.with_claim_id (Types.id selected) (ReviewPages.reviewData st)))
      :: rest.
Proof.
  intros Hsel Hnotes. unfold ReviewPages.handleReview. rewrite Hsel, Hnotes.
  unfold mbind, M_bind, Async.try_finally, Async.try_catch.
  unfold Async.bind at 1. unfold Async.bind at 1.
  unfold Async.set at 1. unfold Async.await at 1.
  destruct (ReviewPages.submitReview env _) as [rr|e].
  - unfold Async.bind at 1. rewrite fetchClaims_final.
    destruct (ReviewPages.getClaims env); destruct role; cbn; eauto.
  - async_simpl. eauto.
Qed.

(** A review request comes from a click on a decision button, for the
    selected claim, with notes that are not blank; it carries the review
    form of that render with the claim and the decision filled in. *)
Lemma review_request_origin role st ev r sub :
  ReviewPages.ApiSubmitReview r sub
    ∈ Async.effects (ReviewPages.handler role st ev st) ->
  exists d env selected,
    ev = ReviewPages.ClickDecision d env
    /\ ReviewPages.selectedClaim st = Some selected
    /\ ReviewPages.buttons_disabled st = false
    /\ r = role
    /\ sub = ReviewPages.with_decision d
               (ReviewPages.with_claim_id (Types.id selected) (ReviewPages.reviewData st)).
Proof.
  unfold ReviewPages.handler.
  destruct ev as [env | row env | d env | v | v | q | i v | i v | | ].
  - rewrite fetchClaims_final.
    destruct (ReviewPages.getClaims env); destruct role; cbn; intros H;
      elem_cases; discriminate.
  - destruct (ReviewPages.claims st !! row) as [c|];
      [|async_simpl; intros H; elem_cases].
    unfold ReviewPages.handleClaimSelect. async_unfold.
    destruct role; destruct (ReviewPages.getPublicClaim env (Types.id c)); cbn;
      intros H; elem_cases; discriminate.
  - destruct (ReviewPages.buttons_disabled st) eqn:Hdis;
      [rewrite andb_false_r; async_simpl; intros H; elem_cases|].
    destruct (ReviewPages.selectedClaim st) as [sel|] eqn:Hsel;
      [|async_simpl; intros H; elem_cases].
    rewrite bool_decide_eq_true_2 by eauto. cbn [andb negb].
    intros H. apply handleReview_request in H as (sel' & Hsel' & _ & -> & ->).
    exists d, env, sel'. rewrite Hsel' in Hsel. injection Hsel as <-.
    repeat split; reflexivity.
  - destruct (bool_decide _); async_simpl; intros H; elem_cases.
  - destruct (bool_decide _); async_simpl; intros H; elem_cases.
  - destruct role, (ReviewPages.selectedClaim st); async_simpl; intros H; elem_cases.
  - destruct (ReviewPages.selectedClaim st);
      [|async_simpl; intros H; elem_cases].
    destruct (ReviewPages.positiveInputs st !! i) as [[p onChange]|] eqn:Hi;
      [|async_simpl; intros H; elem_cases].
    unfold ReviewPages.positiveInputs in Hi.
    apply list_lookup_imap_Some in Hi as (x & _ & [= _ ->]).
    async_simpl; intros H; elem_cases.
  - destruct (ReviewPages.selectedClaim st);
      [|async_simpl; intros H; elem_cases].
    destruct (ReviewPages.concernInputs st !! i) as [[p onChange]|] eqn:Hi;
      [|async_simpl; intros H; elem_cases].
    unfold ReviewPages.concernInputs in Hi.
    apply list_lookup_imap_Some in Hi as (x & _ & [= _ ->]).
    async_simpl; intros H; elem_cases.
  - destruct (bool_decide _); async_simpl; intros H; elem_cases.
  - destruct (bool_decide _); async_simpl; intros H; elem_cases.
Qed.

(** C2: after a successful fetch the list of a dashboard holds exactly
    the fetched claims whose status meets the precondition of its stage
    (authority: [ai_verified], [ai_analyzed], [verified]; community:
    [authority_reviewed]); whatever happens on the page, every claim it
    offers (as a row or in the review panel) has such a status, every
    review request is for such a claim, and a claim with status
    [ai_rejected] is never offered for authority review. *)
Theorem dashboards_offer_stage_claims (role : Types.ReviewRole) :
  (forall env st allClaims,
      ReviewPages.getClaims env = Resolved allClaims ->
      forall c,
        c ∈ ReviewPages.claims (Async.final (ReviewPages.fetchClaims role env st))
        <-> c ∈ allClaims /\ Types.status c ∈ stage_precondition role)
  /\ (forall evs c,
        offered (ReviewPages.run role evs) c ->
        Types.status c ∈ stage_precondition role)
  /\ (forall evs ev r sub,
        ReviewPages.ApiSubmitReview r sub
          ∈ Async.effects (ReviewPages.handler role (ReviewPages.run role evs) ev
                             (ReviewPages.run role evs)) ->
        exists c, ReviewPages.selectedClaim (ReviewPages.run role evs) = Some c
                  /\ Types.claim_id sub = Types.id c
                  /\ Types.status c ∈ stage_precondition role)
  /\ (forall evs c,
        Types.status c = Types.ai_rejected ->
        ~ offered (ReviewPages.run Types.authority evs) c).
Proof.
  assert (Hrun : forall r evs c,
             offered (ReviewPages.run r evs) c -> Types.status c ∈ stage_precondition r).
  { intros r evs. apply run_offers_only_stage.
    intros c [Hin | Hsel]; [by apply elem_of_nil in Hin | discriminate]. }
  split; [|split; [|split]].
  - intros env st allClaims Hall c.
    rewrite fetchClaims_final, Hall. unfold Async.final. cbn.
    rewrite list_elem_of_filter, reviewable_spec. tauto.
  - apply Hrun.
  - intros evs ev r sub Hin.
    apply review_request_origin in Hin as (d & env & sel & _ & Hsel & _ & _ & ->).
    exists sel. split; [exact Hsel|]. split; [reflexivity|].
    apply (Hrun role evs). by right.
  - intros evs c Hrej Hoff. apply Hrun in Hoff.
    rewrite Hrej in Hoff. unfold stage_precondition in Hoff.
    elem_cases; discriminate.
Qed.

(** An instance of C2: of three fetched claims the authority dashboard
    lists the verified one only. *)
Lemma dashboards_offer_stage_claims_witness :
  let env := ReviewPages.mkEnv
               (Resolved [Samples.claim_with "a" Types.ai_rejected;
                          Samples.claim_with "b" Types.ai_verified;
                          Samples.claim_with "c" Types.submitted])
               (fun _ => Rejected Samples.network_error)
               (fun _ => Rejected Samples.network_error) in
  ReviewPages.claims (ReviewPages.run Types.authority [ReviewPages.Mount env])
    = [Samples.claim_with "b" Types.ai_verified]
  /\ ~ offered (ReviewPages.run Types.authority [ReviewPages.Mount env])
               (Samples.claim_with "a" Types.ai_rejected).
Proof.
  cbn zeta. split; [reflexivity|].
  apply (dashboards_offer_stage_claims Types.authority). reflexivity.
Defined.

(** ** C6: no review is sent with blank notes *)

Lemma notes_blank_false (r : Types.ReviewSubmission) :
  ReviewPages.notes_blank r = false <->
  exists n, Types.notes r = Some n /\ JS.trim n ≠ "".
Proof.
  unfold ReviewPages.notes_blank. rewrite negb_false_iff.
  destruct (Types.notes r) as [n|]; cbn.
  - split.
    + intros H. exists n. split; [reflexivity|].
      intros E. rewrite E in H. discriminate.
    + intros (n' & [= <-] & Hne). destruct (JS.trim n); [congruence | reflexivity].
  - split; [discriminate | intros (n & [=] & _)].
Qed.

(** C6: for either role and either decision, a review request is sent
    only when the notes of the form are present and not blank after
    trimming, and it carries those notes and that decision; with blank
    notes the handler returns at once, and the approve and reject
    buttons are disabled. *)
Theorem no_review_with_blank_notes
    (role : Types.ReviewRole) (env : ReviewPages.Env) (st : ReviewPages.State)
    (d : Types.ReviewDecision) :
  (forall r sub,
      ReviewPages.ApiSubmitReview r sub
        ∈ Async.effects (ReviewPages.handleReview role env st d st) ->
      exists n,
        Types.notes (ReviewPages.reviewData st) = Some n
        /\ JS.trim n ≠ ""
        /\ Types.notes sub = Some n
        /\ Types.decision sub = d)
  /\ (ReviewPages.notes_blank (ReviewPages.reviewData st) = true ->
      ReviewPages.handleReview role env st d st = ([], st, Resolved tt)
      /\ ReviewPages.buttons_disabled st = true)
  /\ (forall selected,
        ReviewPages.selectedClaim st = Some selected ->
        ReviewPages.notes_blank (ReviewPages.reviewData st) = false ->
        exists sub,
          ReviewPages.ApiSubmitReview role sub
            ∈ Async.effects (ReviewPages.handleReview role env st d st)).
Proof.
  split; [|split].
  - intros r sub H.
    apply handleReview_request in H as (sel & _ & Hnotes & _ & ->).
    apply notes_blank_false in Hnotes as (n & Hn & Htrim).
    exists n. repeat split; assumption || reflexivity.
  - intros Hblank. split.
    + unfold ReviewPages.handleReview. rewrite Hblank.
      destruct (ReviewPages.selectedClaim st); reflexivity.
    + unfold ReviewPages.buttons_disabled. by rewrite Hblank.
  - intros sel Hsel Hnotes.
    destruct (handleReview_sends role env st d sel Hsel Hnotes) as (rest & Heff).
    eexists. rewrite Heff. apply list_elem_of_here.
Qed.

(** ** C9: the positives and concerns editors *)

(** The values shown by the inputs that [imap] renders are the entries
    of the list. *)
Lemma inputs_show_entries {A B} (f : nat -> A -> B) (l : list A) :
  map fst (imap (fun index x => (x, f index x)) l) = l.
Proof.
  revert f. induction l as [|x l IH]; intros f; [reflexivity|].
  cbn. f_equal. apply (IH (fun index => f (S index))).
Qed.

(** C9: "Add Positive Point" and "Add Concern" append one empty entry
    and leave the entries before it, and the other list, as they were;
    every entry of either list is rendered as one input, in order,
    showing that entry; typing into the input at position [i] replaces
    the entry at [i] and no other, and leaves the length and the other
    list as they were; and a review request carries both lists as they
    stand, so equal entries are sent as often as they occur. *)
Theorem review_lists_are_append_only
    (role : Types.ReviewRole) (st : ReviewPages.State) :
  let ps := default [] (Types.positives (ReviewPages.reviewData st)) in
  let cs := default [] (Types.concerns (ReviewPages.reviewData st)) in
  let after (m : M ReviewPages.State ReviewPages.Effect unit) :=
    ReviewPages.reviewData (Async.final (m st)) in
  (Types.positives (after ReviewPages.addPositive) = Some (ps ++ [""])
   /\ Types.concerns (after ReviewPages.addPositive)
      = Types.concerns (ReviewPages.reviewData st))
  /\ (Types.concerns (after ReviewPages.addConcern) = Some (cs ++ [""])
      /\ Types.positives (after ReviewPages.addConcern)
         = Types.positives (ReviewPages.reviewData st))
  /\ (map fst (ReviewPages.positiveInputs st) = ps
      /\ map fst (ReviewPages.concernInputs st) = cs)
  /\ (forall i p,
        ps !! i = Some p ->
        exists onChange, ReviewPages.positiveInputs st !! i = Some (p, onChange))
  /\ (forall i c,
        cs !! i = Some c ->
        exists onChange, ReviewPages.concernInputs st !! i = Some (c, onChange))
  /\ (forall i p onChange v,
        ReviewPages.positiveInputs st !! i = Some (p, onChange) ->
        ps !! i = Some p
        /\ exists ps',
             Types.positives (after (onChange v)) = Some ps'
             /\ length ps' = length ps
             /\ ps' !! i = Some v
             /\ (forall j, j ≠ i -> ps' !! j = ps !! j)
             /\ Types.concerns (after (onChange v))
                = Types.concerns (ReviewPages.reviewData st))
  /\ (forall i c onChange v,
        ReviewPages.concernInputs st !! i = Some (c, onChange) ->
        cs !! i = Some c
        /\ exists cs',
             Types.concerns (after (onChange v)) = Some cs'
             /\ length cs' = length cs
             /\ cs' !! i = Some v
             /\ (forall j, j ≠ i -> cs' !! j = cs !! j)
             /\ Types.positives (after (onChange v))
                = Types.positives (ReviewPages.reviewData st))
  /\ (forall env d r sub,
        ReviewPages.ApiSubmitReview r sub
          ∈ Async.effects (ReviewPages.handleReview role env st d st) ->
        Types.positives sub = Types.positives (ReviewPages.reviewData st)
        /\ Types.concerns sub = Types.concerns (ReviewPages.reviewData st)).
Proof.
  cbn zeta. split; [|split; [|split; [|split; [|split; [|split; [|split]]]]]].
  - split; reflexivity.
  - split; reflexivity.
  - split; apply inputs_show_entries.
  - intros i p Hi. eexists.
    unfold ReviewPages.positiveInputs. rewrite list_lookup_imap, Hi. reflexivity.
  - intros i c Hi. eexists.
    unfold ReviewPages.concernInputs. rewrite list_lookup_imap, Hi. reflexivity.
  - intros i p onChange v Hi.
    unfold ReviewPages.positiveInputs in Hi.
    apply list_lookup_imap_Some in Hi as (x & Hx & [= -> ->]).
    split; [exact Hx|].
    eexists. split; [reflexivity|].
    split; [apply length_insert|].
    split; [apply list_lookup_insert_eq; by eapply lookup_lt_Some|].
    split; [|reflexivity].
    intros j Hj. by apply list_lookup_insert_ne.
  - intros i c onChange v Hi.
    unfold ReviewPages.concernInputs in Hi.
    apply list_lookup_imap_Some in Hi as (x & Hx & [= -> ->]).
    split; [exact Hx|].
    eexists. split; [reflexivity|].
    split; [apply length_insert|].
    split; [apply list_lookup_insert_eq; by eapply lookup_lt_Some|].
    split; [|reflexivity].
    intros j Hj. by apply list_lookup_insert_ne.
  - intros env d r sub H.
    apply handleReview_request in H as (sel & _ & _ & _ & ->).
    split; reflexivity.
Qed.

(** An instance of C9: a review whose positives hold the same text twice
    is sent with both copies; its second positive has an input showing
    it, and typing into that input changes the second entry only. *)
Lemma review_lists_are_append_only_witness :
  (ReviewPages.ApiSubmitReview Types.authority Samples.duplicate_form
     ∈ Async.effects (ReviewPages.handleReview Types.authority Samples.offline
                        Samples.review_state Types.approve Samples.review_state)
   /\ Types.positives Samples.duplicate_form = Some ["clear imagery"; "clear imagery"])
  /\ exists onChange,
       ReviewPages.positiveInputs Samples.review_state !! 1
       = Some ("clear imagery", onChange)
       /\ Types.positives
            (ReviewPages.reviewData
               (Async.final (onChange "recent imagery" Samples.review_state)))
          = Some ["clear imagery"; "recent imagery"].
Proof.
  pose proof (review_lists_are_append_only Types.authority Samples.review_state) as H.
  cbn zeta in H. destruct H as (_ & _ & _ & Hinput & _ & Hedit & _ & Hsent).
  split.
  - assert (Hin : ReviewPages.ApiSubmitReview Types.authority Samples.duplicate_form
                    ∈ Async.effects
                        (ReviewPages.handleReview Types.authority Samples.offline
                           Samples.review_state Types.approve Samples.review_state)).
    { vm_compute. apply list_elem_of_here. }
    split; [exact Hin|].
    exact (proj1 (Hsent _ _ _ _ Hin)).
  - destruct (Hinput 1 "clear imagery" eq_refl) as (onChange & Hi).
    exists onChange. split; [exact Hi|].
    destruct (Hedit 1 _ onChange "recent imagery" Hi)
      as (_ & ps' & Hps' & Hlen & H1 & Hrest & _).
    rewrite Hps'. f_equal.
    destruct ps' as [|a [|b [|c ps']]]; try discriminate Hlen.
    cbn in H1. injection H1 as ->.
    specialize (Hrest 0 ltac:(lia)). cbn in Hrest. injection Hrest as ->.
    reflexivity.
Defined.

(** An instance of C6: whitespace-only notes send nothing. *)
Lemma no_review_with_blank_notes_witness :
  let form := Types.mkReviewSubmission "b" "Community Member" Types.approve
                (Some (8 # 10)%Q) (Some [""]) (Some [""]) (Some "   ") in
  let st := ReviewPages.mkState [Samples.claim_with "b" Types.authority_reviewed]
              (Some (Samples.claim_with "b" Types.authority_reviewed)) None form
              false false false in
  let env := ReviewPages.mkEnv (Resolved []) (fun _ => Rejected Samples.network_error)
               (fun _ => Rejected Samples.network_error) in
  ReviewPages.handleReview Types.community env st Types.reject st = ([], st, Resolved tt)
  /\ ReviewPages.buttons_disabled st = true.
Proof.
  cbn zeta.
  apply (no_review_with_blank_notes Types.community). reflexivity.
Defined.

(** An instance of C1: the range [5, 5] is refused and nothing is sent. *)
Lemma validateStep_carbon_range_witness :
  let st := Samples.wizard 5 5 "2024-01-01" [] in
  Async.effects (SubmitClaim.handleSubmit Samples.upload_fails st st) = []
  /\ is_Some (SubmitClaim.errors
                (Async.final (SubmitClaim.handleSubmit Samples.upload_fails st st))
                !! "carbon_impact").
Proof.
  cbn zeta.
  apply (validateStep_carbon_range Samples.upload_fails (Samples.wizard 5 5 "2024-01-01" [])).
  cbn. intros [_ H]. vm_compute in H. discriminate.
Defined.

(** ** C10: the uploader holds at most [maxFiles] files *)

Lemma slice0_nonneg {A} (l : list A) (k : nat) :
  EvidenceUploader.slice0 l (Z.of_nat k) = take k l.
Proof.
  unfold EvidenceUploader.slice0.
  destruct (Z.ltb_spec (Z.of_nat k) 0) as [Hneg|_]; [lia|].
  destruct (decide (k <= length l)).
  - f_equal. lia.
  - replace (Z.to_nat (Z.of_nat k `min` Z.of_nat (length l))) with (length l) by lia.
    rewrite firstn_all. symmetry. apply take_ge. lia.
Qed.

Lemma bind_run {S E A B : Type} (m : M S E A) (k : A -> M S E B) (s : S) :
  (m ≫= k) s =
  match m s with
  | (l1, s1, Resolved a) => match k a s1 with (l2, s2, r) => (l1 ++ l2, s2, r) end
  | (l1, s1, Rejected e) => (l1, s1, Rejected e)
  end.
Proof. reflexivity. Qed.

Lemma emit_all {S E : Type} (l : list E) (s : S) :
  foldr (fun e k => Async.emit e;; k) (mret tt) l s = (l, s, Resolved tt).
Proof.
  induction l as [|e l IH]; [reflexivity|].
  cbn [foldr]. async_unfold. rewrite IH. reflexivity.
Qed.

Lemma fits_in_remaining (a b m : nat) : a <= m -> b <= m - a -> a + b <= m.
Proof. lia. Qed.

Section UploaderFacts.
Variable maxFiles : nat.
Variable readAsDataURL : Types.File -> option string.

Local Abbreviation handler := (EvidenceUploader.handler maxFiles readAsDataURL).
Local Abbreviation step := (EvidenceUploader.step maxFiles readAsDataURL).
Local Abbreviation run := (EvidenceUploader.run maxFiles readAsDataURL).
Local Abbreviation filesToAdd := (EvidenceUploader.filesToAdd maxFiles).
Local Abbreviation evidenceFile := (EvidenceUploader.evidenceFile readAsDataURL).
Local Abbreviation uploader_invariant_at := (uploader_invariant_at maxFiles).

Lemma storeFiles_result (st : EvidenceUploader.State)
    (evidenceFiles : list EvidenceUploader.EvidenceFile) (current : EvidenceUploader.State) :
  EvidenceUploader.storeFiles st evidenceFiles current =
  (EvidenceUploader.OnFilesChange
     (map EvidenceUploader.file (EvidenceUploader.files st ++ evidenceFiles))
     :: imap (fun index evidenceFile =>
                EvidenceUploader.SetTimeout (EvidenceUploader.id evidenceFile)
                                            ((index + 1) * 500))
             evidenceFiles,
   EvidenceUploader.mkState (EvidenceUploader.files st ++ evidenceFiles)
                            (EvidenceUploader.dragActive current),
   Resolved tt).
Proof.
  unfold EvidenceUploader.storeFiles.
  rewrite bind_run. cbn [Async.set]. rewrite bind_run. cbn [Async.emit].
  rewrite emit_all. reflexivity.
Qed.

Lemma filesToAdd_take (st : EvidenceUploader.State) (newFiles : list Types.File) :
  length (EvidenceUploader.files st) <= maxFiles ->
  filesToAdd st newFiles = take (maxFiles - length (EvidenceUploader.files st)) newFiles.
Proof.
  intros Hlen. unfold EvidenceUploader.filesToAdd.
  replace (Z.of_nat maxFiles - Z.of_nat (length (EvidenceUploader.files st)))%Z
    with (Z.of_nat (maxFiles - length (EvidenceUploader.files st))) by lia.
  apply slice0_nonneg.
Qed.

(** What [Promise.all] delivers for a batch: one entry for each file,
    in order. *)
Lemma all_evidenceFiles random (batch : list Types.File)
    (evidenceFiles : list EvidenceUploader.EvidenceFile) :
  EvidenceUploader.all (imap (evidenceFile random) batch)
  = EvidenceUploader.Fulfilled evidenceFiles ->
  map EvidenceUploader.file evidenceFiles = batch
  /\ Forall classified evidenceFiles
  /\ Forall (fun f => EvidenceUploader.uploaded f = false) evidenceFiles
  /\ forall k f, evidenceFiles !! k = Some f -> EvidenceUploader.id f = random k.
Proof.
  revert random evidenceFiles.
  induction batch as [|f batch IH]; intros random evidenceFiles.
  - cbn. intros [= <-]. repeat split; try constructor. intros k f Hk. by destruct k.
  - cbn [imap EvidenceUploader.all].
    unfold EvidenceUploader.evidenceFile at 1, EvidenceUploader.createPreview.
    destruct (JS.startsWith "image/" (Types.file_type f)) eqn:Himg.
    + destruct (readAsDataURL f) as [url|]; [|discriminate].
      destruct (EvidenceUploader.all _) as [values|] eqn:Hall; [|discriminate].
      intros [= <-].
      destruct (IH (fun k => random (S k)) values Hall) as (Hfiles & Hcl & Hup & Hid).
      cbn. rewrite Hfiles. repeat split; try (constructor; auto).
      * split; cbn.
        -- unfold EvidenceUploader.getFileType. by rewrite Himg.
        -- unfold EvidenceUploader.getFileType. rewrite Himg. split; eauto.
      * intros [|k] g Hk; [by injection Hk as <-|]. by apply (Hid k).
    + destruct (EvidenceUploader.all _) as [values|] eqn:Hall; [|discriminate].
      intros [= <-].
      destruct (IH (fun k => random (S k)) values Hall) as (Hfiles & Hcl & Hup & Hid).
      cbn. rewrite Hfiles. repeat split; try (constructor; auto).
      * split; cbn; [reflexivity|].
        unfold EvidenceUploader.getFileType. rewrite Himg.
        split; [intros [? ?]; discriminate|].
        destruct (JS.startsWith "video/" _); discriminate.
      * intros [|k] g Hk; [by injection Hk as <-|]. by apply (Hid k).
Qed.


Lemma markUploaded_ids i (l : list EvidenceUploader.EvidenceFile) :
  map EvidenceUploader.id
      (map (fun f => if decide (EvidenceUploader.id f = i)
                     then EvidenceUploader.mkEvidenceFile (EvidenceUploader.id f)
                            (EvidenceUploader.file f) (EvidenceUploader.preview f)
                            (EvidenceUploader.type f) true
                     else f) l)
  = map EvidenceUploader.id l.
Proof.
  induction l as [|f l IH]; [reflexivity|].
  cbn. rewrite IH. destruct (decide _); reflexivity.
Qed.




(** The list that an event leaves in the cells. *)
Lemma step_files (u : EvidenceUploader.Uploader) (ev : EvidenceUploader.Event) :
  EvidenceUploader.files (step u ev) =
  match ev with
  | EvidenceUploader.HandleFiles random newFiles =>
      EvidenceUploader.files u ++ storedBy maxFiles readAsDataURL u ev
  | EvidenceUploader.PreviewsLoaded k =>
      match EvidenceUploader.inFlight u !! k with
      | Some call =>
          EvidenceUploader.files (EvidenceUploader.render call)
          ++ EvidenceUploader.awaited call
      | None => EvidenceUploader.files u
      end
  | EvidenceUploader.RemoveFile i =>
      filter (fun f => EvidenceUploader.id f ≠ i) (EvidenceUploader.files u)
  | EvidenceUploader.UploadTimer i =>
      map (fun f => if decide (EvidenceUploader.id f = i)
                    then EvidenceUploader.mkEvidenceFile (EvidenceUploader.id f)
                           (EvidenceUploader.file f) (EvidenceUploader.preview f)
                           (EvidenceUploader.type f) true
                    else f) (EvidenceUploader.files u)
  end.
Proof.
  unfold EvidenceUploader.step. cbn [EvidenceUploader.cells].
  destruct ev as [random newFiles|k|i|i]; cbn [EvidenceUploader.handler storedBy].
  - destruct (EvidenceUploader.reads _); [cbn; by rewrite app_nil_r|].
    destruct (EvidenceUploader.all _); [|cbn; by rewrite app_nil_r].
    rewrite storeFiles_result. reflexivity.
  - destruct (EvidenceUploader.inFlight u !! k) as [call|]; [|reflexivity].
    rewrite storeFiles_result. reflexivity.
  - reflexivity.
  - reflexivity.
Qed.


Lemma classified_markUploaded i (f : EvidenceUploader.EvidenceFile) :
  classified f ->
  classified (if decide (EvidenceUploader.id f = i)
              then EvidenceUploader.mkEvidenceFile (EvidenceUploader.id f)
                     (EvidenceUploader.file f) (EvidenceUploader.preview f)
                     (EvidenceUploader.type f) true
              else f).
Proof. intros H. by destruct (decide _). Qed.

Lemma step_invariant (u : EvidenceUploader.Uploader) (ids : list string)
    (ev : EvidenceUploader.Event) :
  uploader_invariant_at u ids ->
  uploader_invariant_at (step u ev)
    (ids ++ map EvidenceUploader.id (storedBy maxFiles readAsDataURL u ev)).
Proof.
  intros [(Hlen & Hcl & Hsub) Hcalls].
  assert (Hgrow : Forall (fun call =>
               length (EvidenceUploader.files (EvidenceUploader.render call))
               + length (EvidenceUploader.awaited call) <= maxFiles
               /\ Forall classified (EvidenceUploader.files (EvidenceUploader.render call))
               /\ Forall classified (EvidenceUploader.awaited call)
               /\ map EvidenceUploader.id
                      (EvidenceUploader.files (EvidenceUploader.render call))
                    `sublist_of`
                    ids ++ map EvidenceUploader.id (storedBy maxFiles readAsDataURL u ev))
            (EvidenceUploader.inFlight u)).
  { eapply Forall_impl; [exact Hcalls|]. intros call (H1 & H2 & H3 & H4).
    repeat split; try assumption. by apply sublist_inserts_r. }
  split.
  - rewrite step_files.
    destruct ev as [random newFiles|k|i|i]; cbn [storedBy].
    + rewrite (filesToAdd_take u newFiles Hlen).
      destruct (EvidenceUploader.reads _);
        [cbn; rewrite ?app_nil_r; auto|].
      destruct (EvidenceUploader.all _) as [new|] eqn:Hall;
        [|cbn; rewrite ?app_nil_r; auto].
      destruct (all_evidenceFiles _ _ _ Hall) as (Hfiles & Hnew & _).
      split; [|split].
      * rewrite length_app.
        apply fits_in_remaining; [exact Hlen|].
        rewrite <- (length_map EvidenceUploader.file), Hfiles, length_take. lia.
      * apply Forall_app. by split.
      * rewrite map_app. by apply sublist_app.
    + destruct (EvidenceUploader.inFlight u !! k) as [call|] eqn:Hk.
      * apply (proj1 (Forall_lookup _ _) Hcalls) in Hk as (H1 & H2 & H3 & H4).
        split; [by rewrite length_app|]. split; [apply Forall_app; by split|].
        rewrite map_app. by apply sublist_app.
      * cbn. rewrite ?app_nil_r. auto.
    + cbn. rewrite ?app_nil_r. split; [|split].
      * etrans; [apply length_filter | exact Hlen].
      * apply Forall_forall. intros f Hf. apply list_elem_of_filter in Hf as [_ Hf].
        by apply (proj1 (Forall_forall _ _) Hcl).
      * etrans; [|exact Hsub]. apply (fmap_sublist EvidenceUploader.id), sublist_filter.
    + cbn. rewrite ?app_nil_r. split; [by rewrite length_map|]. split.
      * apply Forall_fmap. eapply Forall_impl; [exact Hcl|].
        intros f Hf. by apply classified_markUploaded.
      * by rewrite markUploaded_ids.
  - unfold EvidenceUploader.step. cbn [EvidenceUploader.inFlight]. revert Hgrow.
    destruct ev as [random newFiles|k|i|i]; cbn [EvidenceUploader.waiting storedBy];
      try (intros Hgrow; exact Hgrow).
    + rewrite (filesToAdd_take u newFiles Hlen).
      destruct (EvidenceUploader.reads _); [|intros Hgrow; exact Hgrow].
      destruct (EvidenceUploader.all _) as [new|] eqn:Hall; [|intros Hgrow; exact Hgrow].
      destruct (all_evidenceFiles _ _ _ Hall) as (Hfiles & Hnew & _).
      cbn. rewrite app_nil_r. intros Hgrow.
      apply Forall_app. split; [exact Hgrow|].
      constructor; [|constructor]. cbn.
      repeat split; try assumption.
      rewrite <- (length_map EvidenceUploader.file new), Hfiles, length_take. lia.
    + intros Hgrow. apply Forall_delete. exact Hgrow.
Qed.

Local Abbreviation history := (stored_order maxFiles readAsDataURL).

Lemma history_run (evs : list EvidenceUploader.Event) :
  foldl (fun '(u, ids) ev =>
           (step u ev,
            ids ++ map EvidenceUploader.id (storedBy maxFiles readAsDataURL u ev)))
        (EvidenceUploader.mkUploader EvidenceUploader.initialState [], [])
        evs
  = (run evs, history evs).
Proof.
  unfold stored_order, EvidenceUploader.run.
  generalize (EvidenceUploader.mkUploader EvidenceUploader.initialState []).
  generalize (@nil string).
  induction evs as [|ev evs IH]; intros ids u; [reflexivity|].
  cbn [foldl]. apply IH.
Qed.

Lemma history_snoc (evs : list EvidenceUploader.Event) (ev : EvidenceUploader.Event) :
  history (evs ++ [ev])
  = history evs
    ++ map EvidenceUploader.id (storedBy maxFiles readAsDataURL (run evs) ev).
Proof.
  unfold stored_order at 1. rewrite foldl_snoc, history_run. reflexivity.
Qed.

Lemma run_invariant (evs : list EvidenceUploader.Event) :
  uploader_invariant_at (run evs) (history evs).
Proof.
  induction evs as [|ev evs IH] using rev_ind.
  - split; [|constructor]. cbn. repeat split; [lia | constructor | constructor].
  - rewrite history_snoc. unfold EvidenceUploader.run. rewrite foldl_snoc.
    by apply step_invariant.
Qed.

End UploaderFacts.


(** Two calls of [handleFiles] that overlap: the second is made before
    the reads of the first have ended, so both continue from the empty
    list of the render they were made in, and the call that ends last
    overwrites what the other stored. *)
Lemma overlapping_calls_overwrite :
  let first := EvidenceUploader.HandleFiles (fun _ => "k3x9f0a1b") [Samples.photo] in
  let second := EvidenceUploader.HandleFiles (fun _ => "q7m2c4d8e") [Samples.later_photo] in
  let loaded := EvidenceUploader.PreviewsLoaded 0 in
  map EvidenceUploader.file
      (EvidenceUploader.files (EvidenceUploader.run 20 Samples.loads [first; second; loaded]))
  = [Samples.photo]
  /\ map EvidenceUploader.file
         (EvidenceUploader.files
            (EvidenceUploader.run 20 Samples.loads [first; second; loaded; loaded]))
     = [Samples.later_photo].
Proof. split; reflexivity. Qed.

(** ** C8: when the polling timers stop *)

Section PollingFacts.
Variable i : string.
Variable aiAnalysisPending : bool.

Local Abbreviation step := (ClaimDetail.step (Some i)).
Local Abbreviation run := (ClaimDetail.run (Some i) aiAnalysisPending).
Local Abbreviation commit := (ClaimDetail.commit (Some i)).

Lemma poll1_result (r : Outcome Types.PublicClaimResponse) (st : ClaimDetail.State) :
  ClaimDetail.pollInterval1 st = true ->
  ClaimDetail.poll1 (Some i) r st =
  match r with
  | Resolved data =>
      if ClaimDetail.stopsPolling (Types.pc_status data)
      then ([ClaimDetail.ApiGetPublicClaim i; ClaimDetail.ClearInterval ClaimDetail.Timer1],
            ClaimDetail.setPollInterval1 false
              (ClaimDetail.setAiAnalysisInProgress false
                 (ClaimDetail.setClaimData (Some data) st)),
            Resolved tt)
      else ([ClaimDetail.ApiGetPublicClaim i],
            ClaimDetail.setClaimData (Some data) st, Resolved tt)
  | Rejected e =>
      ([ClaimDetail.ApiGetPublicClaim i;
        ClaimDetail.ConsoleError "Error polling claim status:" e;
        ClaimDetail.ClearInterval ClaimDetail.Timer1],
       ClaimDetail.setPollInterval1 false (ClaimDetail.setAiAnalysisInProgress false st),
       Resolved tt)
  end.
Proof.
  intros Harmed. unfold ClaimDetail.poll1, ClaimDetail.clear1. async_unfold.
  destruct r as [data|e]; cbn.
  - destruct (ClaimDetail.stopsPolling (Types.pc_status data)); cbn;
      [rewrite Harmed|]; reflexivity.
  - rewrite Harmed. reflexivity.
Qed.

Lemma poll2_result (r : Outcome Types.PublicClaimResponse) (st : ClaimDetail.State) :
  ClaimDetail.pollInterval2 st = true ->
  ClaimDetail.poll2 i r st =
  match r with
  | Resolved data =>
      if ClaimDetail.stopsPolling (Types.pc_status data)
      then ([ClaimDetail.ApiGetPublicClaim i; ClaimDetail.ClearInterval ClaimDetail.Timer2],
            ClaimDetail.setPollInterval2 false
              (ClaimDetail.setAiAnalysisInProgress false
                 (ClaimDetail.setClaimData (Some data) st)),
            Resolved tt)
      else ([ClaimDetail.ApiGetPublicClaim i],
            ClaimDetail.setClaimData (Some data) st, Resolved tt)
  | Rejected e =>
      ([ClaimDetail.ApiGetPublicClaim i;
        ClaimDetail.ConsoleError "Error polling claim status:" e;
        ClaimDetail.ClearInterval ClaimDetail.Timer2],
       ClaimDetail.setPollInterval2 false (ClaimDetail.setAiAnalysisInProgress false st),
       Resolved tt)
  end.
Proof.
  intros Harmed. unfold ClaimDetail.poll2, ClaimDetail.clear2. async_unfold.
  destruct r as [data|e]; cbn.
  - destruct (ClaimDetail.stopsPolling (Types.pc_status data)); cbn;
      [rewrite Harmed|]; reflexivity.
  - rewrite Harmed. reflexivity.
Qed.

(** The state React settles in after a handler. *)
Lemma commit_final (st : ClaimDetail.State) :
  Async.final (commit ClaimDetail.rounds st) = after_commit st
  /\ filter (fun e => ClaimDetail.isRequest e = true)
            (Async.effects (commit ClaimDetail.rounds st)) = [].
Proof.
  destruct st as [cd l e ai m p1 p2 d].
  unfold after_commit, ClaimDetail.rounds, ClaimDetail.currentDeps2.
  cbn [ClaimDetail.commit]. async_unfold.
  unfold ClaimDetail.clear2, ClaimDetail.effect2, ClaimDetail.currentDeps2. async_unfold.
  cbn.
  destruct (match d with
            | Some d0 => ClaimDetail.deps2_eqb d0 (Types.pc_status <$> cd, ai)
            | None => false
            end) eqn:Hd; [split; reflexivity|].
  destruct cd as [[c v ar cr mc ev s cm reason av cs crem mh]|];
    [destruct s|]; destruct ai; destruct p2; cbn; split; reflexivity.
Qed.

Lemma deps2_eqb_eq (a b : option Types.ClaimStatus * bool) :
  ClaimDetail.deps2_eqb a b = true <-> a = b.
Proof.
  unfold ClaimDetail.deps2_eqb. destruct a as [a1 a2], b as [b1 b2]. cbn.
  rewrite andb_true_iff, bool_decide_eq_true, Bool.eqb_true_iff.
  split; [intros [-> ->]; reflexivity | intros [= -> ->]; auto].
Qed.

Lemma stopsPolling_not_running (s : Types.ClaimStatus) :
  ClaimDetail.stopsPolling s = true -> ClaimDetail.analysisRunning s = false.
Proof. destruct s; vm_compute; intros; congruence. Qed.

Lemma after_commit_pollInterval1 (st : ClaimDetail.State) :
  ClaimDetail.pollInterval1 (after_commit st) = ClaimDetail.pollInterval1 st.
Proof.
  unfold after_commit.
  destruct (match ClaimDetail.deps2 st with Some _ => _ | None => _ end);
    [reflexivity|].
  destruct (ClaimDetail.claimData st) as [cd|]; [|reflexivity].
  destruct (ClaimDetail.analysisRunning _); reflexivity.
Qed.

Lemma after_commit_flushed_id (st : ClaimDetail.State) :
  flushed st -> after_commit st = st.
Proof.
  intros [Hd _]. unfold after_commit. rewrite Hd.
  by rewrite (proj2 (deps2_eqb_eq _ _) eq_refl).
Qed.

(** A handler that keeps the recorded dependencies and arms no second
    timer leaves, after [commit], a flushed page. *)
Lemma after_commit_flushed (st s' : ClaimDetail.State) :
  flushed st ->
  ClaimDetail.deps2 s' = ClaimDetail.deps2 st ->
  (ClaimDetail.pollInterval2 s' = true -> ClaimDetail.pollInterval2 st = true) ->
  flushed (after_commit s').
Proof.
  intros [Hd Hp] Hdeps Harm. unfold after_commit. rewrite Hdeps, Hd.
  destruct (ClaimDetail.deps2_eqb _ _) eqn:Heq.
  - apply deps2_eqb_eq in Heq. split; [congruence|].
    intros H2. destruct (Hp (Harm H2)) as (Hai & cd & Hcd & Hrun).
    unfold ClaimDetail.currentDeps2 in Heq. rewrite Hcd in Heq.
    injection Heq as Hs Ha.
    split; [congruence|].
    destruct (ClaimDetail.claimData s') as [cd'|]; [|discriminate].
    exists cd'. split; [reflexivity|]. cbn in Hs. congruence.
  - destruct (ClaimDetail.claimData s') as [cd'|] eqn:Hcd'.
    + destruct (ClaimDetail.analysisRunning (Types.pc_status cd')) eqn:Hrun.
      * split; [unfold ClaimDetail.currentDeps2; cbn; rewrite ?Hcd'; reflexivity|].
        intros _. split; [reflexivity|]. exists cd'. cbn. auto.
      * split; [unfold ClaimDetail.currentDeps2; cbn; rewrite ?Hcd'; reflexivity|].
        cbn. discriminate.
    + split; [unfold ClaimDetail.currentDeps2; cbn; rewrite ?Hcd'; reflexivity|].
      cbn. discriminate.
Qed.

(** What an event does, given what its handler does. *)
Lemma react_result (st : ClaimDetail.State) (ev : ClaimDetail.Event)
    (l : list ClaimDetail.Effect) (s' : ClaimDetail.State) :
  ClaimDetail.handler (Some i) st ev st = (l, s', Resolved tt) ->
  step st ev = after_commit s'
  /\ filter (fun e => ClaimDetail.isRequest e = true)
            (Async.effects (ClaimDetail.react (Some i) st ev))
     = filter (fun e => ClaimDetail.isRequest e = true) l.
Proof.
  intros Hh. unfold ClaimDetail.step, ClaimDetail.react.
  rewrite bind_run, Hh.
  destruct (commit_final s') as [Hf He].
  unfold Async.final, Async.effects in *.
  destruct (commit ClaimDetail.rounds s') as [[l2 s2] r2]. cbn in *.
  split; [exact Hf|]. by rewrite filter_app, He, app_nil_r.
Qed.

Lemma fetchClaim_settled_result (r : Outcome Types.PublicClaimResponse)
    (st : ClaimDetail.State) :
  ClaimDetail.fetchClaim_settled r st =
  match r with
  | Resolved data =>
      ([], ClaimDetail.setLoading false
             (ClaimDetail.setAiAnalysisInProgress
                (ClaimDetail.analysisRunning (Types.pc_status data))
                (ClaimDetail.setClaimData (Some data) st)),
       Resolved tt)
  | Rejected e =>
      ([], ClaimDetail.setLoading false
             (ClaimDetail.setError (Some (ClaimDetail.fetch_error_message e)) st),
       Resolved tt)
  end.
Proof.
  unfold ClaimDetail.fetchClaim_settled. async_unfold.
  destruct r as [data|e]; cbn; [|reflexivity].
  destruct (ClaimDetail.analysisRunning (Types.pc_status data)); reflexivity.
Qed.

Lemma handleMint_frame (env : ClaimDetail.MintEnv) (st : ClaimDetail.State) :
  exists l s',
    ClaimDetail.handleMint env st st = (l, s', Resolved tt)
    /\ ClaimDetail.deps2 s' = ClaimDetail.deps2 st
    /\ ClaimDetail.pollInterval2 s' = ClaimDetail.pollInterval2 st
    /\ ClaimDetail.pollInterval1 s' = ClaimDetail.pollInterval1 st.
Proof.
  unfold ClaimDetail.handleMint.
  destruct (ClaimDetail.claimData st) as [cd|]; [|by do 2 eexists].
  destruct (Types.verification cd) as [v|]; [|by do 2 eexists].
  destruct (Types.can_mint cd); [|by do 2 eexists].
  async_unfold. cbn.
  destruct (ClaimDetail.mintCredits env _ _); cbn;
    [destruct (ClaimDetail.getPublicClaim env _); cbn|];
    by do 2 eexists.
Qed.

(** Every handler completes, keeps the recorded dependencies and the
    first timer unarmed if it was, and arms no second timer. *)
Lemma handler_frame (st : ClaimDetail.State) (ev : ClaimDetail.Event) :
  exists l s',
    ClaimDetail.handler (Some i) st ev st = (l, s', Resolved tt)
    /\ ClaimDetail.deps2 s' = ClaimDetail.deps2 st
    /\ (ClaimDetail.pollInterval2 s' = true -> ClaimDetail.pollInterval2 st = true)
    /\ (ClaimDetail.pollInterval1 s' = true -> ClaimDetail.pollInterval1 st = true).
Proof.
  unfold ClaimDetail.handler. destruct ev as [r | r | r | env].
  4:{ destruct (ClaimDetail.mintButtonShown st);
        [|do 2 eexists; split; [reflexivity|]; repeat split; intros; congruence].
      destruct (handleMint_frame env st) as (l & s' & Hh & Hd & H2 & H1).
      exists l, s'. rewrite Hh, Hd, H2, H1. auto. }
  - rewrite fetchClaim_settled_result.
    destruct r; do 2 eexists; (split; [reflexivity|]); cbn; repeat split; intros; congruence.
  - destruct (ClaimDetail.pollInterval1 st) eqn:H1.
    + rewrite (poll1_result r st H1).
      destruct r as [data|e];
        [destruct (ClaimDetail.stopsPolling (Types.pc_status data))|];
        do 2 eexists; (split; [reflexivity|]); cbn; repeat split; intros; congruence.
    + do 2 eexists. split; [reflexivity|]. async_simpl. repeat split; intros; congruence.
  - destruct (ClaimDetail.pollInterval2 st) eqn:H2.
    + rewrite (poll2_result r st H2).
      destruct r as [data|e];
        [destruct (ClaimDetail.stopsPolling (Types.pc_status data))|];
        do 2 eexists; (split; [reflexivity|]); cbn; repeat split; intros; congruence.
    + do 2 eexists. split; [reflexivity|]. async_simpl. repeat split; intros; congruence.
Qed.

Lemma step_flushed (st : ClaimDetail.State) (ev : ClaimDetail.Event) :
  flushed st -> flushed (step st ev).
Proof.
  intros Hs. destruct (handler_frame st ev) as (l & s' & Hh & Hd & H2 & _).
  rewrite (proj1 (react_result st ev l s' Hh)).
  by apply (after_commit_flushed st).
Qed.

Lemma mounted_flushed : flushed (ClaimDetail.mounted (Some i) aiAnalysisPending).
Proof.
  unfold flushed. destruct aiAnalysisPending; vm_compute;
    (split; [reflexivity | discriminate]).
Qed.

Lemma run_flushed (evs : list ClaimDetail.Event) : flushed (run evs).
Proof.
  unfold ClaimDetail.run.
  generalize mounted_flushed.
  generalize (ClaimDetail.mounted (Some i) aiAnalysisPending).
  induction evs as [|ev evs IH]; intros st Hs; [exact Hs|].
  cbn. apply IH. by apply step_flushed.
Qed.

(** After a tick of the armed first timer, it stays armed exactly when
    the fetch succeeded with a status outside the stop list. *)
Lemma first_timer_after_tick (st : ClaimDetail.State)
    (r : Outcome Types.PublicClaimResponse) :
  ClaimDetail.pollInterval1 st = true ->
  ClaimDetail.pollInterval1 (step st (ClaimDetail.Tick1 r)) =
  match r with
  | Resolved data => negb (ClaimDetail.stopsPolling (Types.pc_status data))
  | Rejected _ => false
  end.
Proof.
  intros H1.
  pose proof (poll1_result r st H1) as Hp.
  assert (Hh : ClaimDetail.handler (Some i) st (ClaimDetail.Tick1 r) st
               = ClaimDetail.poll1 (Some i) r st) by (cbn; by rewrite H1).
  rewrite Hp in Hh.
  destruct r as [data|e];
    [destruct (ClaimDetail.stopsPolling (Types.pc_status data))|];
    rewrite (proj1 (react_result _ _ _ _ Hh)), after_commit_pollInterval1;
    cbn; auto.
Qed.

Lemma first_timer_stays_cleared (st : ClaimDetail.State) (ev : ClaimDetail.Event) :
  ClaimDetail.pollInterval1 st = false ->
  ClaimDetail.pollInterval1 (step st ev) = false.
Proof.
  intros H1. destruct (handler_frame st ev) as (l & s' & Hh & _ & _ & Hk).
  rewrite (proj1 (react_result st ev l s' Hh)), after_commit_pollInterval1.
  destruct (ClaimDetail.pollInterval1 s'); [|reflexivity].
  rewrite Hk in H1 by reflexivity. discriminate.
Qed.

(** After a tick of the armed second timer whose fetch succeeds, the
    second effect has a timer armed exactly when the fetched status is
    [ai_analysis_pending] or [ai_analysis_in_progress]. *)
Lemma second_timer_after_tick (st : ClaimDetail.State)
    (data : Types.PublicClaimResponse) :
  flushed st ->
  ClaimDetail.pollInterval2 st = true ->
  ClaimDetail.pollInterval2 (step st (ClaimDetail.Tick2 (Resolved data)))
  = ClaimDetail.analysisRunning (Types.pc_status data).
Proof.
  intros [Hd Hp] H2.
  pose proof (poll2_result (Resolved data) st H2) as Hr.
  assert (Hh : ClaimDetail.handler (Some i) st (ClaimDetail.Tick2 (Resolved data)) st
               = ClaimDetail.poll2 i (Resolved data) st) by (cbn; by rewrite H2).
  rewrite Hr in Hh. clear Hr.
  destruct (Hp H2) as (_ & cd & Hcd & Hrun).
  destruct (ClaimDetail.stopsPolling (Types.pc_status data)) eqn:Hstop;
    rewrite (proj1 (react_result _ _ _ _ Hh)); unfold after_commit; cbn;
    rewrite Hd; unfold ClaimDetail.currentDeps2; rewrite Hcd; cbn.
  - rewrite (stopsPolling_not_running _ Hstop).
    destruct (ClaimDetail.deps2_eqb _ _); reflexivity.
  - destruct (ClaimDetail.deps2_eqb _ _) eqn:Heq.
    + apply deps2_eqb_eq in Heq. injection Heq as Hs. cbn. congruence.
    + destruct (ClaimDetail.analysisRunning (Types.pc_status data)); reflexivity.
Qed.

(** A failed poll of the second timer clears its interval; the change
    of [aiAnalysisInProgress] then re-runs the second effect, which arms
    a new interval because the claim shown is still under analysis. *)
Lemma second_timer_rearmed_after_error (st : ClaimDetail.State) (e : JS.Error) :
  flushed st ->
  ClaimDetail.pollInterval2 st = true ->
  ClaimDetail.ClearInterval ClaimDetail.Timer2
    ∈ Async.effects (ClaimDetail.poll2 i (Rejected e) st)
  /\ ClaimDetail.pollInterval2 (step st (ClaimDetail.Tick2 (Rejected e))) = true.
Proof.
  intros [Hd Hp] H2.
  pose proof (poll2_result (Rejected e) st H2) as Hr.
  split; [rewrite Hr; cbn; rewrite !elem_of_cons; auto|].
  assert (Hh : ClaimDetail.handler (Some i) st (ClaimDetail.Tick2 (Rejected e)) st
               = ClaimDetail.poll2 i (Rejected e) st) by (cbn; by rewrite H2).
  rewrite Hr in Hh. clear Hr.
  destruct (Hp H2) as (Hai & cd & Hcd & Hrun).
  rewrite (proj1 (react_result _ _ _ _ Hh)). unfold after_commit. cbn.
  rewrite Hd. unfold ClaimDetail.currentDeps2. rewrite Hcd, Hai. cbn.
  rewrite Hrun. reflexivity.
Qed.

(** With both timers cleared, ticks neither fetch nor change the page. *)
Lemma cleared_timers_are_quiet (st : ClaimDetail.State)
    (ticks : list ClaimDetail.Event) :
  flushed st ->
  ClaimDetail.pollInterval1 st = false ->
  ClaimDetail.pollInterval2 st = false ->
  Forall (fun ev => is_tick ev = true) ticks ->
  foldl step st ticks = st /\ ClaimDetail.requests (Some i) st ticks = [].
Proof.
  intros Hs H1 H2 Ht. induction Ht as [|ev ticks Hev _ IH]; [split; reflexivity|].
  assert (Hh : ClaimDetail.handler (Some i) st ev st = ([], st, Resolved tt)).
  { destruct ev; try discriminate; cbn; by rewrite ?H1, ?H2. }
  destruct (react_result st ev [] st Hh) as [Hstep Hreq].
  rewrite (after_commit_flushed_id st Hs) in Hstep.
  cbn [foldl ClaimDetail.requests]. rewrite Hstep, Hreq.
  destruct IH as [IH1 IH2]. split; [exact IH1 | by rewrite IH2].
Qed.

End PollingFacts.

(** The rounds allowed to [ClaimDetail.commit] suffice: when it returns,
    the second effect has run with the current dependencies. *)
Lemma commit_reaches_fixed_point (id : option string) (st : ClaimDetail.State) :
  let st' := Async.final (ClaimDetail.commit id ClaimDetail.rounds st) in
  ClaimDetail.deps2 st' = Some (ClaimDetail.currentDeps2 st').
Proof.
  cbn zeta. destruct id as [i|].
  - rewrite (proj1 (commit_final i st)). unfold after_commit.
    destruct (ClaimDetail.deps2 st) as [d|] eqn:Hd.
    + destruct (ClaimDetail.deps2_eqb d (ClaimDetail.currentDeps2 st)) eqn:Heq.
      * apply deps2_eqb_eq in Heq. congruence.
      * destruct (ClaimDetail.claimData st) as [cd|] eqn:Hcd;
          [destruct (ClaimDetail.analysisRunning (Types.pc_status cd))|];
          unfold ClaimDetail.currentDeps2; cbn; rewrite ?Hcd; reflexivity.
    + destruct (ClaimDetail.claimData st) as [cd|] eqn:Hcd;
        [destruct (ClaimDetail.analysisRunning (Types.pc_status cd))|];
        unfold ClaimDetail.currentDeps2; cbn; rewrite ?Hcd; reflexivity.
  - destruct st as [cd l e ai m p1 p2 d].
    unfold ClaimDetail.rounds, ClaimDetail.currentDeps2.
    cbn [ClaimDetail.commit]. async_unfold.
    unfold ClaimDetail.clear2, ClaimDetail.effect2, ClaimDetail.currentDeps2. async_unfold.
    cbn.
    destruct d as [d|]; cbn.
    + destruct (ClaimDetail.deps2_eqb d (Types.pc_status <$> cd, ai)) eqn:Heq.
      * apply deps2_eqb_eq in Heq. cbn. congruence.
      * destruct cd as [[c v ar cr mc ev s cm reason av cs crem mh]|];
          [destruct s|]; destruct ai; destruct p2; reflexivity.
    + destruct cd as [[c v ar cr mc ev s cm reason av cs crem mh]|];
        [destruct s|]; destruct ai; destruct p2; reflexivity.
Qed.

(** C8: the first timer polls a settled claim for ever.  Its stop test
    lists seven statuses and leaves out [verified] (as well as
    [community_reviewed]), although the comment above it reads "Stop
    polling when status becomes AI_VERIFIED, AI_REJECTED, or any final
    state".  On a page opened with [aiAnalysisPending], once the
    analysis has ended with status [verified], which is not under
    analysis, the page stays behind the analysis screen and every
    further tick still finds the first timer armed and fetches the
    claim again. *)
Lemma first_timer_keeps_polling_verified :
  let answer s := Resolved (Samples.response s None false) in
  let seen := [ClaimDetail.FetchClaimSettled (answer Types.ai_analysis_pending);
               ClaimDetail.Tick1 (answer Types.ai_analysis_in_progress);
               ClaimDetail.Tick1 (answer Types.verified)] in
  let st := ClaimDetail.run (Some "c1") true seen in
  ClaimDetail.analysisRunning Types.verified = false
  /\ (Types.pc_status <$> ClaimDetail.claimData st) = Some Types.verified
  /\ ClaimDetail.screen st = ClaimDetail.AnalysisScreen
  /\ ClaimDetail.pollInterval1 st = true
  /\ ClaimDetail.pollInterval1
       (ClaimDetail.step (Some "c1") st (ClaimDetail.Tick1 (answer Types.verified))) = true
  /\ ClaimDetail.requests (Some "c1") st
       [ClaimDetail.Tick1 (answer Types.verified);
        ClaimDetail.Tick1 (answer Types.verified);
        ClaimDetail.Tick1 (answer Types.verified)]
     = [ClaimDetail.ApiGetPublicClaim "c1"; ClaimDetail.ApiGetPublicClaim "c1";
        ClaimDetail.ApiGetPublicClaim "c1"].
Proof.
  cbn zeta. repeat split; vm_compute; reflexivity.
Qed.

(** * Further properties of the pages and components *)

(** ** The submission wizard ([SubmitClaim]) *)

(** Without a location and without a geometry, [handleSubmit] stores the
    step-4 errors and returns. *)
Lemma handleSubmit_no_location (env : SubmitClaim.Env) (st : SubmitClaim.State) :
  SubmitClaim.fd_location (SubmitClaim.formData st) = None ->
  SubmitClaim.fd_geometry_geojson (SubmitClaim.formData st) = None ->
  SubmitClaim.handleSubmit env st st =
  ([], SubmitClaim.setErrors (SubmitClaim.newErrors (SubmitClaim.formData st) 4) st,
   Resolved tt).
Proof.
  intros Hl Hg. unfold SubmitClaim.handleSubmit.
  unfold mbind at 1. unfold M_bind at 1. unfold Async.bind at 1.
  rewrite validateStep_result, Hl, Hg.
  rewrite (bool_decide_eq_false_2 (is_Some None)) by (intros [? ?]; discriminate).
  cbn [negb andb]. rewrite orb_true_r. reflexivity.
Qed.

(** When a date of the form cannot be converted, the [catch] of
    [handleSubmit] runs before any request. *)
Lemma handleSubmit_bad_date (env : SubmitClaim.Env) (st : SubmitClaim.State)
    (e : JS.Error) :
  let fd := SubmitClaim.formData st in
  SubmitClaim.newErrors fd 4 = ∅ ->
  is_Some (SubmitClaim.fd_location fd) \/ is_Some (SubmitClaim.fd_geometry_geojson fd) ->
  SubmitClaim.buildSubmission env fd = Rejected e ->
  SubmitClaim.handleSubmit env st st =
  ([SubmitClaim.ConsoleError "Error submitting claim:" e],
   SubmitClaim.mkState (SubmitClaim.currentStep st) false false fd
                       {[ "submit" := SubmitClaim.errorMessage e ]},
   Resolved tt).
Proof.
  cbn zeta. intros Hok Hloc Hsub.
  unfold SubmitClaim.handleSubmit.
  unfold mbind at 1. unfold M_bind at 1. unfold Async.bind at 1.
  rewrite validateStep_result, Hok.
  rewrite bool_decide_eq_true_2 by reflexivity.
  assert (Hg : negb (bool_decide (is_Some (SubmitClaim.fd_location (SubmitClaim.formData st))))
               && negb (bool_decide (is_Some (SubmitClaim.fd_geometry_geojson
                                                (SubmitClaim.formData st)))) = false).
  { destruct Hloc as [H|H]; rewrite (bool_decide_eq_true_2 _ H); cbn;
      [reflexivity | apply andb_false_r]. }
  rewrite Hg. cbn [negb orb].
  async_unfold. rewrite Hsub. reflexivity.
Qed.

(** The four ways in which [handleSubmit] can run. *)
Lemma handleSubmit_cases (env : SubmitClaim.Env) (st : SubmitClaim.State) :
  let fd := SubmitClaim.formData st in
  let r := SubmitClaim.handleSubmit env st st in
  (r = ([], SubmitClaim.setErrors (SubmitClaim.newErrors fd 4) st, Resolved tt)
   /\ (SubmitClaim.newErrors fd 4 ≠ ∅
       \/ (SubmitClaim.fd_location fd = None
           /\ SubmitClaim.fd_geometry_geojson fd = None)))
  \/ (SubmitClaim.newErrors fd 4 = ∅
      /\ (is_Some (SubmitClaim.fd_location fd)
          \/ is_Some (SubmitClaim.fd_geometry_geojson fd))
      /\ ((exists e,
              SubmitClaim.buildSubmission env fd = Rejected e
              /\ r = ([SubmitClaim.ConsoleError "Error submitting claim:" e],
                      SubmitClaim.mkState (SubmitClaim.currentStep st) false false fd
                        {[ "submit" := SubmitClaim.errorMessage e ]},
                      Resolved tt))
          \/ (exists sub,
                SubmitClaim.buildSubmission env fd = Resolved sub
                /\ head (Async.effects r) = Some (SubmitClaim.ApiSubmitClaim sub)
                /\ (forall sub', SubmitClaim.ApiSubmitClaim sub' ∈ tail (Async.effects r)
                                 -> False)
                /\ Async.completion r = Resolved tt
                /\ SubmitClaim.currentStep (Async.final r) = SubmitClaim.currentStep st
                /\ SubmitClaim.formData (Async.final r) = fd
                /\ SubmitClaim.isSubmitting (Async.final r) = false
                /\ SubmitClaim.uploadingEvidence (Async.final r) = false))).
Proof.
  cbn zeta.
  destruct (decide (SubmitClaim.newErrors (SubmitClaim.formData st) 4 = ∅)) as [Hok|Hbad].
  2:{ left. split; [by apply handleSubmit_invalid | by left]. }
  assert (Hdec : (SubmitClaim.fd_location (SubmitClaim.formData st) = None
                  /\ SubmitClaim.fd_geometry_geojson (SubmitClaim.formData st) = None)
                 \/ (is_Some (SubmitClaim.fd_location (SubmitClaim.formData st))
                     \/ is_Some (SubmitClaim.fd_geometry_geojson (SubmitClaim.formData st)))).
  { destruct (SubmitClaim.fd_location _); [eauto|].
    destruct (SubmitClaim.fd_geometry_geojson _); eauto. }
  destruct Hdec as [[Hl Hg]|Hloc].
  { left. split; [by apply handleSubmit_no_location | by right]. }
  right. split; [assumption|]. split; [assumption|].
  destruct (SubmitClaim.buildSubmission env (SubmitClaim.formData st)) as [sub|e] eqn:Hb.
  - right. exists sub. split; [reflexivity|].
    rewrite (handleSubmit_valid env st sub Hok Hloc Hb).
    destruct (SubmitClaim.submitClaim env sub) as [c|e];
      unfold Async.effects, Async.final, Async.completion; cbn [fst snd head tail].
    + repeat split; try reflexivity.
      intros sub'. rewrite elem_of_app.
      destruct (SubmitClaim.evidenceFiles _) as [|f fs]; cbn.
      * rewrite elem_of_nil, elem_of_cons, elem_of_nil. intros [[]|[?|[]]]. discriminate.
      * destruct (SubmitClaim.uploadEvidence env _ _);
          rewrite !elem_of_cons, ?elem_of_nil; intros H;
          repeat destruct H as [H|H]; try discriminate; try contradiction.
    + repeat split; try reflexivity.
      intros sub'. rewrite !elem_of_cons, elem_of_nil. intros [?|[]]. discriminate.
  - left. exists e. split; [reflexivity|]. by apply handleSubmit_bad_date.
Qed.

(** X1: [handleSubmit] never rejects and never changes the form or the
    step.  Unless it returns before trying anything (no effect at all),
    it ends with [isSubmitting] and [uploadingEvidence] false.  It sends
    at most one claim request, and that request comes first. *)
Theorem handleSubmit_always_settles (env : SubmitClaim.Env) (st : SubmitClaim.State) :
  let r := SubmitClaim.handleSubmit env st st in
  Async.completion r = Resolved tt
  /\ SubmitClaim.formData (Async.final r) = SubmitClaim.formData st
  /\ SubmitClaim.currentStep (Async.final r) = SubmitClaim.currentStep st
  /\ (Async.effects r = []
      \/ (SubmitClaim.isSubmitting (Async.final r) = false
          /\ SubmitClaim.uploadingEvidence (Async.final r) = false))
  /\ forall sub i,
       Async.effects r !! i = Some (SubmitClaim.ApiSubmitClaim sub) -> i = 0.
Proof.
  cbn zeta.
  destruct (handleSubmit_cases env st) as [[-> _]|(_ & _ & [(e & _ & ->)|(sub & _ & H)])];
    unfold Async.effects, Async.final, Async.completion in *; cbn [fst snd] in *.
  - repeat split; auto. intros sub i. by rewrite lookup_nil.
  - repeat split; auto. intros sub [|[|i]]; cbn; [done|discriminate|discriminate].
  - destruct H as (Hhd & Htl & Hc & Hs & Hf & Hi & Hu).
    repeat split; auto.
    intros sub' [|i] Hi'; [reflexivity|].
    exfalso. apply (Htl sub').
    destruct (SubmitClaim.handleSubmit env st st).1.1 as [|x l]; [discriminate|].
    cbn in *. by eapply list_elem_of_lookup_2.
Qed.

(** X2: When the start date of a validated form cannot be converted
    ([toISOString] throws), or its end date cannot, [handleSubmit] sends
    no request and does not navigate: it logs the error, stores its
    message under [submit] and ends with [isSubmitting] false. *)
Theorem invalid_date_blocks_submission
    (env : SubmitClaim.Env) (st : SubmitClaim.State) (e : JS.Error) :
  let fd := SubmitClaim.formData st in
  let r := SubmitClaim.handleSubmit env st st in
  SubmitClaim.newErrors fd 4 = ∅ ->
  is_Some (SubmitClaim.fd_location fd) \/ is_Some (SubmitClaim.fd_geometry_geojson fd) ->
  SubmitClaim.toISOString env (SubmitClaim.fd_action_start_date fd) = Rejected e
  \/ (exists iso d,
         SubmitClaim.toISOString env (SubmitClaim.fd_action_start_date fd) = Resolved iso
         /\ SubmitClaim.fd_action_end_date fd = Some d
         /\ d ≠ ""
         /\ SubmitClaim.toISOString env d = Rejected e) ->
  Async.effects r = [SubmitClaim.ConsoleError "Error submitting claim:" e]
  /\ SubmitClaim.errors (Async.final r) = {[ "submit" := SubmitClaim.errorMessage e ]}
  /\ SubmitClaim.isSubmitting (Async.final r) = false
  /\ Async.completion r = Resolved tt.
Proof.
  cbn zeta. intros Hok Hloc Hdate.
  assert (Hb : SubmitClaim.buildSubmission env (SubmitClaim.formData st) = Rejected e).
  { unfold SubmitClaim.buildSubmission.
    destruct Hdate as [->|(iso & d & -> & -> & Hd & Hr)]; [reflexivity|].
    destruct d; [congruence|]. cbn [JS.truthy_string]. by rewrite Hr. }
  rewrite (handleSubmit_bad_date env st e Hok Hloc Hb). auto.
Qed.

(** An instance: the form of the samples in a browser that converts no
    date. *)
Lemma invalid_date_blocks_submission_witness :
  let st := Samples.wizard 10 20 "2024-01-01" [] in
  Async.effects (SubmitClaim.handleSubmit Samples.no_dates st st)
  = [SubmitClaim.ConsoleError "Error submitting claim:" Samples.invalid_time_value].
Proof.
  cbn zeta.
  apply (invalid_date_blocks_submission Samples.no_dates
           (Samples.wizard 10 20 "2024-01-01" []) Samples.invalid_time_value).
  - vm_compute. reflexivity.
  - left. vm_compute. eauto.
  - left. reflexivity.
Defined.

Lemma check_lookup (c : bool) (k msg k' : string) (e : gmap string string) :
  SubmitClaim.check c k msg e !! k' =
  if c && bool_decide (k = k') then Some msg else e !! k'.
Proof.
  unfold SubmitClaim.check. destruct c; cbn [andb]; [|reflexivity].
  case_bool_decide as Hk.
  - subst. apply lookup_insert_eq.
  - by apply lookup_insert_ne.
Qed.

(** Step 2 leaves no error exactly when its five tests all fail. *)
Lemma newErrors2_empty (fd : SubmitClaim.FormData) :
  SubmitClaim.newErrors fd 2 = ∅ <->
  5 <= String.length (SubmitClaim.fd_title fd)
  /\ JS.trim (SubmitClaim.fd_title fd) ≠ ""
  /\ 20 <= String.length (SubmitClaim.fd_description fd)
  /\ JS.trim (SubmitClaim.fd_description fd) ≠ ""
  /\ JS.trim (SubmitClaim.fd_submitter_name fd) ≠ "".
Proof.
  unfold SubmitClaim.newErrors.
  rewrite !check_empty_iff, !negb_false_iff, !Nat.ltb_ge.
  assert (Ht : forall s, JS.truthy_string s = true <-> s ≠ "").
  { intros s. destruct s; cbn; split; congruence. }
  rewrite !Ht. tauto.
Qed.

(** X3: Step 2 of the wizard passes exactly when the title has at least 5
    characters and is not blank, the description has at least 20 and is
    not blank, and the submitter's name is not blank.  A title shorter
    than 5 characters is always reported as too short, also when it is
    empty; "Title is required" is shown only for a blank title of 5
    characters or more, and likewise for the description. *)
Theorem validateStep_details (fd : SubmitClaim.FormData) (st : SubmitClaim.State) :
  let r := SubmitClaim.validateStep fd 2 st in
  let shown := SubmitClaim.errors (Async.final r) in
  (Async.completion r = Resolved true <->
     5 <= String.length (SubmitClaim.fd_title fd)
     /\ JS.trim (SubmitClaim.fd_title fd) ≠ ""
     /\ 20 <= String.length (SubmitClaim.fd_description fd)
     /\ JS.trim (SubmitClaim.fd_description fd) ≠ ""
     /\ JS.trim (SubmitClaim.fd_submitter_name fd) ≠ "")
  /\ shown !! "title"
     = (if Nat.ltb (String.length (SubmitClaim.fd_title fd)) 5
        then Some "Title must be at least 5 characters"
        else if JS.truthy_string (JS.trim (SubmitClaim.fd_title fd)) then None
             else Some "Title is required")
  /\ shown !! "description"
     = (if Nat.ltb (String.length (SubmitClaim.fd_description fd)) 20
        then Some "Description must be at least 20 characters"
        else if JS.truthy_string (JS.trim (SubmitClaim.fd_description fd)) then None
             else Some "Description is required")
  /\ shown !! "submitter_name"
     = (if JS.truthy_string (JS.trim (SubmitClaim.fd_submitter_name fd)) then None
        else Some "Your name is required").
Proof.
  cbn zeta. rewrite validateStep_result.
  unfold Async.completion, Async.final. cbn [fst snd SubmitClaim.errors SubmitClaim.setErrors].
  split.
  - rewrite <- newErrors2_empty. split.
    + intros [= H]. by apply bool_decide_eq_true in H.
    + intros H. f_equal. by apply bool_decide_eq_true.
  - unfold SubmitClaim.newErrors. rewrite !check_lookup.
    destruct (Nat.ltb (String.length (SubmitClaim.fd_title fd)) 5),
      (Nat.ltb (String.length (SubmitClaim.fd_description fd)) 20),
      (JS.truthy_string (JS.trim (SubmitClaim.fd_title fd))),
      (JS.truthy_string (JS.trim (SubmitClaim.fd_description fd))),
      (JS.truthy_string (JS.trim (SubmitClaim.fd_submitter_name fd)));
      repeat split; reflexivity.
Qed.

Lemma newErrors3_empty (fd : SubmitClaim.FormData) :
  SubmitClaim.newErrors fd 3 = ∅ <->
  is_Some (SubmitClaim.fd_location fd) \/ is_Some (SubmitClaim.fd_geometry_geojson fd).
Proof.
  unfold SubmitClaim.newErrors. rewrite check_empty_iff.
  destruct (SubmitClaim.fd_location fd), (SubmitClaim.fd_geometry_geojson fd); cbn;
    split; eauto; intros H; try (destruct H as [H _]; discriminate);
    destruct H as [[? ?]|[? ?]]; discriminate.
Qed.

Lemma handleNext_result (st : SubmitClaim.State) :
  let fd := SubmitClaim.formData st in
  let found := SubmitClaim.newErrors fd (SubmitClaim.currentStep st) in
  SubmitClaim.handleNext st st =
  ([],
   if bool_decide (found = ∅)
   then SubmitClaim.mkState (Nat.min (SubmitClaim.currentStep st + 1) 6)
          (SubmitClaim.isSubmitting st) (SubmitClaim.uploadingEvidence st) fd found
   else SubmitClaim.setErrors found st,
   Resolved tt).
Proof.
  cbn zeta. unfold SubmitClaim.handleNext.
  unfold mbind at 1. unfold M_bind at 1. unfold Async.bind at 1.
  rewrite validateStep_result.
  destruct (bool_decide _); reflexivity.
Qed.

(** Only "Submit Claim" has effects outside the component. *)
Lemma wizard_effects (w : SubmitClaim.Wizard) (ev : SubmitClaim.Event)
    (e : SubmitClaim.Effect) :
  e ∈ Async.effects (SubmitClaim.handler w ev w) ->
  exists env,
    ev = SubmitClaim.ClickSubmit env
    /\ 6 <= SubmitClaim.currentStep w
    /\ e ∈ Async.effects (SubmitClaim.handleSubmit env w w).
Proof.
  destruct ev; cbn [SubmitClaim.handler]; unfold SubmitClaim.on_step;
    try (destruct (Nat.eqb _ _); cbn; by rewrite ?elem_of_nil).
  - cbn. by rewrite elem_of_nil.
  - destruct (Nat.ltb _ _); [rewrite handleNext_result|]; cbn; by rewrite elem_of_nil.
  - destruct (_ || _); cbn; by rewrite elem_of_nil.
  - destruct (Nat.ltb_spec (SubmitClaim.currentStep w) SubmitClaim.steps_length) as [Hlt|Hge];
      cbn [orb]; [cbn; by rewrite elem_of_nil|].
    destruct (_ || _); [cbn; by rewrite elem_of_nil|].
    intros He. exists env. unfold SubmitClaim.steps_length in Hge. auto.
  - cbn. by rewrite elem_of_nil.
Qed.

Lemma initial_wizard_invariant (today : string) :
  wizard_invariant (SubmitClaim.initialWizard today).
Proof.
  unfold wizard_invariant. cbn. repeat split; auto; lia.
Qed.

Lemma step_wizard_invariant (w : SubmitClaim.Wizard) (ev : SubmitClaim.Event) :
  wizard_invariant w -> wizard_invariant (SubmitClaim.step w ev).
Proof.
  unfold wizard_invariant. cbn zeta.
  intros (Hstep & Hsub & Hup & Hg & Hend & Ha & Hl).
  unfold SubmitClaim.step. cbn [SubmitClaim.cells].
  assert (Hedit : forall n f,
            SubmitClaim.fd_geometry_geojson (f (SubmitClaim.formData w)) = None ->
            SubmitClaim.fd_action_end_date (f (SubmitClaim.formData w)) = None ->
            SubmitClaim.fd_stated_assumptions (f (SubmitClaim.formData w)) = [""] ->
            SubmitClaim.fd_known_limitations (f (SubmitClaim.formData w)) = [""] ->
            let st' := Async.final
                         (SubmitClaim.on_step n w
                            (Async.set (SubmitClaim.setFormData f)) w) in
            (1 <= SubmitClaim.currentStep st' <= 6)
            /\ SubmitClaim.isSubmitting st' = false
            /\ SubmitClaim.uploadingEvidence st' = false
            /\ SubmitClaim.fd_geometry_geojson (SubmitClaim.formData st') = None
            /\ SubmitClaim.fd_action_end_date (SubmitClaim.formData st') = None
            /\ SubmitClaim.fd_stated_assumptions (SubmitClaim.formData st') = [""]
            /\ SubmitClaim.fd_known_limitations (SubmitClaim.formData st') = [""]).
  { intros n f Fg Fe Fa Fl. cbn zeta. unfold SubmitClaim.on_step.
    destruct (Nat.eqb (SubmitClaim.shown w) n); [|cbn; repeat split; auto; lia].
    unfold Async.final, Async.set. cbn [fst snd].
    unfold SubmitClaim.setFormData.
    cbn [SubmitClaim.currentStep SubmitClaim.isSubmitting SubmitClaim.uploadingEvidence
         SubmitClaim.formData].
    repeat split; auto; lia. }
  destruct ev; cbn [SubmitClaim.handler];
    try (apply Hedit; first [reflexivity | assumption]).
  - (* FilesChange *)
    unfold Async.final, Async.set. cbn [fst snd]. unfold SubmitClaim.setFormData.
    cbn [SubmitClaim.currentStep SubmitClaim.isSubmitting SubmitClaim.uploadingEvidence
         SubmitClaim.formData].
    repeat split; auto; lia.
  - (* ClickNext *)
    destruct (Nat.ltb_spec (SubmitClaim.currentStep w) SubmitClaim.steps_length) as [Hlt|Hge];
      [|cbn; repeat split; auto; lia].
    unfold SubmitClaim.steps_length in Hlt.
    rewrite handleNext_result. unfold Async.final. cbn [fst snd].
    case_bool_decide as Hok; cbn; repeat split; auto; lia.
  - (* ClickPrevious *)
    destruct (Nat.eqb_spec (SubmitClaim.currentStep w) 1) as [E|E];
      cbn [orb]; [cbn; repeat split; auto; lia|].
    rewrite Hsub. cbn. repeat split; auto; lia.
  - (* ClickSubmit *)
    destruct (Nat.ltb_spec (SubmitClaim.currentStep w) SubmitClaim.steps_length) as [Hlt|Hge];
      cbn [orb]; [cbn; repeat split; auto; lia|].
    rewrite Hsub, Hup. cbn [orb].
    destruct (handleSubmit_cases env w) as [[-> _]|(_ & _ & [(e & _ & ->)|(sub & _ & H)])];
      unfold Async.final; cbn [fst snd].
    + cbn. repeat split; auto; lia.
    + cbn. repeat split; auto; lia.
    + destruct H as (_ & _ & _ & Hs & Hf & Hi & Hu).
      unfold Async.final in *. rewrite Hs, Hf, Hi, Hu.
      repeat split; auto; lia.
  - (* ExitComplete *)
    cbn. repeat split; auto; lia.
Qed.

Lemma run_wizard_invariant (today : string) (evs : list SubmitClaim.Event) :
  wizard_invariant (SubmitClaim.run today evs).
Proof.
  unfold SubmitClaim.run.
  generalize (initial_wizard_invariant today).
  generalize (SubmitClaim.initialWizard today).
  induction evs as [|ev evs IH]; intros w Hw; [exact Hw|].
  cbn. apply IH. by apply step_wizard_invariant.
Qed.

(** X4: Whatever the visitor does, the wizard stays on one of its six
    steps.  "Next" moves one step forward exactly when the validation
    of the current step passes, "Previous" moves one step back (and
    nothing moves before step 1 or past step 6); no other event changes
    the step. *)
Theorem wizard_step_stays_in_range (today : string) (evs : list SubmitClaim.Event) :
  let st := SubmitClaim.run today evs in
  let current := SubmitClaim.currentStep st in
  (1 <= current <= 6)
  /\ forall ev,
       SubmitClaim.currentStep (SubmitClaim.step st ev) =
       match ev with
       | SubmitClaim.ClickNext =>
           if Nat.ltb current 6
              && bool_decide (SubmitClaim.newErrors (SubmitClaim.formData st) current = ∅)
           then current + 1 else current
       | SubmitClaim.ClickPrevious => if Nat.eqb current 1 then 1 else current - 1
       | _ => current
       end.
Proof.
  cbn zeta.
  destruct (run_wizard_invariant today evs) as (Hstep & Hsub & Hup & _).
  split; [exact Hstep|].
  generalize dependent (SubmitClaim.run today evs). intros w Hstep Hsub Hup ev.
  unfold SubmitClaim.step. cbn [SubmitClaim.cells].
  destruct ev; cbn [SubmitClaim.handler]; unfold SubmitClaim.on_step;
    try (destruct (Nat.eqb _ _); reflexivity); try reflexivity.
  - destruct (Nat.ltb_spec (SubmitClaim.currentStep w) SubmitClaim.steps_length) as [Hlt|Hge];
      unfold SubmitClaim.steps_length in *.
    + rewrite handleNext_result. unfold Async.final. cbn [fst snd].
      destruct (Nat.ltb_spec (SubmitClaim.currentStep w) 6) as [_|?]; [|lia].
      cbn [andb]. destruct (bool_decide _); cbn; lia.
    + destruct (Nat.ltb_spec (SubmitClaim.currentStep w) 6) as [?|_]; [lia|].
      reflexivity.
  - rewrite Hsub, orb_false_r.
    destruct (Nat.eqb_spec (SubmitClaim.currentStep w) 1) as [E|E]; cbn; lia.
  - destruct (_ || _); [reflexivity|].
    destruct (handleSubmit_cases env w) as [[-> _]|(_ & _ & [(e & _ & ->)|(sub & _ & H)])];
      [reflexivity | reflexivity |].
    by destruct H as (_ & _ & _ & Hs & _).
Qed.

(** What a submission built from a form holds. *)
Lemma buildSubmission_fields (env : SubmitClaim.Env) (fd : SubmitClaim.FormData)
    (sub : Types.ClaimSubmission) :
  SubmitClaim.buildSubmission env fd = Resolved sub ->
  Types.sub_claim_type sub = SubmitClaim.fd_claim_type fd
  /\ Types.sub_title sub = SubmitClaim.fd_title fd
  /\ Types.sub_description sub = SubmitClaim.fd_description fd
  /\ Types.sub_submitter_name sub = SubmitClaim.fd_submitter_name fd
  /\ Types.sub_submitter_contact sub = SubmitClaim.fd_submitter_contact fd
  /\ Types.sub_location sub
     = (fun l => Types.mkGeoLocation (SubmitClaim.lat l) (SubmitClaim.lng l) None)
         <$> SubmitClaim.fd_location fd
  /\ Types.sub_geometry_geojson sub = SubmitClaim.fd_geometry_geojson fd
  /\ Types.sub_area_hectares sub = SubmitClaim.fd_area_hectares fd
  /\ Types.min_tonnes_co2e (Types.sub_carbon_impact_estimate sub)
     = Types.min_tonnes_co2e (SubmitClaim.fd_carbon_impact_estimate fd)
  /\ Types.max_tonnes_co2e (Types.sub_carbon_impact_estimate sub)
     = Types.max_tonnes_co2e (SubmitClaim.fd_carbon_impact_estimate fd)
  /\ SubmitClaim.toISOString env (SubmitClaim.fd_action_start_date fd)
     = Resolved (Types.sub_action_start_date sub)
  /\ (SubmitClaim.fd_action_end_date fd = None -> Types.sub_action_end_date sub = None)
  /\ Types.sub_stated_assumptions sub
     = Some (filter (fun a => JS.truthy_string (JS.trim a) = true)
                    (SubmitClaim.fd_stated_assumptions fd))
  /\ Types.sub_known_limitations sub
     = Some (filter (fun l => JS.truthy_string (JS.trim l) = true)
                    (SubmitClaim.fd_known_limitations fd)).
Proof.
  unfold SubmitClaim.buildSubmission.
  destruct (SubmitClaim.toISOString env (SubmitClaim.fd_action_start_date fd)) as [start|];
    [|discriminate].
  destruct (SubmitClaim.fd_action_end_date fd) as [d|].
  - destruct (JS.truthy_string d); [destruct (SubmitClaim.toISOString env d)|];
      try discriminate; intros [= <-]; cbn;
      repeat split; try reflexivity; discriminate.
  - intros [= <-]. cbn. repeat split; reflexivity.
Qed.

(** X5: Whatever the visitor does from the initial wizard, every claim
    request the wizard sends comes from the "Submit Claim" button of
    the last step and carries a location and a range with
    max > min > 0, which that button checks again; it never carries a
    geometry, an end date, an assumption or a limitation, for which
    the wizard has no input.  Title, description and submitter name are
    sent as the form holds them: the button does not repeat the
    validation of step 2, and the inputs of a step stay live while its
    content leaves, so that any title at all, also one that step 2
    refuses, can be sent. *)
Theorem wizard_checks_at_submission (today : string) (evs : list SubmitClaim.Event) :
  let w := SubmitClaim.run today evs in
  (forall ev sub,
      SubmitClaim.ApiSubmitClaim sub ∈ Async.effects (SubmitClaim.handler w ev w) ->
      (SubmitClaim.currentStep w = 6 /\ exists env, ev = SubmitClaim.ClickSubmit env)
      /\ Types.sub_title sub = SubmitClaim.fd_title (SubmitClaim.formData w)
      /\ Types.sub_description sub = SubmitClaim.fd_description (SubmitClaim.formData w)
      /\ Types.sub_submitter_name sub
         = SubmitClaim.fd_submitter_name (SubmitClaim.formData w)
      /\ is_Some (Types.sub_location sub)
      /\ (0 < Types.min_tonnes_co2e (Types.sub_carbon_impact_estimate sub))%Q
      /\ (Types.min_tonnes_co2e (Types.sub_carbon_impact_estimate sub)
          < Types.max_tonnes_co2e (Types.sub_carbon_impact_estimate sub))%Q
      /\ Types.sub_geometry_geojson sub = None
      /\ Types.sub_action_end_date sub = None
      /\ Types.sub_stated_assumptions sub = Some []
      /\ Types.sub_known_limitations sub = Some [])
  /\ (forall title,
        let late := SubmitClaim.run today (Samples.late_title title) in
        SubmitClaim.shown (SubmitClaim.run today (take 6 (Samples.late_title title))) = 2
        /\ SubmitClaim.currentStep
             (SubmitClaim.run today (take 6 (Samples.late_title title))) = 3
        /\ exists sub,
             SubmitClaim.ApiSubmitClaim sub
               ∈ Async.effects
                   (SubmitClaim.handler late (SubmitClaim.ClickSubmit Samples.upload_fails)
                                        late)
             /\ Types.sub_title sub = title).
Proof.
  cbn zeta. split.
  - intros ev sub Hin.
    destruct (run_wizard_invariant today evs) as (Hstep & Hsub & Hup & Hg & Hend & Ha & Hl).
    apply wizard_effects in Hin as (env & -> & Hge & Hin).
    assert (Hsix : SubmitClaim.currentStep (SubmitClaim.run today evs) = 6) by lia.
    destruct (handleSubmit_cases env (SubmitClaim.run today evs))
      as [[Hr _]|(Hok & Hloc & [(e & _ & Hr)|(sub' & Hb & Hhd & Htl & _)])];
      try (rewrite Hr in Hin; unfold Async.effects in Hin; cbn in Hin;
           rewrite ?elem_of_cons, elem_of_nil in Hin;
           repeat destruct Hin as [Hin|Hin]; try discriminate; contradiction).
    assert (sub = sub') as <-.
    { destruct (Async.effects _) as [|x l]; [by apply elem_of_nil in Hin|].
      cbn in Hhd, Htl. injection Hhd as ->.
      apply elem_of_cons in Hin as [[= ->]|Hin]; [reflexivity|].
      by destruct (Htl sub). }
    apply buildSubmission_fields in Hb
      as (_ & -> & -> & -> & _ & -> & -> & _ & -> & -> & _ & He & -> & ->).
    apply newErrors4_empty in Hok as (Hmin & Hmax & _).
    rewrite Ha, Hl.
    destruct Hloc as [[l Hl']|[g Hg']]; [|rewrite Hg in Hg'; discriminate].
    rewrite Hl'. cbn. repeat split; eauto.
  - intros title. split; [reflexivity|]. split; [reflexivity|].
    eexists. split; [vm_compute; apply list_elem_of_here | reflexivity].
Qed.

(** ** Areas and the map selector *)

Lemma calculateArea_nonneg (vertices : list (Q * Q)) :
  (0 <= SubmitClaim.calculateArea vertices)%Q.
Proof.
  unfold SubmitClaim.calculateArea.
  destruct (Nat.ltb (length vertices) 3); [apply Qle_refl|].
  pose proof (Qabs_nonneg (SubmitClaim.shoelace vertices / 2)) as H.
  apply Qle_shift_div_l; [reflexivity|]. rewrite Qmult_0_l.
  repeat apply Qmult_le_0_compat; try assumption; discriminate.
Qed.

(** X6: The area the wizard stores is never negative, and it is 0 for a
    polygon of fewer than three vertices: an empty one, a single vertex
    and a pair of vertices. *)
Theorem calculateArea_facts (vertices : list (Q * Q)) :
  (0 <= SubmitClaim.calculateArea vertices)%Q
  /\ (length vertices < 3 -> SubmitClaim.calculateArea vertices = 0%Q).
Proof.
  split; [apply calculateArea_nonneg|].
  intros Hlen. unfold SubmitClaim.calculateArea.
  destruct (Nat.ltb_spec (length vertices) 3) as [_|Hge]; [reflexivity | lia].
Qed.

Section MapFacts.
Variable PI : Q.
Variable cos sin : Q -> Q.

Local Abbreviation handler := (MapSelector.handler PI cos sin).
Local Abbreviation step := (MapSelector.step PI cos sin).
Local Abbreviation generateBufferPolygon := (MapSelector.generateBufferPolygon PI cos sin).

(** What a handler of the selector reports, if anything. *)
Lemma map_handler_reports (st : MapSelector.State) (ev : MapSelector.Event)
    (location : SubmitClaim.FormLocation) :
  MapSelector.OnLocationSelect location ∈ Async.effects (handler st ev st) ->
  MapSelector.drawMode st = MapSelector.point
  /\ exists selected,
       MapSelector.selectedPoint (step st ev) = Some selected
       /\ location = SubmitClaim.mkFormLocation (MapSelector.lat selected)
                       (MapSelector.lng selected) (Some (MapSelector.polygon (step st ev)))
       /\ MapSelector.polygon (step st ev)
          = generateBufferPolygon selected (MapSelector.bufferRadius (step st ev)).
Proof.
  unfold MapSelector.step.
  destruct ev as [latlng|mode|newRadius]; cbn [MapSelector.handler].
  - unfold MapSelector.click.
    destruct (MapSelector.drawMode st) eqn:Hm;
      try (async_simpl; by rewrite elem_of_nil).
    async_simpl. rewrite elem_of_cons, elem_of_nil. intros [[= ->]|[]]. eauto.
  - async_simpl. by rewrite elem_of_nil.
  - destruct (MapSelector.drawMode st) eqn:Hm;
      try (async_simpl; by rewrite elem_of_nil).
    unfold MapSelector.handleBufferRadiusChange.
    destruct (MapSelector.selectedPoint st) as [selected|] eqn:Hp;
      [|async_simpl; by rewrite elem_of_nil].
    async_simpl. rewrite elem_of_cons, elem_of_nil. intros [[= ->]|[]].
    eauto.
Qed.

(** X7: Whenever the map selector reports a location, it is in ['point']
    mode, and the location is the selected point together with the
    polygon now drawn on the map: the 32 buffer vertices around that
    point for the radius now shown by the slider. *)
Theorem map_reports_buffer_of_selected_point
    (st : MapSelector.State) (ev : MapSelector.Event)
    (location : SubmitClaim.FormLocation) :
  MapSelector.OnLocationSelect location ∈ Async.effects (handler st ev st) ->
  MapSelector.drawMode st = MapSelector.point
  /\ exists selected vertices,
       MapSelector.selectedPoint (step st ev) = Some selected
       /\ MapSelector.polygon (step st ev) = vertices
       /\ SubmitClaim.lat location = MapSelector.lat selected
       /\ SubmitClaim.lng location = MapSelector.lng selected
       /\ SubmitClaim.loc_polygon location = Some vertices
       /\ vertices = generateBufferPolygon selected (MapSelector.bufferRadius (step st ev))
       /\ length vertices = 32.
Proof.
  intros Hin. apply map_handler_reports in Hin as (Hm & selected & Hp & -> & Hpoly).
  split; [assumption|].
  exists selected, (MapSelector.polygon (step st ev)).
  repeat split; try assumption. by rewrite Hpoly.
Qed.

(** X8: In the modes "Circular Area" and "Custom Polygon" nothing selects a
    location: a click on the map is ignored, the radius slider is not
    shown, and the mode buttons only change the mode. *)
Theorem map_ignores_clicks_outside_point_mode
    (st : MapSelector.State) (ev : MapSelector.Event) :
  MapSelector.drawMode st ≠ MapSelector.point ->
  Async.effects (handler st ev st) = []
  /\ MapSelector.selectedPoint (step st ev) = MapSelector.selectedPoint st
  /\ MapSelector.polygon (step st ev) = MapSelector.polygon st
  /\ MapSelector.bufferRadius (step st ev) = MapSelector.bufferRadius st
  /\ forall latlng, handler st (MapSelector.MapClick latlng) st = ([], st, Resolved tt).
Proof.
  intros Hm. unfold MapSelector.step.
  destruct ev as [latlng|mode|newRadius]; cbn [MapSelector.handler];
    unfold MapSelector.click;
    destruct (MapSelector.drawMode st); try congruence; repeat split; reflexivity.
Qed.

(** X9: The location a map event reports passes through the wizard's
    [onLocationSelect] into the form: the form holds that location, step 3
    of the wizard passes, and the stored area is the number of hectares
    shown under the map (there rounded to two decimals), which is not
    negative. *)
Theorem selected_location_reaches_the_form
    (st : MapSelector.State) (ev : MapSelector.Event)
    (location : SubmitClaim.FormLocation) (wizard : SubmitClaim.State) :
  MapSelector.OnLocationSelect location ∈ Async.effects (handler st ev st) ->
  let fd := SubmitClaim.formData
              (Async.final (SubmitClaim.onLocationSelect location wizard)) in
  SubmitClaim.fd_location fd = Some location
  /\ SubmitClaim.newErrors fd 3 = ∅
  /\ exists area,
       SubmitClaim.fd_area_hectares fd = Some area
       /\ MapSelector.shownHectares (step st ev) = Some area
       /\ (0 <= area)%Q.
Proof.
  intros Hin. apply map_handler_reports in Hin as (Hm & selected & Hp & -> & Hpoly).
  cbn zeta. split; [reflexivity|]. split.
  { apply newErrors3_empty. left. cbn. eauto. }
  exists (SubmitClaim.calculateArea (MapSelector.polygon (step st ev))).
  split; [reflexivity|]. split.
  - unfold MapSelector.shownHectares. rewrite Hp, Hpoly.
    reflexivity.
  - apply calculateArea_nonneg.
Qed.

End MapFacts.

(** An instance: a click at (1, 2) on a freshly mounted selector. *)
Lemma map_reports_buffer_of_selected_point_witness :
  let st := MapSelector.step Samples.pi Samples.cosine Samples.sine
              Samples.fresh_map (MapSelector.MapClick Samples.shore) in
  MapSelector.selectedPoint st = Some Samples.shore
  /\ length (MapSelector.polygon st) = 32.
Proof.
  cbn zeta.
  destruct (map_reports_buffer_of_selected_point Samples.pi Samples.cosine Samples.sine
              Samples.fresh_map (MapSelector.MapClick Samples.shore)
              (SubmitClaim.mkFormLocation 1 2
                 (Some (MapSelector.generateBufferPolygon Samples.pi Samples.cosine
                          Samples.sine Samples.shore 100))))
    as (_ & selected & vertices & Hp & Hv & _ & _ & _ & _ & Hlen).
  - apply list_elem_of_here.
  - split; [reflexivity|]. rewrite Hv. exact Hlen.
Defined.

(** An instance: the same click in "Custom Polygon" mode. *)
Lemma map_ignores_clicks_outside_point_mode_witness :
  MapSelector.step Samples.pi Samples.cosine Samples.sine
    Samples.polygon_map (MapSelector.MapClick Samples.shore) = Samples.polygon_map.
Proof.
  destruct (map_ignores_clicks_outside_point_mode Samples.pi Samples.cosine Samples.sine
              Samples.polygon_map (MapSelector.MapClick Samples.shore))
    as (_ & _ & _ & _ & H); [discriminate|].
  unfold MapSelector.step. by rewrite H.
Defined.

(** An instance: the click at (1, 2) seen from the initial wizard. *)
Lemma selected_location_reaches_the_form_witness :
  let location :=
    SubmitClaim.mkFormLocation 1 2
      (Some (MapSelector.generateBufferPolygon Samples.pi Samples.cosine Samples.sine
               Samples.shore 100)) in
  SubmitClaim.fd_location
    (SubmitClaim.formData
       (Async.final (SubmitClaim.onLocationSelect location
                       (SubmitClaim.initialState "2024-01-01"))))
  = Some location.
Proof.
  cbn zeta.
  apply (selected_location_reaches_the_form Samples.pi Samples.cosine Samples.sine
           Samples.fresh_map (MapSelector.MapClick Samples.shore)).
  apply list_elem_of_here.
Defined.

(** ** The transparency portal *)

Lemma filtered_elem_of (claims : list Types.Claim) (searchTerm statusFilter : string)
    (c : Types.Claim) :
  c ∈ Transparency.filtered claims searchTerm statusFilter <->
  c ∈ claims
  /\ (searchTerm = "" \/ Transparency.matchesSearch searchTerm c = true)
  /\ (statusFilter = "all" \/ Types.status_string (Types.status c) = statusFilter).
Proof.
  unfold Transparency.filtered.
  destruct (String.eqb_spec statusFilter "all") as [->|Hf]; cbn [negb];
    destruct searchTerm as [|a t]; cbn [JS.truthy_string];
    rewrite ?list_elem_of_filter; intuition congruence.
Qed.

Lemma filtered_sublist (claims : list Types.Claim) (searchTerm statusFilter : string) :
  Transparency.filtered claims searchTerm statusFilter `sublist_of` claims.
Proof.
  unfold Transparency.filtered.
  destruct (negb _), (JS.truthy_string _);
    repeat (etrans; [apply sublist_filter|]); reflexivity.
Qed.

Lemma step_filtered (st : Transparency.State) (ev : Transparency.Event) :
  let st' := Transparency.step st ev in
  Transparency.filteredClaims st'
  = Transparency.filtered (Transparency.claims st') (Transparency.searchTerm st')
                          (Transparency.statusFilter st').
Proof.
  unfold Transparency.step.
  destruct ev as [[allClaims|e]|value|value]; reflexivity.
Qed.

Lemma run_filtered (evs : list Transparency.Event) :
  let st := Transparency.run evs in
  Transparency.filteredClaims st
  = Transparency.filtered (Transparency.claims st) (Transparency.searchTerm st)
                          (Transparency.statusFilter st).
Proof.
  unfold Transparency.run.
  destruct evs as [|ev evs _] using rev_ind; [reflexivity|].
  rewrite foldl_snoc. apply step_filtered.
Qed.

(** X10: Whatever the visitor does on the transparency portal, the list
    shown is the filter of the claims loaded, for the search term and
    the status now selected: the claims whose title, description or
    submitter contains the term (letter case aside; an empty term
    keeps all) and whose status is the selected one (['all'] keeps
    all), in the order received.  With an empty term and ['all'] it is
    the whole list.  A request that fails leaves the claims and the
    list shown as they were and ends the loading state. *)
Theorem shown_claims_are_filtered (evs : list Transparency.Event) :
  let st := Transparency.run evs in
  Transparency.filteredClaims st `sublist_of` Transparency.claims st
  /\ (forall c,
        c ∈ Transparency.filteredClaims st <->
        c ∈ Transparency.claims st
        /\ (Transparency.searchTerm st = ""
            \/ Transparency.matchesSearch (Transparency.searchTerm st) c = true)
        /\ (Transparency.statusFilter st = "all"
            \/ Types.status_string (Types.status c) = Transparency.statusFilter st))
  /\ (Transparency.searchTerm st = "" /\ Transparency.statusFilter st = "all" ->
      Transparency.filteredClaims st = Transparency.claims st)
  /\ (forall e,
        let st' := Transparency.step st (Transparency.FetchSettled (Rejected e)) in
        Transparency.claims st' = Transparency.claims st
        /\ Transparency.filteredClaims st' = Transparency.filteredClaims st
        /\ Transparency.loading st' = false).
Proof.
  cbn zeta. rewrite run_filtered.
  split; [apply filtered_sublist|]. split; [intros c; apply filtered_elem_of|].
  split; [intros [-> ->]; reflexivity|].
  intros e. repeat split; reflexivity.
Qed.

#[local] Instance status_string_inj : Inj (=) (=) Types.status_string.
Proof. intros [] []; cbn; intros H; first [reflexivity | discriminate]. Qed.

Lemma getStatusCounts_lookup (claims : list Types.Claim) (s : Types.ClaimStatus) :
  Transparency.getStatusCounts claims !! Types.status_string s
  = if Nat.eqb (claims_with_status s claims) 0 then None
    else Some (claims_with_status s claims).
Proof.
  unfold Transparency.getStatusCounts.
  assert (H : forall cs (m : gmap string nat),
             (forall n, m !! Types.status_string s = Some n -> n ≠ 0) ->
             let total := default 0 (m !! Types.status_string s)
                          + claims_with_status s cs in
             foldl (fun counts claim =>
                      let key := Types.status_string (Types.status claim) in
                      <[key := default 0 (counts !! key) + 1]> counts) m cs
               !! Types.status_string s
             = if Nat.eqb total 0 then None else Some total).
  { induction cs as [|c cs IH]; intros m Hm; cbn zeta.
    - unfold claims_with_status. cbn. rewrite Nat.add_0_r.
      destruct (m !! Types.status_string s) as [n|] eqn:E; cbn; [|reflexivity].
      specialize (Hm n eq_refl). destruct n; [congruence | reflexivity].
    - cbn [foldl]. rewrite IH.
      + unfold claims_with_status. rewrite filter_cons.
        destruct (decide (Types.status c = s)) as [->|Hne].
        * rewrite lookup_insert_eq. cbn [default length]. unfold id.
          match goal with
          | |- (if (?a =? 0)%nat then _ else _) = (if (?b =? 0)%nat then _ else _) =>
              replace a with b by lia
          end.
          reflexivity.
        * rewrite lookup_insert_ne by (intros E; apply Hne; by apply (inj _) in E).
          reflexivity.
      + intros n. destruct (decide (Types.status c = s)) as [->|Hne].
        * rewrite lookup_insert_eq. intros [= <-]. lia.
        * rewrite lookup_insert_ne by (intros E; apply Hne; by apply (inj _) in E).
          apply Hm. }
  rewrite (H claims ∅); [reflexivity|].
  intros n. by rewrite lookup_empty.
Qed.

Lemma claims_with_status_cons (s : Types.ClaimStatus) (c : Types.Claim)
    (cs : list Types.Claim) :
  claims_with_status s (c :: cs)
  = (if bool_decide (Types.status c = s) then 1 else 0) + claims_with_status s cs.
Proof.
  unfold claims_with_status. rewrite filter_cons.
  case_bool_decide; case_decide; try contradiction; reflexivity.
Qed.

Lemma claims_by_status (claims : list Types.Claim) :
  sum_list (map (fun s => claims_with_status s claims) Types.all_statuses)
  = length claims.
Proof.
  unfold Types.all_statuses. cbn [map sum_list sum_list_with]. unfold id.
  induction claims as [|c cs IH]; [reflexivity|].
  rewrite !claims_with_status_cons. cbn [length].
  destruct (Types.status c); repeat (case_bool_decide; try done); lia.
Qed.

Lemma getStatusCounts_default (claims : list Types.Claim) (s : Types.ClaimStatus) :
  default 0 (Transparency.getStatusCounts claims !! Types.status_string s)
  = claims_with_status s claims.
Proof.
  rewrite getStatusCounts_lookup.
  destruct (Nat.eqb_spec (claims_with_status s claims) 0) as [->|]; reflexivity.
Qed.

(** X11: [getStatusCounts] counts, for each status, the claims that have it,
    and has no entry for a status that no claim has; the counts of the
    twelve statuses add up to the number of claims.  The status
    distribution shows a bar for seven statuses only: its counts add up
    to the number of claims less those that are [ai_analysis_pending],
    [ai_analysis_in_progress], [verified], [ai_verified] or
    [ai_rejected]. *)
Theorem status_counts_add_up (claims : list Types.Claim) :
  (forall s,
      Transparency.getStatusCounts claims !! Types.status_string s
      = if Nat.eqb (claims_with_status s claims) 0 then None
        else Some (claims_with_status s claims))
  /\ sum_list (map (fun s => default 0 (Transparency.getStatusCounts claims
                                          !! Types.status_string s))
                   Types.all_statuses)
     = length claims
  /\ map fst (Transparency.distribution claims) = map Types.status_string listed_statuses
  /\ sum_list (map snd (Transparency.distribution claims))
     + sum_list (map (fun s => claims_with_status s claims) unlisted_statuses)
     = length claims.
Proof.
  split; [intros s; apply getStatusCounts_lookup|].
  split.
  { rewrite <- (claims_by_status claims). f_equal.
    apply map_ext. intros s. apply getStatusCounts_default. }
  assert (Hd : Transparency.distribution claims
               = map (fun s => (Types.status_string s,
                                default 0 (Transparency.getStatusCounts claims
                                             !! Types.status_string s)))
                     listed_statuses) by reflexivity.
  rewrite Hd, !map_map. cbn [fst snd].
  split; [reflexivity|].
  rewrite <- (claims_by_status claims).
  erewrite (map_ext _ (fun s => claims_with_status s claims))
    by (intros s; apply getStatusCounts_default).
  unfold listed_statuses, unlisted_statuses, Types.all_statuses.
  cbn [map sum_list sum_list_with].
  unfold id. lia.
Qed.

(** ** Status labels and the navigation bar *)

Lemma replace_underscores_length (s : string) :
  String.length (Utils.replace_underscores s) = String.length s.
Proof. induction s as [|c r IH]; cbn; congruence. Qed.

Lemma capitalize_words_length (b : bool) (s : string) :
  String.length (Utils.capitalize_words b s) = String.length s.
Proof. revert b. induction s as [|c r IH]; intros b; cbn; congruence. Qed.

Lemma upper_word_char_not_underscore (c : ascii) :
  c ≠ "_"%char -> Utils.upper_word_char c ≠ "_"%char.
Proof.
  destruct c as [[] [] [] [] [] [] [] []]; vm_compute; congruence.
Qed.

Lemma capitalize_words_no_underscore (b : bool) (s : string) :
  no_underscore s = true -> no_underscore (Utils.capitalize_words b s) = true.
Proof.
  revert b. induction s as [|c r IH]; intros b; cbn; [done|].
  rewrite !andb_true_iff, !negb_true_iff, !Ascii.eqb_neq.
  intros [Hc Hr]. split; [|by apply IH].
  destruct (_ && _); [by apply upper_word_char_not_underscore | assumption].
Qed.

Lemma replace_underscores_no_underscore (s : string) :
  no_underscore (Utils.replace_underscores s) = true.
Proof.
  induction s as [|c r IH]; cbn; [done|].
  rewrite IH, andb_true_r.
  destruct (Ascii.eqb_spec c "_"); [reflexivity|].
  by apply negb_true_iff, Ascii.eqb_neq.
Qed.

(** X12: Each of the twelve statuses has a label and a colour of its own in
    the tables, so the computed label and the grey default are never
    used for a declared status, and different statuses have different
    labels.  For a status that is in no table (and is not the name of
    an inherited property), the label is the status with every
    underscore replaced by a space and the first letter of each word in
    upper case: it has the length of the status and no underscore. *)
Theorem status_labels_cover_all_statuses :
  (forall s : Types.ClaimStatus,
      Utils.statusLabels !! Types.status_string s
        = Some (Utils.getStatusLabel (Types.status_string s))
      /\ Utils.statusColors !! Types.status_string s
         = Some (Utils.getStatusColor (Types.status_string s))
      /\ Utils.getStatusLabel (Types.status_string s) ≠ ""
      /\ Utils.getStatusColor (Types.status_string s) ≠ "")
  /\ (forall s1 s2 : Types.ClaimStatus,
        Utils.getStatusLabel (Types.status_string s1)
        = Utils.getStatusLabel (Types.status_string s2) -> s1 = s2)
  /\ (forall status : string,
        Utils.statusLabels !! status = None ->
        status ∉ JS.objectPrototypeNames ->
        String.length (Utils.getStatusLabel status) = String.length status
        /\ no_underscore (Utils.getStatusLabel status) = true)
  /\ Utils.getStatusLabel "needs_review" = "Needs Review".
Proof.
  split; [|split; [|split]].
  - intros []; vm_compute; repeat split; congruence.
  - intros [] []; vm_compute; congruence.
  - intros status Hnone _. unfold Utils.getStatusLabel. rewrite Hnone. cbn.
    rewrite capitalize_words_length, replace_underscores_length.
    split; [reflexivity|].
    apply capitalize_words_no_underscore, replace_underscores_no_underscore.
  - vm_compute. reflexivity.
Qed.

Lemma existsb_authority_reviewed (claims : list Types.Claim) :
  existsb (fun claim => bool_decide (Types.status claim = Types.authority_reviewed)) claims
  = bool_decide (filter (fun c => ReviewPages.reviewable Types.community c = true) claims
                 ≠ []).
Proof.
  induction claims as [|c cs IH]; [reflexivity|].
  cbn [existsb]. rewrite filter_cons.
  case_decide as Hr; unfold ReviewPages.reviewable in Hr; rewrite IH.
  - rewrite Hr. cbn [orb]. by rewrite bool_decide_eq_true_2.
  - apply not_true_is_false in Hr. by rewrite Hr.
Qed.

(** X13: The "Community" link is in the bar exactly when the last check
    found a claim with status [authority_reviewed], or failed, or when
    the visitor is on [/community]; before the first check settles it
    is hidden elsewhere.  When a check succeeds, the link is shown away
    from [/community] exactly when the community dashboard, fetching
    the same claims, lists at least one.  The other four links are
    always there, every link leads to a declared route, and opening or
    closing the mobile menu changes none of this. *)
Theorem community_link_visibility (evs : list Navbar.Event) (pathname : string) :
  let st := Navbar.run evs in
  let links st := map Navbar.path (Navbar.navItems pathname st) in
  ("/community" ∈ links st <->
     Navbar.hasAuthorityReviewedClaims st = true \/ pathname = "/community")
  /\ Navbar.hasAuthorityReviewedClaims (Navbar.run []) = false
  /\ (forall e,
        Navbar.hasAuthorityReviewedClaims
          (Navbar.step st (Navbar.CheckSettled (Rejected e))) = true)
  /\ (forall allClaims,
        Navbar.hasAuthorityReviewedClaims
          (Navbar.step st (Navbar.CheckSettled (Resolved allClaims))) = true
        <-> exists c, c ∈ allClaims /\ Types.status c = Types.authority_reviewed)
  /\ (forall allClaims submitReview getPublicClaim dashboard,
        Navbar.hasAuthorityReviewedClaims
          (Navbar.step st (Navbar.CheckSettled (Resolved allClaims))) = true
        <-> ReviewPages.claims
              (Async.final
                 (ReviewPages.fetchClaims Types.community
                    (ReviewPages.mkEnv (Resolved allClaims) submitReview getPublicClaim)
                    dashboard))
            ≠ [])
  /\ links (Navbar.step st Navbar.ToggleMenu) = links st
  /\ links (Navbar.step st Navbar.TapLink) = links st
  /\ ["/"; "/submit"; "/authority"; "/transparency"] ⊆ links st
  /\ links st ⊆ map fst AppRoutes.routes.
Proof.
  cbn zeta. generalize (Navbar.run evs). intros st.
  assert (Hcheck : forall allClaims,
            Navbar.hasAuthorityReviewedClaims
              (Navbar.step st (Navbar.CheckSettled (Resolved allClaims)))
            = bool_decide
                (filter (fun c => ReviewPages.reviewable Types.community c = true)
                        allClaims ≠ [])).
  { intros allClaims. unfold Navbar.step. cbn. apply existsb_authority_reviewed. }
  repeat split; try reflexivity.
  - unfold Navbar.navItems.
    destruct (Navbar.hasAuthorityReviewedClaims st); cbn [orb]; [auto|].
    destruct (String.eqb_spec pathname "/community") as [->|Hne]; cbn; [auto|].
    rewrite !elem_of_cons, elem_of_nil. intros H. exfalso.
    repeat destruct H as [H|H]; try discriminate; done.
  - intros [H | ->].
    + unfold Navbar.navItems. rewrite H. cbn. rewrite !elem_of_cons. auto.
    + unfold Navbar.navItems. rewrite orb_true_r. cbn. rewrite !elem_of_cons. auto.
  - rewrite Hcheck, bool_decide_eq_true. intros Hne.
    destruct (filter _ allClaims) as [|c l] eqn:E; [done|].
    assert (Hc : c ∈ filter (fun c => ReviewPages.reviewable Types.community c = true)
                            allClaims) by (rewrite E; apply list_elem_of_here).
    apply list_elem_of_filter in Hc as [Hr Hin].
    exists c. split; [assumption|].
    by apply bool_decide_eq_true in Hr.
  - intros (c & Hin & Hs). rewrite Hcheck, bool_decide_eq_true.
    intros E.
    assert (Hc : c ∈ filter (fun c => ReviewPages.reviewable Types.community c = true)
                            allClaims).
    { apply list_elem_of_filter. split; [|assumption].
      by apply bool_decide_eq_true. }
    rewrite E in Hc. by apply elem_of_nil in Hc.
  - rewrite Hcheck, bool_decide_eq_true, fetchClaims_final. done.
  - rewrite Hcheck, bool_decide_eq_true, fetchClaims_final. done.
  - unfold Navbar.navItems. intros p. rewrite !elem_of_cons, elem_of_nil.
    rewrite !map_app, !elem_of_app. cbn. rewrite !elem_of_cons.
    intuition.
  - unfold Navbar.navItems. intros p.
    destruct (_ || _); cbn; rewrite !elem_of_cons, elem_of_nil; intuition.
Qed.

(** ** Evidence cards of the claim page *)

Lemma startsWith_app (p s : string) : JS.startsWith p (p +:+ s) = true.
Proof.
  induction p as [|c p IH]; [reflexivity|].
  change (String c p +:+ s) with (String c (p +:+ s)).
  cbn [JS.startsWith]. by rewrite Ascii.eqb_refl.
Qed.

Lemma endsWith_refl (s : string) : JS.endsWith s s = true.
Proof. destruct s; cbn; by rewrite ?Ascii.eqb_refl, ?String.eqb_refl. Qed.

Lemma endsWith_app (a b s : string) :
  JS.endsWith s b = true -> JS.endsWith s (a +:+ b) = true.
Proof.
  intros H. induction a as [|c a IH]; [exact H|].
  change (String c a +:+ b) with (String c (a +:+ b)).
  cbn [JS.endsWith]. rewrite IH. apply orb_true_r.
Qed.

Lemma startsWith_head (p s : string) (c : ascii) (p' : string) :
  p = String c p' -> JS.startsWith p s = true -> exists r, s = String c r.
Proof.
  intros ->. destruct s as [|b r]; cbn; [discriminate|].
  destruct (Ascii.eqb_spec c b) as [->|]; [eauto | discriminate].
Qed.

Lemma endsWith_last (suffix s : string) :
  suffix ≠ "" -> JS.endsWith suffix s = true -> last_unit s = last_unit suffix.
Proof.
  intros Hne. induction s as [|c r IH].
  - destruct suffix; [congruence | discriminate].
  - cbn [JS.endsWith]. intros H. apply orb_true_iff in H as [H|H].
    + apply String.eqb_eq in H. by rewrite H.
    + rewrite <- (IH H). destruct r; [|reflexivity].
      destruct suffix; [congruence | discriminate].
Qed.

Lemma testExtension_last (extensions : list string) (s : string) :
  JS.testExtension extensions s = true ->
  exists e, e ∈ extensions /\ last_unit (JS.foldCase s) = last_unit ("." +:+ e).
Proof.
  unfold JS.testExtension. intros H.
  apply existsb_exists in H as (e & Hin & He).
  exists e. split; [by apply list_elem_of_In|].
  apply endsWith_last; [discriminate | exact He].
Qed.

(** No reference has both an image and a video extension. *)
Lemma image_and_video_extensions (dataRef : string) :
  JS.testExtension ["jpg"; "jpeg"; "png"; "webp"] dataRef = true ->
  ClaimDetail.isVideo dataRef = true -> False.
Proof.
  intros Hi Hv.
  apply testExtension_last in Hi as (e1 & H1 & L1).
  apply testExtension_last in Hv as (e2 & H2 & L2).
  rewrite L1 in L2.
  repeat (apply elem_of_cons in H1 as [->|H1]);
    try (by apply elem_of_nil in H1);
    repeat (apply elem_of_cons in H2 as [->|H2]);
    try (by apply elem_of_nil in H2);
    vm_compute in L2; discriminate.
Qed.

Section EvidenceFacts.
Variable API_BASE_URL : string.

Local Abbreviation getEvidenceUrl := (ClaimDetail.getEvidenceUrl API_BASE_URL).

Lemma getEvidenceUrl_Some (dataRef url : string) :
  getEvidenceUrl dataRef = Some url ->
  dataRef ≠ ""
  /\ JS.endsWith dataRef url = true
  /\ url ≠ ""
  /\ (if JS.startsWith "http" dataRef then url = dataRef
      else JS.startsWith API_BASE_URL url = true).
Proof.
  unfold ClaimDetail.getEvidenceUrl.
  destruct dataRef as [|c r]; cbn [JS.truthy_string negb]; [discriminate|].
  set (d := String c r).
  assert (Hne : forall a, a +:+ d ≠ "").
  { intros a. destruct a; discriminate. }
  destruct (JS.startsWith "http" d) eqn:Hh.
  { intros [= <-]. repeat split; [discriminate | apply endsWith_refl | discriminate]. }
  destruct (JS.startsWith "/uploads" d) eqn:Hu.
  { intros [= <-].
    repeat split; [discriminate | apply endsWith_app, endsWith_refl | apply Hne
                  | apply startsWith_app]. }
  destruct (_ || _); [discriminate|].
  intros [= <-]. repeat split.
  - discriminate.
  - do 2 apply endsWith_app. apply endsWith_refl.
  - destruct API_BASE_URL; discriminate.
  - apply startsWith_app.
Qed.

Lemma getEvidenceUrl_None (dataRef : string) :
  getEvidenceUrl dataRef = None <->
  dataRef = "" \/ JS.startsWith "gee://" dataRef = true
  \/ JS.startsWith "ai-consistency://" dataRef = true.
Proof.
  unfold ClaimDetail.getEvidenceUrl.
  destruct dataRef as [|c r]; cbn [JS.truthy_string negb]; [split; auto|].
  set (d := String c r).
  destruct (JS.startsWith "http" d) eqn:Hh.
  { apply (startsWith_head _ _ _ _ eq_refl) in Hh as [r' Hr].
    split; [discriminate|]. intros [?|[H|H]]; [discriminate| |];
      apply (startsWith_head _ _ _ _ eq_refl) in H as [r'' Hr']; congruence. }
  destruct (JS.startsWith "/uploads" d) eqn:Hu.
  { apply (startsWith_head _ _ _ _ eq_refl) in Hu as [r' Hr].
    split; [discriminate|]. intros [?|[H|H]]; [discriminate| |];
      apply (startsWith_head _ _ _ _ eq_refl) in H as [r'' Hr']; congruence. }
  destruct (JS.startsWith "gee://" d) eqn:Hg; cbn [orb]; [split; auto|].
  destruct (JS.startsWith "ai-consistency://" d) eqn:Ha; [split; auto|].
  split; [discriminate|]. intros [?|[?|?]]; discriminate.
Qed.

(** X14: [getEvidenceUrl] gives no URL exactly for an empty reference and
    for the references [gee://...] and [ai-consistency://...].  A
    reference that starts with [http] is its own URL; every other URL
    starts with the API base, and every URL ends with the reference:
    a reference under [/uploads] is appended to the base, any other
    to the base followed by [/uploads], with no separator added. *)
Theorem evidence_url_shape (dataRef : string) :
  (getEvidenceUrl dataRef = None <->
     dataRef = "" \/ JS.startsWith "gee://" dataRef = true
     \/ JS.startsWith "ai-consistency://" dataRef = true)
  /\ (forall url,
        getEvidenceUrl dataRef = Some url ->
        JS.endsWith dataRef url = true
        /\ url ≠ ""
        /\ (if JS.startsWith "http" dataRef then url = dataRef
            else JS.startsWith API_BASE_URL url = true))
  /\ getEvidenceUrl "photos/site.jpg"
     = Some (API_BASE_URL +:+ "/uploadsphotos/site.jpg").
Proof.
  split; [apply getEvidenceUrl_None|]. split; [|reflexivity].
  intros url H. by apply getEvidenceUrl_Some in H as (_ & ? & ? & ?).
Qed.

Local Abbreviation cardUrl := (ClaimDetail.cardUrl API_BASE_URL).
Local Abbreviation cardImage := (ClaimDetail.cardImage API_BASE_URL).
Local Abbreviation cardVideo := (ClaimDetail.cardVideo API_BASE_URL).
Local Abbreviation cardLink := (ClaimDetail.cardLink API_BASE_URL).

Lemma cardUrl_Some (ev : Types.EvidenceSummary) (url : string) :
  cardUrl ev = Some url ->
  url ≠ ""
  /\ exists dataRef,
       Types.es_data_ref ev = Some dataRef /\ dataRef ≠ ""
       /\ getEvidenceUrl dataRef = Some url.
Proof.
  unfold ClaimDetail.cardUrl.
  destruct (Types.es_data_ref ev) as [d|]; [|discriminate].
  destruct d as [|c r]; [discriminate|]. cbn [JS.truthy_string].
  intros H. split; [|exists (String c r); by repeat split].
  by apply getEvidenceUrl_Some in H as (_ & _ & ? & _).
Qed.

Lemma truthy_opt_string_Some (o : option string) :
  JS.truthy_opt_string o = true <-> exists s, o = Some s /\ s ≠ "".
Proof.
  destruct o as [[|c r]|]; cbn; split; try discriminate; try done.
  - intros (s & [= <-] & H). congruence.
  - intros _. eexists. split; [reflexivity | discriminate].
  - intros (s & [=] & _).
Qed.

(** X15: What the top of an evidence card shows.  An image is shown only
    with a URL, which is also the link of the card, and only for a
    reference with an image extension or for AI evidence kept under
    [/uploads]; such AI evidence is shown as an image whatever its
    extension.  A video placeholder is shown only for a reference with
    a video extension that is not shown as an image, and evidence that
    is not AI evidence never shows a video file as an image.
    References [gee://...] and [ai-consistency://...] give neither
    image, video nor link. *)
Theorem evidence_card_media (ev : Types.EvidenceSummary) :
  (forall src,
      cardImage ev = Some src ->
      cardLink ev = Some src
      /\ exists dataRef,
           Types.es_data_ref ev = Some dataRef
           /\ getEvidenceUrl dataRef = Some src
           /\ ClaimDetail.isImage dataRef (Types.es_type ev) = true)
  /\ (cardVideo ev = true ->
      cardImage ev = None
      /\ is_Some (cardLink ev)
      /\ exists dataRef,
           Types.es_data_ref ev = Some dataRef /\ ClaimDetail.isVideo dataRef = true)
  /\ (forall dataRef,
        Types.es_data_ref ev = Some dataRef ->
        ClaimDetail.isVideo dataRef = true ->
        Types.es_type ev ≠ Types.system_ai ->
        cardImage ev = None)
  /\ (forall dataRef,
        Types.es_data_ref ev = Some dataRef ->
        Types.es_type ev = Types.system_ai ->
        JS.startsWith "/uploads" dataRef = true ->
        cardImage ev = Some (API_BASE_URL +:+ dataRef) /\ cardVideo ev = false)
  /\ (forall dataRef,
        Types.es_data_ref ev = Some dataRef ->
        JS.startsWith "gee://" dataRef = true
        \/ JS.startsWith "ai-consistency://" dataRef = true ->
        cardImage ev = None /\ cardVideo ev = false /\ cardLink ev = None).
Proof.
  unfold ClaimDetail.cardImage, ClaimDetail.cardVideo, ClaimDetail.cardLink,
    ClaimDetail.isImg, ClaimDetail.isVid.
  destruct (cardUrl ev) as [url|] eqn:Hurl.
  2:{ cbn [JS.truthy_opt_string andb negb].
      split; [intros ? [=]|]. split; [discriminate|]. split; [reflexivity|].
      split; [|by repeat split].
      intros d Hd Hs Hu. exfalso. revert Hurl. unfold ClaimDetail.cardUrl. rewrite Hd.
      pose proof Hu as Hu'.
      apply (startsWith_head _ _ _ _ eq_refl) in Hu' as [r ->]. cbn [JS.truthy_string].
      unfold ClaimDetail.getEvidenceUrl. cbn [JS.truthy_string negb].
      rewrite Hu. by destruct (JS.startsWith "http" _). }
  apply cardUrl_Some in Hurl as (Hne & d & Hd & Hdne & Hget).
  assert (Ht : JS.truthy_opt_string (Some url) = true).
  { apply truthy_opt_string_Some. eauto. }
  assert (Hor : default "" (JS.or_string (Types.es_data_ref ev) (Some "")) = d).
  { rewrite Hd. destruct d; [congruence | reflexivity]. }
  rewrite Ht, Hor, !andb_true_r. cbn [andb].
  split; [|split; [|split; [|split]]].
  - intros src. destruct (ClaimDetail.isImage d _) eqn:Hi; [|discriminate].
    intros [= <-]. split; [reflexivity|]. eauto.
  - destruct (ClaimDetail.isImage d _); cbn [negb andb]; [discriminate|].
    intros Hv. repeat split; eauto.
  - intros d' Hd' Hv Hty. rewrite Hd in Hd'. injection Hd' as <-.
    destruct (ClaimDetail.isImage d _) eqn:Hi; [|reflexivity].
    exfalso. unfold ClaimDetail.isImage in Hi.
    destruct (JS.testExtension _ d) eqn:He.
    + by apply (image_and_video_extensions d).
    + destruct (Types.es_type ev); congruence.
  - intros d' Hd' Hty Hu. rewrite Hd in Hd'. injection Hd' as <-.
    assert (Hi : ClaimDetail.isImage d (Types.es_type ev) = true).
    { unfold ClaimDetail.isImage. rewrite Hty, Hu. by destruct (JS.testExtension _ _). }
    rewrite Hi. cbn [negb andb]. split; [|reflexivity].
    revert Hget. unfold ClaimDetail.getEvidenceUrl.
    pose proof Hu as Hu'.
    apply (startsWith_head _ _ _ _ eq_refl) in Hu' as [r ->].
    cbn [JS.truthy_string negb]. rewrite Hu. cbn. congruence.
  - intros d' Hd' Hs. rewrite Hd in Hd'. injection Hd' as <-.
    exfalso.
    assert (Hn : getEvidenceUrl d = None) by (apply getEvidenceUrl_None; auto).
    congruence.
Qed.

End EvidenceFacts.

(** ** The screens of the claim page *)

Section ScreenFacts.
Variable i : string.
Variable aiAnalysisPending : bool.

Local Abbreviation step := (ClaimDetail.step (Some i)).
Local Abbreviation run := (ClaimDetail.run (Some i) aiAnalysisPending).

(** A handler that leaves the dependencies of the second effect as
    they were leaves its timer as it was. *)
Lemma handler_keeps_second_timer (st : ClaimDetail.State) (ev : ClaimDetail.Event)
    (l : list ClaimDetail.Effect) (s' : ClaimDetail.State) :
  flushed st ->
  ClaimDetail.handler (Some i) st ev st = (l, s', Resolved tt) ->
  ClaimDetail.currentDeps2 s' = ClaimDetail.currentDeps2 st ->
  ClaimDetail.pollInterval2 s' = ClaimDetail.pollInterval2 st.
Proof.
  intros [Hd Hp2] Hh Hdeps. revert Hh.
  unfold ClaimDetail.handler. destruct ev as [r | r | r | env].
  - rewrite fetchClaim_settled_result. destruct r; intros [= _ <-]; reflexivity.
  - destruct (ClaimDetail.pollInterval1 st) eqn:H1.
    + rewrite (poll1_result i r st H1).
      destruct r as [data|e];
        [destruct (ClaimDetail.stopsPolling (Types.pc_status data))|];
        intros [= _ <-]; reflexivity.
    + intros [= _ <-]. reflexivity.
  - destruct (ClaimDetail.pollInterval2 st) eqn:H2; [|by intros [= _ <-]].
    destruct (Hp2 eq_refl) as (Hai & cd & Hcd & Hrun).
    rewrite (poll2_result i r st H2).
    destruct r as [data|e];
      [destruct (ClaimDetail.stopsPolling (Types.pc_status data)) eqn:Hstop|];
      intros [= _ <-]; try (cbn; assumption); exfalso;
      unfold ClaimDetail.currentDeps2 in Hdeps; cbn in Hdeps;
      rewrite Hai in Hdeps; congruence.
  - destruct (ClaimDetail.mintButtonShown st); [|by intros [= _ <-]].
    destruct (handleMint_frame env st) as (l' & s'' & Hh & _ & H2 & _).
    rewrite Hh. by intros [= _ <-].
Qed.

Lemma step_tracking (st : ClaimDetail.State) (ev : ClaimDetail.Event) :
  tracking st -> tracking (step st ev).
Proof.
  intros [Hf Ht]. split; [by apply step_flushed|].
  destruct (handler_frame i st ev) as (l & s' & Hh & Hd & H2 & _).
  rewrite (proj1 (react_result i st ev l s' Hh)).
  unfold after_commit.
  destruct (match ClaimDetail.deps2 s' with
            | Some d => ClaimDetail.deps2_eqb d (ClaimDetail.currentDeps2 s')
            | None => false
            end) eqn:Heq.
  - intros cd Hcd Hrun.
    destruct Hf as [Hdeps Hp2]. pose proof (conj Hdeps Hp2) as Hf.
    rewrite Hd, Hdeps in Heq. apply deps2_eqb_eq in Heq.
    rewrite (handler_keeps_second_timer st ev l s' Hf Hh (eq_sym Heq)).
    unfold ClaimDetail.currentDeps2 in Heq. injection Heq as Hs Ha.
    rewrite <- Ha. rewrite Hcd in Hs. cbn in Hs.
    destruct (ClaimDetail.claimData st) as [cd0|] eqn:Hcd0; [|discriminate].
    injection Hs as Hs. apply (Ht cd0 eq_refl). by rewrite Hs.
  - destruct (ClaimDetail.claimData s') as [cd'|] eqn:Hcd'; [|by intros cd [=]].
    destruct (ClaimDetail.analysisRunning (Types.pc_status cd')) eqn:Hrun'.
    + intros cd _ _. split; reflexivity.
    + cbn. intros cd [= <-]. congruence.
Qed.

Lemma run_tracking (evs : list ClaimDetail.Event) : tracking (run evs).
Proof.
  unfold ClaimDetail.run.
  assert (H0 : tracking (ClaimDetail.mounted (Some i) aiAnalysisPending)).
  { split; [apply mounted_flushed|].
    destruct aiAnalysisPending; vm_compute; intros cd [=]. }
  revert H0. generalize (ClaimDetail.mounted (Some i) aiAnalysisPending).
  induction evs as [|ev evs IH]; intros st Hst; [exact Hst|].
  cbn. apply IH. by apply step_tracking.
Qed.

(** X16: On a claim page with an [id], whatever happens: the second timer
    is armed exactly while the claim shown is under analysis
    ([ai_analysis_pending] or [ai_analysis_in_progress]); such a claim
    is always shown behind the analysis screen, a claim with status
    [ai_rejected] behind the rejection screen; and the mint button is
    offered on the page of the claim only. *)
Theorem second_timer_tracks_analysis (evs : list ClaimDetail.Event) :
  let st := run evs in
  (ClaimDetail.pollInterval2 st = true <->
     exists cd, ClaimDetail.claimData st = Some cd
                /\ ClaimDetail.analysisRunning (Types.pc_status cd) = true)
  /\ (forall cd,
        ClaimDetail.claimData st = Some cd ->
        ClaimDetail.analysisRunning (Types.pc_status cd) = true ->
        ClaimDetail.screen st = ClaimDetail.AnalysisScreen)
  /\ (forall cd,
        ClaimDetail.claimData st = Some cd ->
        Types.pc_status cd = Types.ai_rejected ->
        ClaimDetail.screen st = ClaimDetail.AIRejectedScreen)
  /\ (ClaimDetail.mintButtonShown st = true ->
      ClaimDetail.screen st = ClaimDetail.DetailScreen).
Proof.
  cbn zeta. destruct (run_tracking evs) as [[Hd Hp2] Ht].
  generalize dependent (run evs). intros st Hd Hp2 Ht.
  split; [|split; [|split]].
  - split.
    + intros H. by destruct (Hp2 H) as (_ & cd & ? & ?); eauto.
    + intros (cd & Hcd & Hrun). by destruct (Ht cd Hcd Hrun).
  - intros cd Hcd Hrun. unfold ClaimDetail.screen. rewrite Hcd.
    destruct (Ht cd Hcd Hrun) as [_ ->]. cbn [orb].
    case_bool_decide as Hs; [|reflexivity].
    rewrite Hs in Hrun. discriminate.
  - intros cd Hcd Hs. unfold ClaimDetail.screen. rewrite Hcd, Hs.
    rewrite bool_decide_eq_true_2 by reflexivity. by rewrite orb_true_r.
  - unfold ClaimDetail.mintButtonShown, ClaimDetail.screen.
    destruct (ClaimDetail.claimData st) as [cd|]; [|discriminate].
    destruct (_ || _); [discriminate|]. cbn [negb andb].
    destruct (ClaimDetail.loading st); [discriminate|]. cbn [negb andb].
    destruct (JS.truthy_opt_string _); [discriminate|]. reflexivity.
Qed.

(** X17: When a poll of the second timer finds a status that is neither
    under analysis nor one of the seven that stop the polling (that is
    [submitted], [verified] or [community_reviewed]) and the first
    timer is not armed, the page is left on the analysis screen with no
    timer armed: further ticks make no request and change nothing. *)
Theorem analysis_screen_without_polling
    (evs : list ClaimDetail.Event) (data : Types.PublicClaimResponse)
    (ticks : list ClaimDetail.Event) :
  let st := run evs in
  let st' := step st (ClaimDetail.Tick2 (Resolved data)) in
  ClaimDetail.pollInterval2 st = true ->
  ClaimDetail.pollInterval1 st = false ->
  ClaimDetail.stopsPolling (Types.pc_status data) = false ->
  ClaimDetail.analysisRunning (Types.pc_status data) = false ->
  Forall (fun ev => is_tick ev = true) ticks ->
  ClaimDetail.claimData st' = Some data
  /\ ClaimDetail.screen st' = ClaimDetail.AnalysisScreen
  /\ ClaimDetail.pollInterval1 st' = false
  /\ ClaimDetail.pollInterval2 st' = false
  /\ ClaimDetail.requests (Some i) st' ticks = []
  /\ foldl step st' ticks = st'.
Proof.
  cbn zeta. intros H2 H1 Hstop Hrun Hticks.
  pose proof (run_tracking evs) as [Hf Ht].
  pose proof (step_flushed i (run evs) (ClaimDetail.Tick2 (Resolved data)) Hf) as Hf'.
  pose proof (first_timer_stays_cleared i (run evs) (ClaimDetail.Tick2 (Resolved data)) H1)
    as H1'.
  destruct Hf as [Hd Hp2]. destruct (Hp2 H2) as (Hai & cd & Hcd & Hruncd).
  assert (Hh : ClaimDetail.handler (Some i) (run evs) (ClaimDetail.Tick2 (Resolved data))
                 (run evs)
               = ([ClaimDetail.ApiGetPublicClaim i],
                  ClaimDetail.setClaimData (Some data) (run evs), Resolved tt)).
  { cbn [ClaimDetail.handler]. rewrite H2, (poll2_result i _ _ H2), Hstop. reflexivity. }
  assert (Hstep : step (run evs) (ClaimDetail.Tick2 (Resolved data))
                  = after_commit (ClaimDetail.setClaimData (Some data) (run evs))).
  { apply (react_result i _ _ _ _ Hh). }
  assert (Hshape : ClaimDetail.claimData
                     (step (run evs) (ClaimDetail.Tick2 (Resolved data))) = Some data
                   /\ ClaimDetail.aiAnalysisInProgress
                        (step (run evs) (ClaimDetail.Tick2 (Resolved data))) = true
                   /\ ClaimDetail.pollInterval2
                        (step (run evs) (ClaimDetail.Tick2 (Resolved data))) = false).
  { rewrite Hstep. unfold after_commit.
    cbn [ClaimDetail.deps2 ClaimDetail.setClaimData ClaimDetail.claimData].
    rewrite Hd. unfold ClaimDetail.currentDeps2.
    cbn [ClaimDetail.claimData ClaimDetail.aiAnalysisInProgress ClaimDetail.setClaimData].
    rewrite Hcd, Hai, Hrun. cbn [fmap option_fmap option_map].
    destruct (ClaimDetail.deps2_eqb _ _) eqn:Heq.
    - apply deps2_eqb_eq in Heq. injection Heq as Heq. congruence.
    - cbn. auto. }
  destruct Hshape as (Hc' & Hai' & H2').
  destruct (cleared_timers_are_quiet i _ ticks Hf' H1' H2' Hticks) as [Hfix Hreq].
  repeat split; try assumption.
  unfold ClaimDetail.screen. rewrite Hc', Hai'. cbn [orb].
  case_bool_decide as Hs; [|reflexivity].
  rewrite Hs in Hstop. discriminate.
Qed.

End ScreenFacts.

(** An instance: a claim opened from a link, first seen as
    [ai_analysis_pending], then polled as [verified]. *)
Lemma analysis_screen_without_polling_witness :
  let answer s := Resolved (Samples.response s None false) in
  let st' := ClaimDetail.run (Some "c1") false
               [ClaimDetail.FetchClaimSettled (answer Types.ai_analysis_pending);
                ClaimDetail.Tick2 (answer Types.verified)] in
  ClaimDetail.screen st' = ClaimDetail.AnalysisScreen
  /\ ClaimDetail.pollInterval2 st' = false.
Proof.
  cbn zeta.
  destruct (analysis_screen_without_polling "c1" false
              [ClaimDetail.FetchClaimSettled
                 (Resolved (Samples.response Types.ai_analysis_pending None false))]
              (Samples.response Types.verified None false) [])
    as (_ & Hscreen & _ & Hp2 & _); try reflexivity; [constructor|].
  split; [exact Hscreen | exact Hp2].
Defined.


(** ** Minting from the claim page *)

(** X18: How [handleMint] ends for a claim that can be minted and has a
    verification: it never rejects and always ends with [minting]
    false.  A refused mint request is logged and reported by an
    [alert] with the detail of the response, or "Failed to mint
    credits", and the claim shown stays as it was.  When the mint
    succeeds, the claim is fetched again and the answer shown; but when
    that second request fails, the same [alert] is raised although the
    credits were minted, the claim shown is not refreshed, and a
    second click sends the same mint request again. *)
Theorem mint_failure_reporting
    (env : ClaimDetail.MintEnv) (st : ClaimDetail.State)
    (cd : Types.PublicClaimResponse) (v : Types.VerificationResult) :
  let r := ClaimDetail.handleMint env st st in
  let claimId := Types.id (Types.claim cd) in
  let request := ClaimDetail.ApiMintCredits claimId (ClaimDetail.mintAmount v) in
  ClaimDetail.claimData st = Some cd ->
  Types.verification cd = Some v ->
  Types.can_mint cd = true ->
  Async.completion r = Resolved tt
  /\ ClaimDetail.minting (Async.final r) = false
  /\ match ClaimDetail.mintCredits env claimId (ClaimDetail.mintAmount v) with
     | Rejected e =>
         Async.effects r
         = [request; ClaimDetail.ConsoleError "Error minting credits:" e;
            ClaimDetail.Alert (mint_alert e)]
         /\ ClaimDetail.claimData (Async.final r) = Some cd
     | Resolved _ =>
         match ClaimDetail.getPublicClaim env claimId with
         | Resolved updatedData =>
             Async.effects r = [request; ClaimDetail.ApiGetPublicClaim claimId]
             /\ ClaimDetail.claimData (Async.final r) = Some updatedData
         | Rejected e =>
             Async.effects r
             = [request; ClaimDetail.ApiGetPublicClaim claimId;
                ClaimDetail.ConsoleError "Error minting credits:" e;
                ClaimDetail.Alert (mint_alert e)]
             /\ ClaimDetail.claimData (Async.final r) = Some cd
             /\ forall env',
                  head (Async.effects
                          (ClaimDetail.handleMint env' (Async.final r) (Async.final r)))
                  = Some request
         end
     end.
Proof.
  cbn zeta. intros Hcd Hv Hcan.
  unfold ClaimDetail.handleMint. rewrite Hcd, Hv, Hcan. cbn [negb].
  async_unfold.
  destruct (ClaimDetail.mintCredits env _ _) as [credit|e]; cbn.
  - destruct (ClaimDetail.getPublicClaim env _) as [updatedData|e]; cbn.
    + repeat split; reflexivity.
    + do 3 (split; [reflexivity|]). split; [assumption|].
      intros env'. rewrite Hcd, Hv, Hcan. cbn.
      destruct (ClaimDetail.mintCredits env' _ _); [|reflexivity].
      by destruct (ClaimDetail.getPublicClaim env' _).
  - repeat split; try reflexivity; assumption.
Qed.

(** An instance: the mintable claim of the samples when the mint
    succeeds and the refresh is lost. *)
Lemma mint_failure_reporting_witness :
  let v := Samples.verification_with (Some (Samples.impact 10 20 None)) in
  let st := Samples.mintable (Samples.impact 10 20 None) in
  Async.effects (ClaimDetail.handleMint Samples.refresh_lost st st)
  = [ClaimDetail.ApiMintCredits "c1" (ClaimDetail.mintAmount v);
     ClaimDetail.ApiGetPublicClaim "c1";
     ClaimDetail.ConsoleError "Error minting credits:" Samples.network_error;
     ClaimDetail.Alert "Failed to mint credits"].
Proof.
  cbn zeta.
  exact (proj1 (proj2 (proj2
           (mint_failure_reporting Samples.refresh_lost
              (Samples.mintable (Samples.impact 10 20 None))
              (Samples.response Types.approved
                 (Some (Samples.verification_with (Some (Samples.impact 10 20 None))))
                 true)
              (Samples.verification_with (Some (Samples.impact 10 20 None)))
              eq_refl eq_refl eq_refl)))).
Defined.

(** ** The review dashboards: errors, selection and confidence *)

(** The full run of [handleReview] for a selected claim and notes that
    are not blank. *)
Lemma handleReview_result (role : Types.ReviewRole) (env : ReviewPages.Env)
    (st : ReviewPages.State) (d : Types.ReviewDecision) (selected : Types.Claim) :
  let sub := ReviewPages.with_decision d
               (ReviewPages.with_claim_id (Types.id selected) (ReviewPages.reviewData st)) in
  ReviewPages.selectedClaim st = Some selected ->
  ReviewPages.notes_blank (ReviewPages.reviewData st) = false ->
  ReviewPages.handleReview role env st d st =
  match ReviewPages.submitReview env sub with
  | Rejected e =>
      ([ReviewPages.ApiSubmitReview role sub;
        ReviewPages.ConsoleError "Error submitting review:" e;
        ReviewPages.Alert (review_alert e)],
       ReviewPages.setSubmitting false (ReviewPages.setSubmitting true st),
       Resolved tt)
  | Resolved _ =>
      let fetched := ReviewPages.fetchClaims role env (ReviewPages.setSubmitting true st) in
      (ReviewPages.ApiSubmitReview role sub :: Async.effects fetched,
       ReviewPages.setSubmitting false
         (ReviewPages.setReviewData (fun _ => ReviewPages.initialReviewData role)
            (match role with
             | Types.authority => fun s => s
             | Types.community => ReviewPages.setClaimData None
             end (ReviewPages.setSelectedClaim None (Async.final fetched)))),
       Resolved tt)
  end.
Proof.
  cbn zeta. intros Hsel Hnotes.
  unfold ReviewPages.handleReview. rewrite Hsel, Hnotes.
  unfold mbind, M_bind, Async.try_finally, Async.try_catch.
  unfold Async.bind at 1. unfold Async.bind at 1.
  unfold Async.set at 1. unfold Async.await at 1.
  destruct (ReviewPages.submitReview env _) as [rr|e].
  - unfold Async.bind at 1. rewrite fetchClaims_final.
    destruct (ReviewPages.getClaims env); destruct role; reflexivity.
  - reflexivity.
Qed.

(** X19: How a review that can be sent ends.  [handleReview] never rejects
    and always ends with [submitting] false.  When the request is
    refused, the error is logged and reported by an [alert] (the
    detail of the response, or "Failed to submit review"), and the
    form, the selection and the list stay as they were, so nothing
    typed is lost.  When it is accepted, the list is fetched again, the
    selection is cleared and the form is reset; if that fetch fails,
    the list keeps the claim just reviewed. *)
Theorem review_outcomes
    (role : Types.ReviewRole) (env : ReviewPages.Env) (st : ReviewPages.State)
    (d : Types.ReviewDecision) (selected : Types.Claim) :
  let sub := ReviewPages.with_decision d
               (ReviewPages.with_claim_id (Types.id selected) (ReviewPages.reviewData st)) in
  let r := ReviewPages.handleReview role env st d st in
  ReviewPages.selectedClaim st = Some selected ->
  ReviewPages.notes_blank (ReviewPages.reviewData st) = false ->
  Async.completion r = Resolved tt
  /\ ReviewPages.submitting (Async.final r) = false
  /\ match ReviewPages.submitReview env sub with
     | Rejected e =>
         Async.effects r
         = [ReviewPages.ApiSubmitReview role sub;
            ReviewPages.ConsoleError "Error submitting review:" e;
            ReviewPages.Alert (review_alert e)]
         /\ ReviewPages.reviewData (Async.final r) = ReviewPages.reviewData st
         /\ ReviewPages.selectedClaim (Async.final r) = Some selected
         /\ ReviewPages.claims (Async.final r) = ReviewPages.claims st
     | Resolved _ =>
         ReviewPages.reviewData (Async.final r) = ReviewPages.initialReviewData role
         /\ ReviewPages.selectedClaim (Async.final r) = None
         /\ (forall message, ReviewPages.Alert message ∉ Async.effects r)
         /\ match ReviewPages.getClaims env with
            | Resolved allClaims =>
                ReviewPages.claims (Async.final r)
                = filter (fun c => ReviewPages.reviewable role c = true) allClaims
            | Rejected _ =>
                ReviewPages.claims (Async.final r) = ReviewPages.claims st
            end
     end.
Proof.
  cbn zeta. intros Hsel Hnotes.
  rewrite (handleReview_result role env st d selected Hsel Hnotes).
  destruct (ReviewPages.submitReview env _) as [rr|e].
  - rewrite fetchClaims_final.
    destruct (ReviewPages.getClaims env) as [allClaims|e]; destruct role;
      unfold Async.completion, Async.final, Async.effects; cbn;
      repeat split; try reflexivity;
      intros message; rewrite ?elem_of_cons, elem_of_nil;
      intros H; repeat destruct H as [H|H]; try discriminate; done.
  - unfold Async.completion, Async.final, Async.effects; cbn.
    repeat split; try reflexivity; assumption.
Qed.

(** An instance: the review of the samples when the back end cannot be
    reached. *)
Lemma review_outcomes_witness :
  let r := ReviewPages.handleReview Types.authority Samples.offline Samples.review_state
             Types.approve Samples.review_state in
  ReviewPages.reviewData (Async.final r) = Samples.duplicate_form
  /\ ReviewPages.Alert "Failed to submit review" ∈ Async.effects r.
Proof.
  cbn zeta.
  pose proof (review_outcomes Types.authority Samples.offline Samples.review_state
                Types.approve (Samples.claim_with "b" Types.ai_verified)
                eq_refl eq_refl) as (_ & _ & H).
  cbn zeta in H. destruct H as (He & Hd & _).
  split; [exact Hd|]. rewrite He. rewrite !elem_of_cons. auto.
Defined.

Lemma initialReviewData_confidence_ok (role : Types.ReviewRole) :
  confidence_ok role (ReviewPages.initialReviewData role).
Proof.
  destruct role; cbn; [reflexivity|].
  eexists. split; [reflexivity | discriminate].
Qed.

(** Selecting a claim: the selection and the [claim_id] of the form
    change, the rest of the form stays; what the detail request does
    decides about [claimData] only. *)
Lemma handleClaimSelect_result (role : Types.ReviewRole) (env : ReviewPages.Env)
    (c : Types.Claim) (st : ReviewPages.State) :
  let r := ReviewPages.handleClaimSelect role env c st in
  Async.completion r = Resolved tt
  /\ ReviewPages.selectedClaim (Async.final r) = Some c
  /\ ReviewPages.reviewData (Async.final r)
     = ReviewPages.with_claim_id (Types.id c) (ReviewPages.reviewData st)
  /\ ReviewPages.claims (Async.final r) = ReviewPages.claims st
  /\ ReviewPages.loadingClaimData (Async.final r)
     = match role with
       | Types.authority => ReviewPages.loadingClaimData st
       | Types.community => false
       end
  /\ match ReviewPages.getPublicClaim env (Types.id c) with
     | Resolved data =>
         ReviewPages.claimData (Async.final r) = Some data
         /\ Async.effects r = [ReviewPages.ApiGetPublicClaim (Types.id c)]
     | Rejected e =>
         ReviewPages.claimData (Async.final r)
         = match role with
           | Types.authority => None
           | Types.community => ReviewPages.claimData st
           end
         /\ Async.effects r
            = [ReviewPages.ApiGetPublicClaim (Types.id c);
               ReviewPages.ConsoleError
                 match role with
                 | Types.authority => "Error fetching full claim data:"
                 | Types.community => "Error fetching claim data:"
                 end e]
     end.
Proof.
  cbn zeta. unfold ReviewPages.handleClaimSelect. async_unfold.
  destruct role; destruct (ReviewPages.getPublicClaim env _); cbn;
    repeat split; reflexivity.
Qed.

(** X20: Selecting a claim for review changes the selection and the
    [claim_id] of the form and nothing else of it: notes, positives and
    concerns typed for another claim stay in the form.  When the
    request for the details of the claim fails, the authority dashboard
    clears the details, while the community page keeps the details it
    showed before, those of the claim selected earlier if there was
    one. *)
Theorem claim_selection (role : Types.ReviewRole) (env : ReviewPages.Env)
    (c : Types.Claim) (st : ReviewPages.State) :
  let r := ReviewPages.handleClaimSelect role env c st in
  let form := ReviewPages.reviewData (Async.final r) in
  ReviewPages.selectedClaim (Async.final r) = Some c
  /\ Types.claim_id form = Types.id c
  /\ Types.notes form = Types.notes (ReviewPages.reviewData st)
  /\ Types.positives form = Types.positives (ReviewPages.reviewData st)
  /\ Types.concerns form = Types.concerns (ReviewPages.reviewData st)
  /\ Types.reviewer_id form = Types.reviewer_id (ReviewPages.reviewData st)
  /\ Types.confidence_score form = Types.confidence_score (ReviewPages.reviewData st)
  /\ ReviewPages.claimData (Async.final r)
     = match ReviewPages.getPublicClaim env (Types.id c), role with
       | Resolved data, _ => Some data
       | Rejected _, Types.authority => None
       | Rejected _, Types.community => ReviewPages.claimData st
       end.
Proof.
  cbn zeta.
  destruct (handleClaimSelect_result role env c st) as (_ & Hs & Hf & _ & _ & Hd).
  rewrite Hs, Hf. repeat split; try reflexivity.
  destruct (ReviewPages.getPublicClaim env _); [by destruct Hd|].
  destruct Hd as [-> _]. by destruct role.
Qed.

Section ConfidenceFacts.
Variable role : Types.ReviewRole.

Lemma step_confidence_ok (st : ReviewPages.State) (ev : ReviewPages.Event) :
  confidence_ok role (ReviewPages.reviewData st) ->
  confidence_ok role (ReviewPages.reviewData (ReviewPages.step role st ev)).
Proof.
  intros Hok. unfold ReviewPages.step.
  destruct ev as [env|row env|d env|value|value|parsed|index value|index value| |];
    cbn [ReviewPages.handler].
  - rewrite fetchClaims_final. by destruct (ReviewPages.getClaims env).
  - destruct (ReviewPages.claims st !! row) as [c|]; [|exact Hok].
    destruct (handleClaimSelect_result role env c st) as (_ & _ & -> & _).
    destruct role; exact Hok.
  - destruct (_ && _) eqn:Hb; [|exact Hok].
    apply andb_true_iff in Hb as [Hsel Hdis].
    apply bool_decide_eq_true in Hsel as [selected Hsel].
    apply negb_true_iff, orb_false_iff in Hdis as [Hnotes _].
    rewrite (handleReview_result role env st d selected Hsel Hnotes).
    destruct (ReviewPages.submitReview env _); [|exact Hok].
    unfold Async.final. cbn [fst snd].
    destruct role; apply initialReviewData_confidence_ok.
  - destruct (bool_decide _); [|exact Hok]. destruct role; exact Hok.
  - destruct (bool_decide _); [|exact Hok]. destruct role; exact Hok.
  - destruct role; [exact Hok|].
    destruct (ReviewPages.selectedClaim st); [|exact Hok].
    cbn. destruct parsed as [x|]; cbn.
    + destruct (JS.truthy_number x) eqn:Hx.
      * exists x. split; [reflexivity|].
        unfold JS.truthy_number in Hx. apply negb_true_iff in Hx.
        intros Hz. apply Qeq_bool_iff in Hz. congruence.
      * eexists. split; [reflexivity | discriminate].
    + eexists. split; [reflexivity | discriminate].
  - destruct (ReviewPages.selectedClaim st); [|exact Hok].
    unfold ReviewPages.positiveInputs. rewrite list_lookup_imap.
    destruct (default [] _ !! index); [|exact Hok]. destruct role; exact Hok.
  - destruct (ReviewPages.selectedClaim st); [|exact Hok].
    unfold ReviewPages.concernInputs. rewrite list_lookup_imap.
    destruct (default [] _ !! index); [|exact Hok]. destruct role; exact Hok.
  - destruct (bool_decide _); [|exact Hok]. destruct role; exact Hok.
  - destruct (bool_decide _); [|exact Hok]. destruct role; exact Hok.
Qed.

Lemma run_confidence_ok (evs : list ReviewPages.Event) :
  confidence_ok role (ReviewPages.reviewData (ReviewPages.run role evs)).
Proof.
  unfold ReviewPages.run.
  assert (H0 : confidence_ok role (ReviewPages.reviewData (ReviewPages.initialState role)))
    by apply initialReviewData_confidence_ok.
  revert H0. generalize (ReviewPages.initialState role).
  induction evs as [|ev evs IH]; intros st Hst; [exact Hst|].
  cbn. apply IH. by apply step_confidence_ok.
Qed.

(** X21: Whatever the reviewer does, a review request of the authority
    dashboard carries no confidence score, and one of the community
    page carries a score that is not 0: the confidence input stores
    the number typed unless it is 0 or not a number, for which it
    stores 0.8; a number outside [0, 1] is stored as typed. *)
Theorem review_confidence (evs : list ReviewPages.Event) (ev : ReviewPages.Event)
    (r : Types.ReviewRole) (sub : Types.ReviewSubmission) :
  let st := ReviewPages.run role evs in
  ReviewPages.ApiSubmitReview r sub
    ∈ Async.effects (ReviewPages.handler role st ev st) ->
  match role with
  | Types.authority => Types.confidence_score sub = None
  | Types.community =>
      exists c, Types.confidence_score sub = Some c /\ ~ (c == 0)%Q
  end
  /\ forall parsed st0,
       Types.confidence_score
         (ReviewPages.reviewData
            (Async.final (ReviewPages.onConfidenceChange parsed st0)))
       = match parsed with
         | Some x => if Qeq_bool x 0 then Some (8 # 10)%Q else Some x
         | None => Some (8 # 10)%Q
         end.
Proof.
  cbn zeta. intros Hin.
  pose proof (run_confidence_ok evs) as Hok.
  split.
  - assert (Hsub : exists d selected,
               sub = ReviewPages.with_decision d
                       (ReviewPages.with_claim_id (Types.id selected)
                          (ReviewPages.reviewData (ReviewPages.run role evs)))).
    { revert Hin.
      destruct ev as [env|row env|d env|value|value|parsed|index value|index value| |];
        cbn [ReviewPages.handler].
      - rewrite fetchClaims_final.
        destruct (ReviewPages.getClaims env); destruct role; cbn;
          rewrite ?elem_of_cons, elem_of_nil; intros H;
          repeat destruct H as [H|H]; try discriminate; done.
      - destruct (ReviewPages.claims _ !! row) as [c|];
          [|cbn; by rewrite elem_of_nil].
        destruct (handleClaimSelect_result role env c (ReviewPages.run role evs))
          as (_ & _ & _ & _ & _ & Hd).
        destruct (ReviewPages.getPublicClaim env _); destruct Hd as [_ ->];
          rewrite ?elem_of_cons, elem_of_nil; intros H;
          repeat destruct H as [H|H]; try discriminate; done.
      - destruct (_ && _); [|cbn; by rewrite elem_of_nil].
        intros H. apply handleReview_request in H as (selected & _ & _ & _ & ->).
        eauto.
      - destruct (bool_decide _); cbn; by rewrite elem_of_nil.
      - destruct (bool_decide _); cbn; by rewrite elem_of_nil.
      - destruct role; [cbn; by rewrite elem_of_nil|].
        destruct (ReviewPages.selectedClaim _); cbn; by rewrite elem_of_nil.
      - destruct (ReviewPages.selectedClaim _); [|cbn; by rewrite elem_of_nil].
        unfold ReviewPages.positiveInputs. rewrite list_lookup_imap.
        destruct (default [] _ !! index); cbn; by rewrite elem_of_nil.
      - destruct (ReviewPages.selectedClaim _); [|cbn; by rewrite elem_of_nil].
        unfold ReviewPages.concernInputs. rewrite list_lookup_imap.
        destruct (default [] _ !! index); cbn; by rewrite elem_of_nil.
      - destruct (bool_decide _); cbn; by rewrite elem_of_nil.
      - destruct (bool_decide _); cbn; by rewrite elem_of_nil. }
    destruct Hsub as (d & selected & ->). destruct role; exact Hok.
  - intros parsed st0. destruct parsed as [x|]; [|reflexivity].
    cbn. unfold JS.truthy_number. by destruct (Qeq_bool x 0).
Qed.

End ConfidenceFacts.

(** An instance: the community member of the samples approves after
    setting the confidence to 0. *)
Lemma review_confidence_witness :
  let st := ReviewPages.run Types.community Samples.zero_confidence in
  let sub := ReviewPages.with_decision Types.approve
               (ReviewPages.with_claim_id "b" (ReviewPages.reviewData st)) in
  exists c, Types.confidence_score sub = Some c /\ ~ (c == 0)%Q.
Proof.
  cbn zeta.
  refine (proj1 (review_confidence Types.community Samples.zero_confidence
                   (ReviewPages.ClickDecision Types.approve Samples.community_backend)
                   Types.community _ _)).
  vm_compute. apply list_elem_of_here.
Defined.

(** ** The timeline and its "Next Steps" text *)

(** X22: The "Next Steps" text agrees with the timeline above it: it
    announces the AI analysis, the authority review or the community
    review exactly when the entry of that stage is the active one.  It
    reads "Processing..." exactly for [ai_analysis_pending],
    [ai_analysis_in_progress] and [ai_rejected]; for these three and
    for [rejected] the timeline shows the same statuses, with no stage
    after the submission begun.  The connector below an entry is green
    exactly when the entry is completed, and no green connector
    follows one that is not green. *)
Theorem next_step_matches_timeline (claim : Types.Claim) :
  let next := ClaimTimeline.getNextStep claim in
  (entry_status claim "ai_analyzed" = Some ClaimTimeline.active <->
     next = "Your claim is being processed by our AI verification system.")
  /\ (entry_status claim "authority_review" = Some ClaimTimeline.active <->
        next = "AI analysis complete. Awaiting authority review.")
  /\ (entry_status claim "community_review" = Some ClaimTimeline.active <->
        next = "Approved by authorities. Open for community review.")
  /\ (next = "Processing..." <->
        Types.status claim ∈ [Types.ai_analysis_pending; Types.ai_analysis_in_progress;
                              Types.ai_rejected])
  /\ (map ClaimTimeline.status (ClaimTimeline.timelineEvents claim)
        = [ClaimTimeline.completed; ClaimTimeline.pending; ClaimTimeline.pending;
           ClaimTimeline.pending] <->
        Types.status claim ∈ [Types.ai_analysis_pending; Types.ai_analysis_in_progress;
                              Types.ai_rejected; Types.rejected])
  /\ exists green rest,
       ClaimTimeline.connectors claim = replicate green "bg-green-500" ++ rest
       /\ "bg-green-500" ∉ rest.
Proof.
  cbn zeta. rewrite !elem_of_cons, !elem_of_nil.
  assert (Hconn : ClaimTimeline.connectors claim =
                  match Types.status claim with
                  | Types.submitted => ["bg-green-500"; "bg-blue-500"; "bg-gray-300"]
                  | Types.ai_analysis_pending | Types.ai_analysis_in_progress
                  | Types.ai_rejected | Types.rejected =>
                      ["bg-green-500"; "bg-gray-300"; "bg-gray-300"]
                  | Types.verified | Types.ai_verified | Types.ai_analyzed =>
                      ["bg-green-500"; "bg-green-500"; "bg-blue-500"]
                  | Types.authority_reviewed | Types.community_reviewed
                  | Types.approved =>
                      ["bg-green-500"; "bg-green-500"; "bg-green-500"]
                  | Types.minted =>
                      ["bg-green-500"; "bg-green-500"; "bg-green-500"; "bg-green-500"]
                  end).
  { unfold ClaimTimeline.connectors, ClaimTimeline.timelineEvents.
    destruct (Types.status claim); reflexivity. }
  rewrite Hconn, timeline_statuses.
  unfold entry_status, ClaimTimeline.getNextStep, ClaimTimeline.timelineEvents.
  repeat match goal with |- _ /\ _ => split end;
    try (destruct (Types.status claim); vm_compute; split; intros H;
         try congruence; try tauto;
         repeat destruct H as [H|H]; congruence || contradiction).
  destruct (Types.status claim);
    first [ exists 1, ["bg-blue-500"; "bg-gray-300"]; split; [reflexivity|]
          | exists 1, ["bg-gray-300"; "bg-gray-300"]; split; [reflexivity|]
          | exists 2, ["bg-blue-500"]; split; [reflexivity|]
          | exists 3, []; split; [reflexivity|]
          | exists 4, []; split; [reflexivity|] ];
    rewrite ?elem_of_cons, elem_of_nil; intros H;
    repeat destruct H as [H|H]; discriminate || contradiction.
Qed.

(** ** The entries of the evidence uploader *)

Section UploaderEntries.
Variable maxFiles : nat.
Variable readAsDataURL : Types.File -> option string.

Local Abbreviation step := (EvidenceUploader.step maxFiles readAsDataURL).
Local Abbreviation run := (EvidenceUploader.run maxFiles readAsDataURL).
Local Abbreviation evidenceFile := (EvidenceUploader.evidenceFile readAsDataURL).

(** One promise that is never settled keeps [Promise.all] from
    settling. *)
Lemma all_never_settles random (batch : list Types.File) (file : Types.File) :
  file ∈ batch ->
  JS.startsWith "image/" (Types.file_type file) = true ->
  readAsDataURL file = None ->
  EvidenceUploader.reads batch = true
  /\ EvidenceUploader.all (imap (evidenceFile random) batch)
     = EvidenceUploader.NeverSettled.
Proof.
  intros Hin Himg Hread. revert random.
  induction batch as [|g batch IH]; intros random; [by apply elem_of_nil in Hin|].
  apply elem_of_cons in Hin as [<-|Hin].
  - split; [cbn [EvidenceUploader.reads existsb]; by rewrite Himg|].
    cbn [imap EvidenceUploader.all].
    unfold EvidenceUploader.evidenceFile at 1, EvidenceUploader.createPreview.
    by rewrite Himg, Hread.
  - destruct (IH Hin (fun k => random (S k))) as [Hreads Hall].
    split; [cbn [EvidenceUploader.reads existsb]; fold (EvidenceUploader.reads batch); rewrite Hreads; apply orb_true_r|].
    cbn [imap EvidenceUploader.all].
    change (imap (evidenceFile random ∘ S) batch)
      with (imap (evidenceFile (fun k => random (S k))) batch).
    rewrite Hall. by destruct (evidenceFile random 0 g).
Qed.

(** X23: Over any sequence of events, every entry of the uploader has the
    kind of the MIME type of its file ([image/...], [video/...],
    otherwise a document) and a preview exactly when that type is an
    image.  The list of accepted types plays no part: while there is
    room, a file that is no image is added at once, whatever its type,
    as a document if it is no video either.  An image is added when its
    read has ended, with the data URL as its preview; an image whose
    read fails is never added, and neither is any other file of its
    batch.  The upload timer of an entry marks that entry as uploaded,
    keeps every other flag, and changes nothing when the entry is not
    in the list. *)
Theorem uploader_entries_are_classified (evs : list EvidenceUploader.Event) :
  let u := run evs in
  Forall (fun f =>
            EvidenceUploader.type f
              = EvidenceUploader.getFileType (EvidenceUploader.file f)
            /\ (is_Some (EvidenceUploader.preview f) <->
                  EvidenceUploader.type f = EvidenceUploader.image))
         (EvidenceUploader.files u)
  /\ (forall random file,
        length (EvidenceUploader.files u) < maxFiles ->
        JS.startsWith "image/" (Types.file_type file) = false ->
        EvidenceUploader.files (step u (EvidenceUploader.HandleFiles random [file]))
        = EvidenceUploader.files u
          ++ [EvidenceUploader.mkEvidenceFile (random 0) file None
                (EvidenceUploader.getFileType file) false])
  /\ (forall random file url,
        length (EvidenceUploader.files u) < maxFiles ->
        JS.startsWith "image/" (Types.file_type file) = true ->
        readAsDataURL file = Some url ->
        let waiting := step u (EvidenceUploader.HandleFiles random [file]) in
        EvidenceUploader.files waiting = EvidenceUploader.files u
        /\ EvidenceUploader.files
             (step waiting
                (EvidenceUploader.PreviewsLoaded (length (EvidenceUploader.inFlight u))))
           = EvidenceUploader.files u
             ++ [EvidenceUploader.mkEvidenceFile (random 0) file (Some url)
                   EvidenceUploader.image false])
  /\ (forall random newFiles file,
        file ∈ take (maxFiles - length (EvidenceUploader.files u)) newFiles ->
        JS.startsWith "image/" (Types.file_type file) = true ->
        readAsDataURL file = None ->
        step u (EvidenceUploader.HandleFiles random newFiles) = u)
  /\ (forall i,
        let files' := EvidenceUploader.files (step u (EvidenceUploader.UploadTimer i)) in
        length files' = length (EvidenceUploader.files u)
        /\ (forall k f,
              EvidenceUploader.files u !! k = Some f ->
              exists f',
                files' !! k = Some f'
                /\ EvidenceUploader.id f' = EvidenceUploader.id f
                /\ EvidenceUploader.file f' = EvidenceUploader.file f
                /\ EvidenceUploader.uploaded f'
                   = (bool_decide (EvidenceUploader.id f = i)
                      || EvidenceUploader.uploaded f))
        /\ (i ∉ map EvidenceUploader.id (EvidenceUploader.files u) ->
            files' = EvidenceUploader.files u)).
Proof.
  cbn zeta.
  destruct (run_invariant maxFiles readAsDataURL evs) as [(Hlen & Hall & _) _].
  generalize dependent (run evs). intros u Hlen Hall.
  split; [exact Hall|]. split; [|split; [|split]].
  - intros random file Hroom Himg. rewrite step_files. cbn [storedBy].
    rewrite (filesToAdd_take maxFiles u [file]) by lia.
    destruct (maxFiles - length (EvidenceUploader.files u)) as [|n] eqn:E; [lia|].
    cbn [take]. rewrite take_nil. cbn [EvidenceUploader.reads existsb].
    rewrite Himg. cbn.
    unfold EvidenceUploader.evidenceFile, EvidenceUploader.createPreview.
    by rewrite Himg.
  - intros random file url Hroom Himg Hread.
    assert (Hbatch : EvidenceUploader.filesToAdd maxFiles u [file] = [file]).
    { rewrite filesToAdd_take by lia.
      destruct (maxFiles - length (EvidenceUploader.files u)) as [|n] eqn:E; [lia|].
      cbn. by rewrite take_nil. }
    assert (Hkind : EvidenceUploader.getFileType file = EvidenceUploader.image).
    { unfold EvidenceUploader.getFileType. by rewrite Himg. }
    split.
    + rewrite step_files. cbn [storedBy]. rewrite Hbatch.
      cbn [EvidenceUploader.reads existsb]. rewrite Himg. cbn. apply app_nil_r.
    + rewrite step_files. unfold EvidenceUploader.step at 1 2.
      cbn [EvidenceUploader.inFlight EvidenceUploader.waiting]. rewrite Hbatch.
      cbn [EvidenceUploader.reads existsb]. rewrite Himg. cbn [orb imap EvidenceUploader.all].
      unfold EvidenceUploader.evidenceFile, EvidenceUploader.createPreview.
      rewrite Himg, Hread, Hkind.
      rewrite lookup_app_r by lia. rewrite Nat.sub_diag. cbn.
      by destruct u as [[l d] c].
  - intros random newFiles file Hin Himg Hread.
    unfold EvidenceUploader.step.
    cbn [EvidenceUploader.handler EvidenceUploader.waiting].
    rewrite (filesToAdd_take maxFiles u newFiles Hlen).
    destruct (all_never_settles random _ file Hin Himg Hread) as [-> ->].
    by destruct u as [[l d] c].
  - intros i. rewrite step_files.
    split; [apply length_map|]. split.
    + intros k f Hk. rewrite list_lookup_fmap, Hk. cbn.
      destruct (decide (EvidenceUploader.id f = i)) as [Hi|Hi].
      * eexists. split; [reflexivity|]. cbn.
        by rewrite (bool_decide_eq_true_2 _ Hi).
      * exists f. rewrite (bool_decide_eq_false_2 _ Hi). auto.
    + intros Hni. clear Hlen Hall.
      induction (EvidenceUploader.files u) as [|f l IH]; [reflexivity|].
      cbn [map] in Hni |- *. apply not_elem_of_cons in Hni as [Hne Hni].
      rewrite decide_False by (intros E; by apply Hne). f_equal. by apply IH.
Qed.

End UploaderEntries.
